(** * Coreference preprocessing for Indonesian data: a shallow embedding

    This development embeds [src/id/coref/preprocess.py] (class
    [CorefDataPreprocessor]) and proves properties of its span extraction,
    link extraction, cluster building, appositive handling and mention
    filtering, of the conversion as a whole and of its statistics.  It also
    embeds the grouping done by the reader of the converted data,
    [src/id/coref/training/dataset_reader.py].

    Conventions of the embedding.
    - A Python [str] is a [string]: a sequence of 8-bit characters, read as
      the code points below 256.
    - A Python [int] is a [Z].
    - A Python [set] of integers is a [gset Z].
    - A Python [dict] keyed by integers is an insertion-ordered association
      list with unique keys ([Dict] below), because the emitted [corefs] list
      follows insertion order.
    - An exception is a value of [exn]; code that may raise returns a
      [result].
    - [print] appends a structured line to the [stdout] field of the state;
      the lines of [log_dataset_statistics] are returned by it instead. *)

From Stdlib Require Import ZArith Ascii String List Bool Lia.
From stdpp Require Import base tactics option list gmap sets strings sorting.

Local Open Scope Z_scope.

(** ** Exceptions *)

Inductive exn : Type := IndexError | KeyError | ValueError.

Inductive result (A : Type) : Type :=
| Ok (a : A)
| Raise (e : exn).
Arguments Ok {A} a.
Arguments Raise {A} e.

#[global] Instance result_ret : MRet result := λ A a, Ok a.

#[global] Instance result_bind : MBind result := λ A B k r,
  match r with
  | Ok a => k a
  | Raise e => Raise e
  end.

(** A [for] loop whose body may raise: the first exception ends the loop. *)
Fixpoint for_each {A S : Type} (body : A → S → result S) (l : list A) (s : S)
  : result S :=
  match l with
  | [] => Ok s
  | x :: l' => s' ← body x s; for_each body l' s'
  end.

(** ** Python built-ins on strings and lists *)

Module Py.

(** [len(l)] *)
Definition len {A : Type} (l : list A) : Z := Z.of_nat (length l).

(** [l[i]], negative indices counting from the end. *)
Definition index {A : Type} (l : list A) (i : Z) : result A :=
  let j := if i <? 0 then i + len l else i in
  if j <? 0 then Raise IndexError
  else match l !! Z.to_nat j with
       | Some x => Ok x
       | None => Raise IndexError
       end.

(** The bound of a slice, brought into [0 .. len]. *)
Definition clamp (n i : Z) : Z :=
  let j := if i <? 0 then i + n else i in
  Z.max 0 (Z.min n j).

(** [l[a:b]] *)
Definition slice {A : Type} (l : list A) (a b : Z) : list A :=
  let lo := clamp (len l) a in
  let hi := clamp (len l) b in
  take (Z.to_nat (hi - lo)) (drop (Z.to_nat lo) l).

(** [l.count(x)] *)
Definition count (x : string) (l : list string) : Z :=
  len (filter (λ y, y = x) l).

(** [x in l] for a list of strings. *)
Definition mem (x : string) (l : list string) : bool :=
  existsb (String.eqb x) l.

(** [enumerate(l)] *)
Definition enumerate {A : Type} (l : list A) : list (Z * A) :=
  zip (Z.of_nat <$> seq 0 (length l)) l.

(** [len(s)] for a string. *)
Definition strlen (s : string) : Z := Z.of_nat (String.length s).

(** [sub in s] *)
Fixpoint contains (sub s : string) : bool :=
  String.prefix sub s ||
  match s with
  | EmptyString => false
  | String _ s' => contains sub s'
  end.

(** [s[:-1]] *)
Fixpoint drop_last (s : string) : string :=
  match s with
  | EmptyString => EmptyString
  | String c EmptyString => EmptyString
  | String c s' => String c (drop_last s')
  end.

(** [s[n:]] for [n >= 0]. *)
Fixpoint slice_from (n : nat) (s : string) : string :=
  match n, s with
  | O, _ => s
  | S n', EmptyString => EmptyString
  | S n', String _ s' => slice_from n' s'
  end.

(** [s.split(sep)] for a separator that is not empty (every call site
    passes a literal).  [skip] counts the characters of a separator that
    was just matched and remain to be passed over; [cur] is the current
    field, reversed. *)
Fixpoint split_aux (sep : string) (skip : nat) (cur : string) (s : string)
  : list string :=
  match s with
  | EmptyString => [String.rev cur]
  | String c s' =>
      match skip with
      | S k => split_aux sep k cur s'
      | O =>
          if String.prefix sep s
          then String.rev cur :: split_aux sep (String.length sep - 1) EmptyString s'
          else split_aux sep O (String c cur) s'
      end
  end.

Definition split (sep s : string) : list string :=
  split_aux sep O EmptyString s.

(** [c.isspace()] on the code points below 256. *)
Definition isspace (c : ascii) : bool :=
  let n := Z.of_nat (nat_of_ascii c) in
  ((9 <=? n) && (n <=? 13)) || ((28 <=? n) && (n <=? 32))
  || (n =? 133) || (n =? 160).

Fixpoint lstrip (s : string) : string :=
  match s with
  | EmptyString => EmptyString
  | String c s' => if isspace c then lstrip s' else s
  end.

Fixpoint rstrip (s : string) : string :=
  match s with
  | EmptyString => EmptyString
  | String c s' =>
      match rstrip s' with
      | EmptyString => if isspace c then EmptyString else String c EmptyString
      | r => String c r
      end
  end.

(** [s.strip()] *)
Definition strip (s : string) : string := rstrip (lstrip s).

Definition isdigit (c : ascii) : bool :=
  let n := Z.of_nat (nat_of_ascii c) in (48 <=? n) && (n <=? 57).

Definition digit_value (c : ascii) : Z := Z.of_nat (nat_of_ascii c) - 48.

(** Decimal digits, with single underscores allowed between digits.
    [after_digit] tells whether the previous character was a digit. *)
Fixpoint digits (acc : Z) (after_digit : bool) (s : string) : option Z :=
  match s with
  | EmptyString => if after_digit then Some acc else None
  | String c s' =>
      if isdigit c then digits (10 * acc + digit_value c) true s'
      else if Ascii.eqb c "_"%char
           then (if after_digit then digits acc false s' else None)
           else None
  end.

(** The white space [int] passes over at both ends of its argument: the
    white space of C (tab to carriage return, and the space) and, beyond
    ASCII, the Unicode white space, which below 256 is U+0085 and U+00A0.
    Unlike [str.strip] it does not pass over the separators U+001C to
    U+001F. *)
Definition int_isspace (c : ascii) : bool :=
  let n := Z.of_nat (nat_of_ascii c) in
  ((9 <=? n) && (n <=? 13)) || (n =? 32) || (n =? 133) || (n =? 160).

Fixpoint int_lstrip (s : string) : string :=
  match s with
  | EmptyString => EmptyString
  | String c s' => if int_isspace c then int_lstrip s' else s
  end.

Fixpoint int_rstrip (s : string) : string :=
  match s with
  | EmptyString => EmptyString
  | String c s' =>
      match int_rstrip s' with
      | EmptyString =>
          if int_isspace c then EmptyString else String c EmptyString
      | r => String c r
      end
  end.

(** The number of digit characters of [s]. *)
Fixpoint count_digits (s : string) : Z :=
  match s with
  | EmptyString => 0
  | String c s' => (if isdigit c then 1 else 0) + count_digits s'
  end.

(** [sys.int_info.default_max_str_digits]: a decimal numeral with more
    digit characters is refused. *)
Definition int_max_str_digits : Z := 4300.

(** [int(s)]: surrounding white space, an optional sign, decimal digits
    with single underscores between them.  The conversion raises
    [ValueError] for anything else, and for a numeral of more than
    [int_max_str_digits] digit characters (the default limit of the
    interpreter; the sign and the underscores do not count). *)
Definition int (s : string) : result Z :=
  let body := int_rstrip (int_lstrip s) in
  let parsed :=
    match body with
    | String "-"%char r => Z.opp <$> digits 0 false r
    | String "+"%char r => digits 0 false r
    | _ => digits 0 false body
    end in
  match parsed with
  | Some z =>
      if int_max_str_digits <? count_digits body then Raise ValueError
      else Ok z
  | None => Raise ValueError
  end.

End Py.

(** ** Dictionaries keyed by integers, in insertion order *)

Module Dict.

Abbreviation t V := (list (Z * V)).

(** [d.get(k)] *)
Fixpoint get {V : Type} (d : t V) (k : Z) : option V :=
  match d with
  | [] => None
  | (k', v) :: d' => if k' =? k then Some v else get d' k
  end.

(** [k in d] *)
Definition contains {V : Type} (d : t V) (k : Z) : bool :=
  match get d k with
  | Some _ => true
  | None => false
  end.

(** [d[k]] *)
Definition getitem {V : Type} (d : t V) (k : Z) : result V :=
  match get d k with
  | Some v => Ok v
  | None => Raise KeyError
  end.

(** [d[k] = v]: an existing key keeps its place, a new key goes last. *)
Fixpoint setitem {V : Type} (d : t V) (k : Z) (v : V) : t V :=
  match d with
  | [] => [(k, v)]
  | (k', v') :: d' =>
      if k' =? k then (k, v) :: d' else (k', v') :: setitem d' k v
  end.

(** The entries of [d] whose key is not [k] (keys are unique, so this
    drops the one entry of [k]). *)
Definition remove {V : Type} (d : t V) (k : Z) : t V :=
  filter (λ kv, kv.1 ≠ k) d.

(** [d.pop(k)] with no default; the popped value is not used. *)
Definition pop {V : Type} (d : t V) (k : Z) : result (t V) :=
  match get d k with
  | Some _ => Ok (remove d k)
  | None => Raise KeyError
  end.

(** [d.keys()] and [d.values()] *)
Definition keys {V : Type} (d : t V) : list Z := d.*1.
Definition values {V : Type} (d : t V) : list V := d.*2.

End Dict.

(** ** The preprocessor's data *)

Abbreviation MentionPair := (Z * Z)%type (only parsing).
Abbreviation MentionID := Z (only parsing).
Abbreviation Label := string (only parsing).
Abbreviation Cluster := (gset Z) (only parsing).

(** [MentionInformation] is a dictionary with the keys ["start"] (always
    set on creation), ["end"], ["text"], ["type"] and ["label"]. *)
Record MentionInformation : Type := {
  m_start : Z;
  m_end : option Z;
  m_text : option (list string);
  m_type : option string;
  m_label : option Z
}.

(** [{"start": i}] *)
Definition new_mention (i : Z) : MentionInformation :=
  {| m_start := i; m_end := None; m_text := None; m_type := None;
     m_label := None |}.

Definition set_end (e : Z) (m : MentionInformation) : MentionInformation :=
  {| m_start := m_start m; m_end := Some e; m_text := m_text m;
     m_type := m_type m; m_label := m_label m |}.

Definition set_text (t : list string) (m : MentionInformation)
  : MentionInformation :=
  {| m_start := m_start m; m_end := m_end m; m_text := Some t;
     m_type := m_type m; m_label := m_label m |}.

Definition set_type (t : string) (m : MentionInformation)
  : MentionInformation :=
  {| m_start := m_start m; m_end := m_end m; m_text := m_text m;
     m_type := Some t; m_label := m_label m |}.

Definition set_label (l : Z) (m : MentionInformation) : MentionInformation :=
  {| m_start := m_start m; m_end := m_end m; m_text := m_text m;
     m_type := m_type m; m_label := Some l |}.

(** Reading a key of a mention that may be missing. *)
Definition field {A : Type} (o : option A) : result A :=
  match o with
  | Some a => Ok a
  | None => Raise KeyError
  end.

Definition MENTION_TYPES : list string :=
  ["PROPER"; "PRONOUN"; "NOUN"; "VERB"; "LIST"]%string.

Definition COREFERENCE_LINK_TYPES : list string :=
  ["IDENT"; "APPOS"; "ALIAS"; "EXAPPOS"]%string.

(** The lines the preprocessor prints while it processes paragraphs. *)
Inductive line : Type :=
| PrintLabel (label : Label)
    (* print(label) *)
| PrintNotAPair (label : Label)
    (* Error: {label} does not contain a pair of mentions. Skipping... *)
| PrintAbsent (absent_mentions : list bool) (mention_pair : MentionPair).
    (* {absent_mentions} in {mention_pair} *)

Record Statistics : Type := {
  paragraph_count : Z;
  token_count : Z;
  mention_count : Z;
  cluster_count : Z;
  singleton_count : Z
}.

(** The fields of a [CorefDataPreprocessor]; [stdout] collects what it
    prints.  The two counting maps read 0 at a missing key. *)
Record State : Type := {
  _use_appos : bool;
  _use_exappos : bool;
  _use_aliases : bool;
  _remove_singletons : bool;
  _text : string;
  _tokens : list string;
  _labels : list (list Label);
  _mention_dict : Dict.t MentionInformation;
  _clusters : list Cluster;
  _aliases : list Z;
  _exappos_mentions : list Z;
  _appos_mentions : gset Z;
  _statistics : Statistics;
  _mention_types : gmap string Z;
  _link_types : gmap string Z;
  stdout : list line
}.

(** [CorefDataPreprocessor.__init__] *)
Definition __init__ (use_appos use_exappos use_aliases remove_singletons : bool)
  : State :=
  {| _use_appos := use_appos;
     _use_exappos := use_exappos;
     _use_aliases := use_aliases;
     _remove_singletons := remove_singletons;
     _text := EmptyString;
     _tokens := [];
     _labels := [];
     _mention_dict := [];
     _clusters := [];
     _aliases := [];
     _exappos_mentions := [];
     _appos_mentions := ∅;
     _statistics := {| paragraph_count := 0; token_count := 0;
                       mention_count := 0; cluster_count := 0;
                       singleton_count := 0 |};
     _mention_types := ∅;
     _link_types := ∅;
     stdout := [] |}.

(** Assignment to one field of the object: [self.f = x]. *)
Definition with_text (x : string) (st : State) : State :=
  {| _use_appos := _use_appos st; _use_exappos := _use_exappos st;
     _use_aliases := _use_aliases st;
     _remove_singletons := _remove_singletons st; _text := x;
     _tokens := _tokens st; _labels := _labels st;
     _mention_dict := _mention_dict st; _clusters := _clusters st;
     _aliases := _aliases st; _exappos_mentions := _exappos_mentions st;
     _appos_mentions := _appos_mentions st; _statistics := _statistics st;
     _mention_types := _mention_types st; _link_types := _link_types st;
     stdout := stdout st |}.

Definition with_tokens (x : list string) (st : State) : State :=
  {| _use_appos := _use_appos st; _use_exappos := _use_exappos st;
     _use_aliases := _use_aliases st;
     _remove_singletons := _remove_singletons st; _text := _text st;
     _tokens := x; _labels := _labels st; _mention_dict := _mention_dict st;
     _clusters := _clusters st; _aliases := _aliases st;
     _exappos_mentions := _exappos_mentions st;
     _appos_mentions := _appos_mentions st; _statistics := _statistics st;
     _mention_types := _mention_types st; _link_types := _link_types st;
     stdout := stdout st |}.

Definition with_labels (x : list (list Label)) (st : State) : State :=
  {| _use_appos := _use_appos st; _use_exappos := _use_exappos st;
     _use_aliases := _use_aliases st;
     _remove_singletons := _remove_singletons st; _text := _text st;
     _tokens := _tokens st; _labels := x; _mention_dict := _mention_dict st;
     _clusters := _clusters st; _aliases := _aliases st;
     _exappos_mentions := _exappos_mentions st;
     _appos_mentions := _appos_mentions st; _statistics := _statistics st;
     _mention_types := _mention_types st; _link_types := _link_types st;
     stdout := stdout st |}.

Definition with_mention_dict (x : Dict.t MentionInformation) (st : State) : State :=
  {| _use_appos := _use_appos st; _use_exappos := _use_exappos st;
     _use_aliases := _use_aliases st;
     _remove_singletons := _remove_singletons st; _text := _text st;
     _tokens := _tokens st; _labels := _labels st; _mention_dict := x;
     _clusters := _clusters st; _aliases := _aliases st;
     _exappos_mentions := _exappos_mentions st;
     _appos_mentions := _appos_mentions st; _statistics := _statistics st;
     _mention_types := _mention_types st; _link_types := _link_types st;
     stdout := stdout st |}.

Definition with_clusters (x : list Cluster) (st : State) : State :=
  {| _use_appos := _use_appos st; _use_exappos := _use_exappos st;
     _use_aliases := _use_aliases st;
     _remove_singletons := _remove_singletons st; _text := _text st;
     _tokens := _tokens st; _labels := _labels st;
     _mention_dict := _mention_dict st; _clusters := x;
     _aliases := _aliases st; _exappos_mentions := _exappos_mentions st;
     _appos_mentions := _appos_mentions st; _statistics := _statistics st;
     _mention_types := _mention_types st; _link_types := _link_types st;
     stdout := stdout st |}.

Definition with_aliases (x : list Z) (st : State) : State :=
  {| _use_appos := _use_appos st; _use_exappos := _use_exappos st;
     _use_aliases := _use_aliases st;
     _remove_singletons := _remove_singletons st; _text := _text st;
     _tokens := _tokens st; _labels := _labels st;
     _mention_dict := _mention_dict st; _clusters := _clusters st;
     _aliases := x; _exappos_mentions := _exappos_mentions st;
     _appos_mentions := _appos_mentions st; _statistics := _statistics st;
     _mention_types := _mention_types st; _link_types := _link_types st;
     stdout := stdout st |}.

Definition with_exappos_mentions (x : list Z) (st : State) : State :=
  {| _use_appos := _use_appos st; _use_exappos := _use_exappos st;
     _use_aliases := _use_aliases st;
     _remove_singletons := _remove_singletons st; _text := _text st;
     _tokens := _tokens st; _labels := _labels st;
     _mention_dict := _mention_dict st; _clusters := _clusters st;
     _aliases := _aliases st; _exappos_mentions := x;
     _appos_mentions := _appos_mentions st; _statistics := _statistics st;
     _mention_types := _mention_types st; _link_types := _link_types st;
     stdout := stdout st |}.

Definition with_appos_mentions (x : gset Z) (st : State) : State :=
  {| _use_appos := _use_appos st; _use_exappos := _use_exappos st;
     _use_aliases := _use_aliases st;
     _remove_singletons := _remove_singletons st; _text := _text st;
     _tokens := _tokens st; _labels := _labels st;
     _mention_dict := _mention_dict st; _clusters := _clusters st;
     _aliases := _aliases st; _exappos_mentions := _exappos_mentions st;
     _appos_mentions := x; _statistics := _statistics st;
     _mention_types := _mention_types st; _link_types := _link_types st;
     stdout := stdout st |}.

Definition with_statistics (x : Statistics) (st : State) : State :=
  {| _use_appos := _use_appos st; _use_exappos := _use_exappos st;
     _use_aliases := _use_aliases st;
     _remove_singletons := _remove_singletons st; _text := _text st;
     _tokens := _tokens st; _labels := _labels st;
     _mention_dict := _mention_dict st; _clusters := _clusters st;
     _aliases := _aliases st; _exappos_mentions := _exappos_mentions st;
     _appos_mentions := _appos_mentions st; _statistics := x;
     _mention_types := _mention_types st; _link_types := _link_types st;
     stdout := stdout st |}.

Definition with_mention_types (x : gmap string Z) (st : State) : State :=
  {| _use_appos := _use_appos st; _use_exappos := _use_exappos st;
     _use_aliases := _use_aliases st;
     _remove_singletons := _remove_singletons st; _text := _text st;
     _tokens := _tokens st; _labels := _labels st;
     _mention_dict := _mention_dict st; _clusters := _clusters st;
     _aliases := _aliases st; _exappos_mentions := _exappos_mentions st;
     _appos_mentions := _appos_mentions st; _statistics := _statistics st;
     _mention_types := x; _link_types := _link_types st;
     stdout := stdout st |}.

Definition with_link_types (x : gmap string Z) (st : State) : State :=
  {| _use_appos := _use_appos st; _use_exappos := _use_exappos st;
     _use_aliases := _use_aliases st;
     _remove_singletons := _remove_singletons st; _text := _text st;
     _tokens := _tokens st; _labels := _labels st;
     _mention_dict := _mention_dict st; _clusters := _clusters st;
     _aliases := _aliases st; _exappos_mentions := _exappos_mentions st;
     _appos_mentions := _appos_mentions st; _statistics := _statistics st;
     _mention_types := _mention_types st; _link_types := x;
     stdout := stdout st |}.

Definition with_stdout (x : list line) (st : State) : State :=
  {| _use_appos := _use_appos st; _use_exappos := _use_exappos st;
     _use_aliases := _use_aliases st;
     _remove_singletons := _remove_singletons st; _text := _text st;
     _tokens := _tokens st; _labels := _labels st;
     _mention_dict := _mention_dict st; _clusters := _clusters st;
     _aliases := _aliases st; _exappos_mentions := _exappos_mentions st;
     _appos_mentions := _appos_mentions st; _statistics := _statistics st;
     _mention_types := _mention_types st; _link_types := _link_types st;
     stdout := x |}.

(** [print(...)] *)
Definition print (l : line) (st : State) : State :=
  with_stdout (stdout st ++ [l]) st.

(** [any(link_type in label for link_type in COREFERENCE_LINK_TYPES)] *)
Definition is_link_label (label : Label) : bool :=
  existsb (λ link_type, Py.contains link_type label) COREFERENCE_LINK_TYPES.

(** [label.split("[")[0]]; [split] never returns an empty list. *)
Definition label_prefix (label : Label) : string :=
  hd EmptyString (Py.split "[" label).

(** ** [_extract_mentions] *)

(** [int(label.split("[")[1][:-1])]: the identifier in the bracketed suffix
    of a mention label. *)
Definition mention_id_of (label : Label) : result Z :=
  suffix ← Py.index (Py.split "[" label) 1;
  Py.int (Py.drop_last suffix).

(** [(i == len(labels) - 1) or (label not in labels[i+1])]: the label is not
    repeated at the next position. *)
Definition span_ends (labels : list (list Label)) (i : Z) (label : Label)
  : result bool :=
  if i =? Py.len labels - 1 then Ok true
  else next ← Py.index labels (i + 1);
       Ok (negb (Py.mem label next)).

(** The body of the inner loop, for the label [label] at position [i]. *)
Definition _extract_mentions_label (i : Z) (label : Label) (st : State)
  : result State :=
  if is_link_label label then Ok st
  else if Py.strlen label =? 0 then Ok st
  else
    let st :=
      if String.eqb (label_prefix label) EmptyString
      then print (PrintLabel label) st else st in
    mention_id ← mention_id_of label;
    let st :=
      if Dict.contains (_mention_dict st) mention_id then st
      else with_mention_dict
             (Dict.setitem (_mention_dict st) mention_id (new_mention i)) st in
    ends_here ← span_ends (_labels st) i label;
    if (ends_here : bool) then
      m ← Dict.getitem (_mention_dict st) mention_id;
      let m := set_end i m in
      let start := m_start m in
      let text := Py.slice (_tokens st) start (i + 1) in
      let m := set_text text m in
      let mention_type := label_prefix label in
      let m := set_type mention_type m in
      Ok (with_mention_dict (Dict.setitem (_mention_dict st) mention_id m) st)
    else Ok st.

(** The body of the outer loop: a position whose label list holds the
    placeholder is passed over as a whole. *)
Definition _extract_mentions_position (p : Z * list Label) (st : State)
  : result State :=
  if Py.mem "_" p.2 then Ok st
  else for_each (_extract_mentions_label p.1) p.2 st.

Definition _extract_mentions (st : State) : result State :=
  for_each _extract_mentions_position (Py.enumerate (_labels st)) st.

(** ** [_group_mentions_into_clusters] *)

(** [set(pair)] *)
Definition set_of_pair (pair : MentionPair) : Cluster := {[ pair.1; pair.2 ]}.

(** The inner loop with its [break]: the first cluster that meets the pair
    takes both identifiers; [None] stands for [matched == False]. *)
Fixpoint scan_clusters (pair : MentionPair) (cluster_list : list Cluster)
  : option (list Cluster) :=
  match cluster_list with
  | [] => None
  | cluster :: rest =>
      if bool_decide (set_of_pair pair ∩ cluster ≠ ∅)
      then Some ((cluster ∪ set_of_pair pair) :: rest)
      else (cluster ::.) <$> scan_clusters pair rest
  end.

(** The body of the loop over [mention_pairs[1:]]. *)
Definition add_pair (cluster_list : list Cluster) (pair : MentionPair)
  : list Cluster :=
  match scan_clusters pair cluster_list with
  | Some cluster_list' => cluster_list'
  | None => cluster_list ++ [set_of_pair pair]
  end.

Definition _group_mentions_into_clusters (mention_pairs : list MentionPair)
  : list Cluster :=
  match mention_pairs with
  | [] => []
  | first :: others => fold_left add_pair others [set_of_pair first]
  end.

(** ** [_handle_appositives] *)

(** [tuple(sorted(list(cluster)))] *)
Definition sorted_tuple (cluster : Cluster) : list Z :=
  merge_sort Z.le (elements cluster).

(** [self._mention_dict[k][...] = ...]: the entry of [k] is looked up and
    changed in place. *)
Definition update_mention (k : Z) (f : MentionInformation → MentionInformation)
  (st : State) : result State :=
  m ← Dict.getitem (_mention_dict st) k;
  Ok (with_mention_dict (Dict.setitem (_mention_dict st) k (f m)) st).

(** The body of the loop over the sorted appositive tuples. *)
Definition _handle_appositives_tuple (mention_pair : list Z) (st : State)
  : result State :=
  second ← Py.index mention_pair 1;
  let st := with_appos_mentions (_appos_mentions st ∪ {[ second ]}) st in
  if negb (_use_appos st) then Ok st
  else
    head ← Py.index mention_pair 0;
    head_info ← Dict.getitem (_mention_dict st) head;
    let span_start := m_start head_info in
    last ← Py.index mention_pair (-1);
    last_info ← Dict.getitem (_mention_dict st) last;
    new_span_end ← field (m_end last_info);
    st ← update_mention head (set_end new_span_end) st;
    st ← update_mention head
           (set_text (Py.slice (_tokens st) span_start (new_span_end + 1))) st;
    head_info ← Dict.getitem (_mention_dict st) head;
    fused_text ← field (m_text head_info);
    if Py.count "(" fused_text =? Py.count ")" fused_text + 1 then
      following ← Py.index (_tokens st) (new_span_end + 1);
      if String.eqb following ")" then
        head_info ← Dict.getitem (_mention_dict st) head;
        old_end ← field (m_end head_info);
        st ← update_mention head (set_end (old_end + 1)) st;
        update_mention head
          (set_text (Py.slice (_tokens st) span_start (new_span_end + 2))) st
      else Ok st
    else Ok st.

Definition _handle_appositives (appositive_pairs : list MentionPair)
  (st : State) : result State :=
  let appos_clusters := _group_mentions_into_clusters appositive_pairs in
  let clustered_appositive_pairs := sorted_tuple <$> appos_clusters in
  for_each _handle_appositives_tuple clustered_appositive_pairs st.

(** ** [_extract_coreference_links] *)

(** [d[k] += 1] on a counting map that reads 0 at a missing key. *)
Definition increment (k : string) (d : gmap string Z) : gmap string Z :=
  <[ k := default 0 (d !! k) + 1 ]> d.

(** The object together with the two local lists [mention_pairs] and
    [appositive_pairs] of the first loop. *)
Record Links : Type := {
  self : State;
  mention_pairs : list MentionPair;
  appositive_pairs : list MentionPair
}.

(** The start of the accumulator of the first loop of
    [_extract_coreference_links]. *)
Definition no_links (st : State) : Links :=
  {| self := st; mention_pairs := []; appositive_pairs := [] |}.

(** The body of the first loop, for one label. *)
Definition _extract_coreference_links_label (label : Label) (acc : Links)
  : result Links :=
  let st := self acc in
  if is_link_label label then
    suffix ← Py.index (Py.split "[" label) 1;
    let mention_pair := Py.split "_" (Py.drop_last suffix) in
    let label_class := label_prefix label in
    if negb (Py.len mention_pair =? 2) then
      Ok {| self := print (PrintNotAPair label) st;
            mention_pairs := mention_pairs acc;
            appositive_pairs := appositive_pairs acc |}
    else
      let st := with_link_types (increment label_class (_link_types st)) st in
      first ← Py.index mention_pair 0;
      a ← Py.int first;
      second ← Py.index mention_pair 1;
      b ← Py.int second;
      let mention_pair : MentionPair := (a, b) in
      if String.eqb label_class "APPOS" then
        Ok {| self := st;
              mention_pairs := mention_pairs acc;
              appositive_pairs := appositive_pairs acc ++ [mention_pair] |}
      else
        let st :=
          if negb (_use_aliases st) then
            if String.eqb label_class "ALIAS"
            then with_aliases (_aliases st ++ [mention_pair.2]) st
            else st
          else st in
        let st :=
          if negb (_use_exappos st) then
            if String.eqb label_class "EXAPPOS"
            then with_exappos_mentions
                   (_exappos_mentions st ++ [mention_pair.2]) st
            else st
          else st in
        Ok {| self := st;
              mention_pairs := mention_pairs acc ++ [mention_pair];
              appositive_pairs := appositive_pairs acc |}
  else Ok acc.

(** The first loop: every label of every position. *)
Definition read_links (st : State) : result Links :=
  for_each (λ label_list acc,
              for_each _extract_coreference_links_label label_list acc)
    (_labels st) (no_links st).

(** The second loop: pairs that name a mention not in the dictionary are
    printed. *)
Definition report_absent (pairs : list MentionPair) (st : State) : State :=
  fold_left
    (λ st mention_pair,
       let absent_mentions :=
         [negb (Dict.contains (_mention_dict st) mention_pair.1);
          negb (Dict.contains (_mention_dict st) mention_pair.2)] in
       if existsb id absent_mentions
       then print (PrintAbsent absent_mentions mention_pair) st
       else st)
    pairs st.

(** [{mention for mention_pair in mention_pairs for mention in mention_pair}] *)
Definition endpoints (pairs : list MentionPair) : gset Z :=
  ⋃ (set_of_pair <$> pairs).

(** The third loop: appositive mentions that no coreference pair names are
    popped.  The set is gone through in the order of [elements]; the order
    Python takes is not modelled, and does not matter: whether the loop
    raises and the dictionary it leaves depend on the set only
    ([drop_loop_Ok], [drop_appositives_result]). *)
Definition drop_appositives (pairs : list MentionPair) (st : State)
  : result State :=
  for_each
    (λ mention st,
       if bool_decide (mention ∉ endpoints pairs)
       then d ← Dict.pop (_mention_dict st) mention;
            Ok (with_mention_dict d st)
       else Ok st)
    (elements (_appos_mentions st)) st.

Definition _extract_coreference_links (st : State) : result State :=
  links ← read_links st;
  let st := report_absent (mention_pairs links) (self links) in
  st ← _handle_appositives (appositive_pairs links) st;
  st ← drop_appositives (mention_pairs links) st;
  Ok (with_clusters (_group_mentions_into_clusters (mention_pairs links)) st).

(** ** [_assign_mentions_to_clusters] *)

(** The inner loop with its [break]: the index of the first cluster that
    holds [mention_id], counted from [i]. *)
Fixpoint first_cluster (mention_id : Z) (i : Z) (clusters : list Cluster)
  : option Z :=
  match clusters with
  | [] => None
  | cluster :: rest =>
      if bool_decide (mention_id ∈ cluster) then Some i
      else first_cluster mention_id (i + 1) rest
  end.

(** The loop over the items of the dictionary: the entries seen so far
    (labelled where a cluster was found), the singleton count and the
    list of singletons. *)
Fixpoint label_mentions (clusters : list Cluster)
  (items : Dict.t MentionInformation) (count : Z) (singletons : list Z)
  : Dict.t MentionInformation * Z * list Z :=
  match items with
  | [] => ([], count, singletons)
  | (mention_id, mention_info) :: rest =>
      match first_cluster mention_id 0 clusters with
      | Some i =>
          let '(d, c, s) := label_mentions clusters rest count singletons in
          ((mention_id, set_label i mention_info) :: d, c, s)
      | None =>
          let '(d, c, s) :=
            label_mentions clusters rest (count + 1)
              (singletons ++ [mention_id]) in
          ((mention_id, mention_info) :: d, c, s)
      end
  end.

Definition with_singleton_count (n : Z) (s : Statistics) : Statistics :=
  {| paragraph_count := paragraph_count s; token_count := token_count s;
     mention_count := mention_count s; cluster_count := cluster_count s;
     singleton_count := n |}.

Definition pop_mention (mention_id : Z) (st : State) : result State :=
  d ← Dict.pop (_mention_dict st) mention_id;
  Ok (with_mention_dict d st).

Definition _assign_mentions_to_clusters (st : State) : result State :=
  let '(d, c, singletons) :=
    label_mentions (_clusters st) (_mention_dict st)
      (singleton_count (_statistics st)) [] in
  let st := with_mention_dict d st in
  let st := with_statistics (with_singleton_count c (_statistics st)) st in
  if _remove_singletons st then for_each pop_mention singletons st
  else Ok st.

(** ** [_remove_aliases] and [_remove_exappos] *)

(** The body of both loops: pop the mention, then rebuild every cluster
    without it. *)
Definition remove_mention (mention_id : Z) (st : State) : result State :=
  st ← pop_mention mention_id st;
  Ok (with_clusters ((λ cluster, cluster ∖ {[ mention_id ]}) <$> _clusters st) st).

Definition _remove_aliases (st : State) : result State :=
  if 0 <? Py.len (_aliases st)
  then for_each remove_mention (_aliases st) st
  else Ok st.

Definition _remove_exappos (st : State) : result State :=
  if 0 <? Py.len (_exappos_mentions st)
  then for_each remove_mention (_exappos_mentions st) st
  else Ok st.

(** ** [get_paragraph_data] *)

Definition newline : string := String (ascii_of_nat 10) EmptyString.
Definition tab : string := String (ascii_of_nat 9) EmptyString.

(** The body of the loop over [lines[1:]], on the local lists [tokens] and
    [labels]. *)
Definition get_paragraph_data_line (line : string)
  (acc : list string * list (list Label))
  : result (list string * list (list Label)) :=
  let columns := Py.split tab line in
  if Py.len columns =? 1 then Ok acc
  else
    token ← Py.index columns 2;
    label_column ← Py.index columns 3;
    Ok (acc.1 ++ [token], acc.2 ++ [Py.split "|" label_column]).

Definition get_paragraph_data (paragraph : string) (st : State)
  : result State :=
  let lines := Py.split newline (Py.strip paragraph) in
  first_line ← Py.index lines 0;
  let text := Py.slice_from 6 first_line in
  '(tokens, labels) ← for_each get_paragraph_data_line (tail lines) ([], []);
  Ok (with_labels labels (with_tokens tokens (with_text text st))).

(** ** [get_coref_info] *)

Definition get_coref_info (st : State) : result State :=
  st ← _extract_mentions st;
  st ← _extract_coreference_links st;
  st ← _assign_mentions_to_clusters st;
  st ← (if negb (_use_aliases st) then _remove_aliases st else Ok st);
  if negb (_use_exappos st) then _remove_exappos st else Ok st.

(** ** [reset] *)

Definition reset (st : State) : State :=
  let st := with_text EmptyString st in
  let st := with_tokens [] st in
  let st := with_labels [] st in
  let st := with_mention_dict [] st in
  let st := with_clusters [] st in
  let st := with_aliases [] st in
  with_appos_mentions ∅ st.

(** ** [_accumulate_mention_type_counts] *)

Definition _accumulate_mention_type_counts (st : State) : result State :=
  for_each
    (λ mention st,
       mention_type ← field (m_type mention);
       Ok (with_mention_types (increment mention_type (_mention_types st)) st))
    (Dict.values (_mention_dict st)) st.

(** ** [convert_tsv_to_jsonl] *)

(** One emitted record: [{"text": ..., "tokens": ..., "corefs": ...}]. *)
Record ParagraphDict : Type := {
  text : string;
  tokens : list string;
  corefs : list MentionInformation
}.

Definition count_paragraph (st : State) : Statistics :=
  let s := _statistics st in
  {| paragraph_count := paragraph_count s + 1;
     token_count := token_count s + Py.len (_tokens st);
     mention_count := mention_count s + Py.len (Dict.keys (_mention_dict st));
     cluster_count := cluster_count s + Py.len (_clusters st);
     singleton_count := singleton_count s |}.

(** The body of the loop over the paragraphs; [output_data] is the local
    list of records. *)
Definition convert_paragraph (paragraph : string)
  (acc : State * list ParagraphDict) : result (State * list ParagraphDict) :=
  let '(st, output_data) := acc in
  st ← get_paragraph_data paragraph st;
  st ← get_coref_info st;
  let paragraph_dict :=
    {| text := _text st; tokens := _tokens st;
       corefs := Dict.values (_mention_dict st) |} in
  let output_data := output_data ++ [paragraph_dict] in
  let st := with_statistics (count_paragraph st) st in
  st ← _accumulate_mention_type_counts st;
  Ok (reset st, output_data).

(** [convert_tsv_to_jsonl] from the contents [data] of the input file up to
    the list of records handed to the writer.  Writing the file and printing
    the statistics are left out. *)
Definition convert_tsv_to_jsonl (data : string) (st : State)
  : result (State * list ParagraphDict) :=
  let paragraphs := Py.split (newline +:+ newline) data in
  for_each convert_paragraph paragraphs (st, []).

(** ** [log_dataset_statistics] *)

(** The lines [log_dataset_statistics] prints.  An average is kept as its
    numerator and denominator: the float and its rounding to one decimal are
    not modelled.  The lines of the two counting maps are kept as the map:
    the order in which a Python dict is gone through is not modelled for
    them. *)
Inductive statistics_line : Type :=
| PrintHeader
    (* Statistics: *)
| PrintCount (what : string) (n : Z)
    (* Number of {what}: {n} *)
| PrintAverage (what : string) (numerator denominator : Z)
    (* Average {what}: {(numerator / denominator):.1f} *)
| PrintSingletons (n : Z)
    (* Singleton mentions removed: {n} *)
| PrintLinkTypes (counts : gmap string Z)
    (* {link_type}: {count} links, for every item *)
| PrintBlank
| PrintMentionTypes (counts : gmap string Z).
    (* {mention_type}: {count} mentions, for every item *)

(** The outcome of a call: the lines printed, and whether a division by
    zero ended the call. *)
Inductive logged : Type :=
| Logged (lines : list statistics_line)
| ZeroDivisionError (lines : list statistics_line).

(** The lines are returned instead of being added to [stdout].  A division
    is evaluated before its line is printed, so a division by zero ends the
    call with the lines before it.  (The [OverflowError] of a quotient too
    large for a float is not modelled.) *)
Definition log_dataset_statistics (st : State) : logged :=
  let paragraph_count := paragraph_count (_statistics st) in
  let token_count := token_count (_statistics st) in
  let mention_count := mention_count (_statistics st) in
  let cluster_count := cluster_count (_statistics st) in
  let singleton_count := singleton_count (_statistics st) in
  let lines :=
    [PrintHeader;
     PrintCount "paragraphs" paragraph_count;
     PrintCount "tokens" token_count;
     PrintCount "mentions" mention_count;
     PrintCount "clusters" cluster_count] in
  if paragraph_count =? 0 then ZeroDivisionError lines
  else
    let lines :=
      lines ++
      [PrintAverage "paragraph length" token_count paragraph_count;
       PrintAverage "number of mentions per paragraph" mention_count
         paragraph_count;
       PrintAverage "number of clusters per paragraph" cluster_count
         paragraph_count] in
    if cluster_count =? 0 then ZeroDivisionError lines
    else
      let lines :=
        lines ++ [PrintAverage "cluster size" mention_count cluster_count] in
      let lines :=
        if _remove_singletons st
        then lines ++ [PrintSingletons singleton_count] else lines in
      Logged (lines ++ [PrintLinkTypes (_link_types st); PrintBlank;
                        PrintMentionTypes (_mention_types st)]).

(** ** The cluster builder in the words of the specification *)

(** Start from no cluster.  For each pair in input order, scan the clusters
    in order: the first cluster that shares an identifier with the pair takes
    both identifiers and the scan stops; when no cluster shares one, a
    cluster made of the pair is appended. *)
Definition spec_add_pair (clusters : list Cluster) (pair : MentionPair)
  : list Cluster :=
  match list_find (λ cluster, pair.1 ∈ cluster ∨ pair.2 ∈ cluster) clusters with
  | Some (i, cluster) =>
      <[ i := cluster ∪ {[ pair.1 ]} ∪ {[ pair.2 ]} ]> clusters
  | None => clusters ++ [ {[ pair.1 ]} ∪ {[ pair.2 ]} ]
  end.

Definition spec_cluster_builder (pairs : list MentionPair) : list Cluster :=
  fold_left spec_add_pair pairs [].

(** ** The end rule in the words of the specification *)

(** The label string [label] of position [i] does not reappear verbatim in
    the label list of position [i+1], or [i] is the last position. *)
Definition not_repeated (labels : list (list Label)) (i : Z) (label : Label)
  : Prop :=
  i = Py.len labels - 1
  ∨ ∃ next, labels !! Z.to_nat (i + 1) = Some next ∧ label ∉ next.

(** ** Vocabulary of the statements *)

(** [f <$> r]: [f] applied to the value of a run that returned. *)
#[global] Instance result_fmap : FMap result := λ A B f r,
  match r with
  | Ok a => Ok (f a)
  | Raise e => Raise e
  end.

(** The records of a conversion that returned. *)
Definition records (r : result (State * list ParagraphDict))
  : result (list ParagraphDict) :=
  snd <$> r.

(** The state a paragraph is processed from: a new object that holds the
    token and label lists of the paragraph. *)
Definition paragraph_state
  (use_appos use_exappos use_aliases remove_singletons : bool)
  (tokens : list string) (labels : list (list Label)) : State :=
  with_labels labels
    (with_tokens tokens
       (__init__ use_appos use_exappos use_aliases remove_singletons)).

(** The second members of the sorted appositive tuples. *)
Definition second_members (tuples : list (list Z)) : gset Z :=
  list_to_set (omap (λ t : list Z, t !! 1%nat) tuples).

(** The policy flags of two states agree. *)
Definition same_flags (st st' : State) : Prop :=
  _use_appos st' = _use_appos st ∧ _use_exappos st' = _use_exappos st ∧
  _use_aliases st' = _use_aliases st ∧
  _remove_singletons st' = _remove_singletons st.

(** The flags and the token and label lists of two states agree. *)
Definition same_input (st st' : State) : Prop :=
  same_flags st st' ∧ _tokens st' = _tokens st ∧ _labels st' = _labels st.

(** The input, the two candidate lists and the bare-appositive set of two
    states agree. *)
Definition same_context (st st' : State) : Prop :=
  same_input st st' ∧ _aliases st' = _aliases st ∧
  _exappos_mentions st' = _exappos_mentions st ∧
  _appos_mentions st' = _appos_mentions st.

(** The span of a mention lies within [n] tokens: the start is an index, a
    recorded end is an index and, when [ordered], is not before the start; a
    mention with a type has an end. *)
Definition in_range (n : Z) (ordered : bool) (m : MentionInformation) : Prop :=
  0 ≤ m_start m < n ∧
  (∀ e, m_end m = Some e → 0 ≤ e < n ∧ (ordered = true → m_start m ≤ e)) ∧
  (is_Some (m_type m) → is_Some (m_end m)).

(** The span of an emitted mention: it has an end, start and end are
    indices into [n] tokens and, when [ordered], the end is not before the
    start. *)
Definition span_ok (n : Z) (ordered : bool) (m : MentionInformation) : Prop :=
  ∃ e, m_end m = Some e ∧ 0 ≤ m_start m < n ∧ 0 ≤ e < n ∧
       (ordered = true → m_start m ≤ e).

(** A label that span extraction processes: it holds no relation marker
    and is not empty. *)
Definition is_mention_label (label : Label) : bool :=
  negb (is_link_label label) && negb (Py.strlen label =? 0).

(** The entry of a mention after one of its labels was processed at
    position [i]: [previous] is its entry before, if any; [ends_here] tells
    whether the label is not repeated at the next position. *)
Definition processed_mention (tokens : list string) (i : Z) (label : Label)
  (previous : option MentionInformation) (ends_here : bool)
  : MentionInformation :=
  let m := default (new_mention i) previous in
  if ends_here
  then set_type (label_prefix label)
         (set_text (Py.slice tokens (m_start m) (i + 1)) (set_end i m))
  else m.

(** ** Example paragraphs *)

(** One token line of the input: sentence-token number, character span,
    token and label column, separated by tabs. *)
Definition token_line (number span token label_column : string) : string :=
  number +:+ tab +:+ span +:+ tab +:+ token +:+ tab +:+ label_column.

(** A mention of one token with no cluster label. *)
Definition single_token_mention (i : Z) (token type : string)
  : MentionInformation :=
  {| m_start := i; m_end := Some i; m_text := Some [token];
     m_type := Some type; m_label := None |}.

(** "John ( Jon": the head PROPER[1], an unlabelled opening parenthesis and
    the appositive NOUN[2]; the closing parenthesis is missing. *)
Definition unclosed_tokens : list string := ["John"; "("; "Jon"].

Definition unclosed_labels : list (list Label) :=
  [["PROPER[1]"]; ["_"]; ["NOUN[2]"; "APPOS[1_2]"]].

Definition unclosed_head : MentionInformation :=
  {| m_start := 0; m_end := Some 0; m_text := Some ["John"];
     m_type := Some "PROPER"; m_label := None |}.

Definition unclosed_appositive : MentionInformation :=
  {| m_start := 2; m_end := Some 2; m_text := Some ["Jon"];
     m_type := Some "NOUN"; m_label := None |}.

(** The object after span extraction of that paragraph. *)
Definition unclosed_state : State :=
  with_mention_dict [(1, unclosed_head); (2, unclosed_appositive)]
    (paragraph_state true false false false unclosed_tokens unclosed_labels).

(** A paragraph with the relation EXAPPOS[1_2]. *)
Definition exappos_paragraph : string :=
  "#Text=a b" +:+ newline +:+
  token_line "1-1" "0-1" "a" "NOUN[1]|EXAPPOS[1_2]" +:+ newline +:+
  token_line "1-2" "2-3" "b" "NOUN[2]".

(** A paragraph with two mentions and no relation. *)
Definition plain_paragraph : string :=
  "#Text=c d" +:+ newline +:+
  token_line "2-1" "0-1" "c" "NOUN[1]" +:+ newline +:+
  token_line "2-2" "2-3" "d" "NOUN[2]".


(** Three mentions of one token each; the appositive NOUN[2] of NOUN[1] is
    also linked to NOUN[3], by the relation [link]. *)
Definition linked_appositive_labels (link : Label) : list (list Label) :=
  [["NOUN[1]"]; ["NOUN[2]"; "APPOS[1_2]"]; ["NOUN[3]"; link]].

Definition linked_appositive_state (link : Label) : State :=
  paragraph_state false false false false ["a"; "b"; "c"]
    (linked_appositive_labels link).

(** The paragraph of the docstring of [_handle_appositives]: "Mas Ahmad"
    is PROPER[1], "umur 45 tahun" its appositive NOUN[2], "Dia" is
    PRONOUN[3], with APPOS[1_2] and IDENT[1_3]. *)
Definition docstring_paragraph : string :=
  "#Text=Mas Ahmad umur 45 tahun Dia" +:+ newline +:+
  token_line "1-1" "0-3" "Mas" "PROPER[1]" +:+ newline +:+
  token_line "1-2" "4-9" "Ahmad" "PROPER[1]" +:+ newline +:+
  token_line "1-3" "10-14" "umur" "NOUN[2]|APPOS[1_2]" +:+ newline +:+
  token_line "1-4" "15-17" "45" "NOUN[2]" +:+ newline +:+
  token_line "1-5" "18-23" "tahun" "NOUN[2]" +:+ newline +:+
  token_line "1-6" "24-27" "Dia" "PRONOUN[3]|IDENT[1_3]".

(** NOUN[1] on the first two of three tokens, VERB[2] on the third. *)
Definition two_token_run_state : State :=
  paragraph_state false false false false ["a"; "b"; "c"]
    [["NOUN[1]"]; ["NOUN[1]"]; ["VERB[2]"]].

(** ** Vocabulary of the further properties *)

(** The entry of a head after fusion up to the token [new_end]. *)
Definition fused_mention (tokens : list string) (head_info : MentionInformation)
  (new_end : Z) : MentionInformation :=
  set_text (Py.slice tokens (m_start head_info) (new_end + 1))
    (set_end new_end head_info).

(** The end the head gets: the end [e] of the last member of the tuple, or
    one more when the text up to [e] holds one more opening than closing
    parenthesis and the token after [e] is a closing parenthesis. *)
Definition fused_end (tokens : list string) (span_start e : Z) : result Z :=
  let fused_text := Py.slice tokens span_start (e + 1) in
  if Py.count "(" fused_text =? Py.count ")" fused_text + 1 then
    following ← Py.index tokens (e + 1);
    Ok (if String.eqb following ")" then e + 1 else e)
  else Ok e.

(** The entry [_assign_mentions_to_clusters] leaves for the item [kv]: with
    the position of the first cluster that holds its key as label; an item
    whose key is in no cluster is dropped under [remove_singletons] and kept
    as it is otherwise. *)
Definition assigned_entry (clusters : list Cluster) (remove_singletons : bool)
  (kv : Z * MentionInformation) : option (Z * MentionInformation) :=
  match list_find (λ cluster : Cluster, kv.1 ∈ cluster) clusters with
  | Some (i, _) => Some (kv.1, set_label (Z.of_nat i) kv.2)
  | None => if remove_singletons then None else Some kv
  end.

(** The keys of [d] that are in no cluster. *)
Definition singleton_keys (clusters : list Cluster)
  (d : Dict.t MentionInformation) : list Z :=
  filter (λ k, Forall (λ cluster : Cluster, k ∉ cluster) clusters) (Dict.keys d).

(** The object without the mentions [l]: their entries are gone from the
    dictionary and their identifiers from every cluster. *)
Definition without_mentions (l : list Z) (st : State) : State :=
  with_clusters ((λ cluster, cluster ∖ list_to_set l) <$> _clusters st)
    (with_mention_dict (filter (λ kv, kv.1 ∉ l) (_mention_dict st)) st).

(** The text of a mention is the run of tokens from its start to its end;
    a mention with no end has no text. *)
Definition text_matches_span (tokens : list string) (m : MentionInformation)
  : Prop :=
  match m_end m with
  | Some e => m_text m = Some (Py.slice tokens (m_start m) (e + 1))
  | None => m_text m = None
  end.

(** The label of the mention [k] agrees with the clusters: a label is the
    position of the first cluster that holds [k]; a mention with no label is
    in no cluster. *)
Definition label_matches_clusters (clusters : list Cluster) (k : Z)
  (m : MentionInformation) : Prop :=
  match m_label m with
  | Some i =>
      ∃ (n : nat) cluster,
        i = Z.of_nat n ∧ clusters !! n = Some cluster ∧ k ∈ cluster ∧
        ∀ (j : nat) earlier,
          (j < n)%nat → clusters !! j = Some earlier → k ∉ earlier
  | None => Forall (λ cluster : Cluster, k ∉ cluster) clusters
  end.

(** The lines of a paragraph after the first, split at the tabs, without
    the lines that hold no tab. *)
Definition token_rows (paragraph : string) : list (list string) :=
  filter (λ columns, Py.len columns ≠ 1)
    (Py.split tab <$> tail (Py.split newline (Py.strip paragraph))).

(** The text, the type counts and the four running counts of paragraphs,
    tokens, mentions and clusters of two states agree. *)
Definition same_bookkeeping (st st' : State) : Prop :=
  _text st' = _text st ∧ _mention_types st' = _mention_types st ∧
  paragraph_count (_statistics st') = paragraph_count (_statistics st) ∧
  token_count (_statistics st') = token_count (_statistics st) ∧
  mention_count (_statistics st') = mention_count (_statistics st) ∧
  cluster_count (_statistics st') = cluster_count (_statistics st).

(** The mentions of all the records, in order. *)
Definition emitted_mentions (output : list ParagraphDict)
  : list MentionInformation :=
  concat (corefs <$> output).

(** The tokens of all the records, in order. *)
Definition emitted_tokens (output : list ParagraphDict) : list string :=
  concat (tokens <$> output).

(** The count of the type [t] in a counting map. *)
Definition type_count (t : string) (counts : gmap string Z) : Z :=
  default 0 (counts !! t).

(** The record the conversion is to emit for a paragraph, before
    coreference processing fills in the mentions: the text is the first line
    without its first six characters, the tokens are the third fields of the
    token lines. *)
Definition paragraph_text (paragraph : string) : string :=
  Py.slice_from 6 (hd EmptyString (Py.split newline (Py.strip paragraph))).

Definition paragraph_tokens (paragraph : string) : list string :=
  (λ columns, nth 2 columns EmptyString) <$> token_rows paragraph.

(** A label of the mention [k] is processed at position [i]: the label list
    of the position does not hold the placeholder, and one of its labels
    holds no relation marker, is not empty and has the identifier [k]. *)
Definition processed_at (labels : list (list Label)) (k : Z) (i : Z) : Prop :=
  ∃ label_list label,
    0 ≤ i ∧ labels !! Z.to_nat i = Some label_list ∧
    Py.mem "_" label_list = false ∧ label ∈ label_list ∧
    is_mention_label label = true ∧ mention_id_of label = Ok k.

(** The invariant of span extraction on the starts, while the labels of
    position [i] are gone through; [seen] are the labels of the position
    gone through so far.  An entry starts at the first position at which a
    label of its mention is processed; a mention with no entry has had no
    label processed. *)
Definition start_invariant (labels : list (list Label)) (i : Z)
  (seen : list Label) (d : Dict.t MentionInformation) : Prop :=
  NoDup (Dict.keys d) ∧
  ∀ k, match Dict.get d k with
       | Some m =>
           processed_at labels k (m_start m) ∧
           ∀ i', processed_at labels k i' → m_start m ≤ i'
       | None =>
           (∀ i', i' < i → ¬ processed_at labels k i') ∧
           ∀ label, label ∈ seen → is_mention_label label = true →
                    mention_id_of label ≠ Ok k
       end.

(** The heads of the sorted appositive tuples: their first members. *)
Definition first_members (tuples : list (list Z)) : gset Z :=
  list_to_set (omap (λ t : list Z, t !! 0%nat) tuples).

(** What fusion over the tuples [tuples] may do to the entry [before] of
    the mention [k]: the entry stays, with its start, type and label; only a
    head under [use_appos] may change, and a head under [use_appos] has an
    end and the tokens from its start to its end as text. *)
Definition fused_entry (use_appos : bool) (tokens : list string)
  (tuples : list (list Z)) (k : Z)
  (before after : option MentionInformation) : Prop :=
  match before with
  | None => after = None
  | Some m =>
      ∃ m', after = Some m' ∧
            m_start m' = m_start m ∧ m_type m' = m_type m ∧
            m_label m' = m_label m ∧
            (if use_appos && bool_decide (k ∈ first_members tuples)
             then ∃ e, m_end m' = Some e ∧
                       m_text m'
                       = Some (Py.slice tokens (m_start m) (e + 1))
             else m' = m)
  end.

(** The label lists of a paragraph: the fourth fields of the token lines,
    split at the bars. *)
Definition paragraph_labels (paragraph : string) : list (list Label) :=
  (λ columns, Py.split "|" (nth 3 columns EmptyString))
    <$> token_rows paragraph.

(** The part of the object that the processing of a paragraph reads:
    everything but the statistics, the two counting maps and what was
    printed, which are only written. *)
Definition core (st : State) : State :=
  with_stdout []
    (with_link_types ∅
       (with_mention_types ∅
          (with_statistics
             {| paragraph_count := 0; token_count := 0; mention_count := 0;
                cluster_count := 0; singleton_count := 0 |} st))).

(** The same for the accumulator of the first loop of
    [_extract_coreference_links]. *)
Definition core_links (acc : Links) : Links :=
  {| self := core (self acc); mention_pairs := mention_pairs acc;
     appositive_pairs := appositive_pairs acc |}.

(** [f] reads the core only: on two objects with the same core it raises
    the same exception or returns results with the same core. *)
Definition reads_core {St A : Type} (pr : St → St) (prA : A → A)
  (f : St → result A) : Prop :=
  ∀ s1 s2, pr s1 = pr s2 → prA <$> f s1 = prA <$> f s2.

(** The list of extended appositives only grows, and stays as it is under
    [use_exappos]. *)
Definition exappos_grows (st st' : State) : Prop :=
  _use_exappos st' = _use_exappos st ∧
  ∃ more, _exappos_mentions st' = _exappos_mentions st ++ more ∧
          (_use_exappos st = true → more = []).

(** * The dataset reader ([training/dataset_reader.py]) *)

(** [c.lower()] on the code points below 256: the letters A to Z and the
    capital letters of the Latin-1 supplement move up by 32. *)
Definition lower_char (c : ascii) : ascii :=
  let n := Z.of_nat (nat_of_ascii c) in
  if ((65 <=? n) && (n <=? 90)) || ((192 <=? n) && (n <=? 214))
     || ((216 <=? n) && (n <=? 222))
  then ascii_of_nat (nat_of_ascii c + 32) else c.

(** [token.lower()] *)
Fixpoint str_lower (s : string) : string :=
  match s with
  | EmptyString => EmptyString
  | String c s' => String (lower_char c) (str_lower s')
  end.

(** [clusters[cluster_id].append(span)] on a [defaultdict(list)]: a missing
    key is first given the empty list. *)
Definition append_span (clusters : Dict.t (list (Z * Z))) (cluster_id : Z)
  (span : Z * Z) : Dict.t (list (Z * Z)) :=
  Dict.setitem clusters cluster_id
    (default [] (Dict.get clusters cluster_id) ++ [span]).

(** The body of the loop over [corefs].  A mention is the object a line of
    the output file decodes to: a key is present exactly when the field of
    the record is set. *)
Definition _read_coref (coref : MentionInformation)
  (clusters : Dict.t (list (Z * Z))) : result (Dict.t (list (Z * Z))) :=
  match m_label coref with
  | None => Ok clusters
  | Some cluster_id =>
      let start := m_start coref in
      end_ ← field (m_end coref);
      Ok (append_span clusters cluster_id (start, end_))
  end.

(** The body of the loop of [_read] over the documents, up to the arguments
    [sentences] and [gold_clusters] of [text_to_instance]. *)
Definition _read_document (sentences : ParagraphDict)
  : result (list (list string) * list (list (Z * Z))) :=
  let clusters : Dict.t (list (Z * Z)) := [] in
  let tokens := str_lower <$> tokens sentences in
  clusters ← for_each _read_coref (corefs sentences) clusters;
  Ok ([tokens], Dict.values clusters).

(** [_read] from the decoded lines of the file: the arguments of the
    instances it yields, and the exception that ends the iteration, if
    any. *)
Fixpoint _read (documents : list ParagraphDict)
  : list (list (list string) * list (list (Z * Z))) * option exn :=
  match documents with
  | [] => ([], None)
  | sentences :: rest =>
      match _read_document sentences with
      | Ok instance =>
          let '(instances, raised) := _read rest in
          (instance :: instances, raised)
      | Raise e => ([], Some e)
      end
  end.

(** ** Vocabulary of the statements about the reader *)

(** The labels of the mentions, each at its first occurrence. *)
Definition first_occurrences (l : list Z) : list Z :=
  fold_left (λ seen x, if decide (x ∈ seen) then seen else seen ++ [x]) l [].

(** The spans of the mentions labelled [cluster_id], in order. *)
Definition spans_labelled (cluster_id : Z) (corefs : list MentionInformation)
  : list (Z * Z) :=
  omap (λ m, if decide (m_label m = Some cluster_id)
             then (λ e, (m_start m, e)) <$> m_end m else None) corefs.

(** The relation labels of a paragraph, read by the first loop of
    [_extract_coreference_links] on a new object: the pairs it collects do
    not depend on the object ([read_links_pairs]). *)
Definition paragraph_links (labels : list (list Label)) : result Links :=
  read_links (paragraph_state false false false false [] labels).

(** The coreference pairs and the appositive pairs of the label lists
    [labels]; none when a relation label cannot be read. *)
Definition relation_pairs (labels : list (list Label)) : list MentionPair :=
  match paragraph_links labels with
  | Ok links => mention_pairs links
  | Raise _ => []
  end.

Definition apposition_pairs (labels : list (list Label)) : list MentionPair :=
  match paragraph_links labels with
  | Ok links => appositive_pairs links
  | Raise _ => []
  end.


(** The accumulator of the first loop of [_extract_coreference_links]
    without its object. *)
Definition pairs_only (acc : Links) : Links :=
  {| self := __init__ false false false false;
     mention_pairs := mention_pairs acc;
     appositive_pairs := appositive_pairs acc |}.

(* ------------------------------------------------------------------------- *)
(** * Properties *)

Set Warnings "-clear-no-such-hyp".

(** ** The examples of the source *)

(** The example in the docstring of [_group_mentions_into_clusters]. *)
Example group_docstring_example :
  _group_mentions_into_clusters [(1, 2); (2, 3); (4, 5); (6, 7); (5, 9)]
  = [ {[ 1; 2; 3 ]}; {[ 4; 5; 9 ]}; {[ 6; 7 ]} ].
Proof. vm_compute. reflexivity. Qed.

(** A pair that touches two clusters goes into the first; the two stay
    apart. *)
Example group_bridging_example :
  _group_mentions_into_clusters [(1, 2); (3, 4); (2, 3)]
  = [ {[ 1; 2; 3 ]}; {[ 3; 4 ]} ].
Proof. vm_compute. reflexivity. Qed.

(** The paragraph of the docstring of [_handle_appositives], with fusion:
    the head takes the tokens of its appositive, the appositive is dropped,
    head and pronoun get the same cluster label. *)
Example fusion_docstring_example :
  records (convert_tsv_to_jsonl docstring_paragraph
             (__init__ true false false false))
  = Ok [ {| text := "Mas Ahmad umur 45 tahun Dia";
            tokens := ["Mas"; "Ahmad"; "umur"; "45"; "tahun"; "Dia"];
            corefs :=
              [ {| m_start := 0; m_end := Some 4;
                   m_text := Some ["Mas"; "Ahmad"; "umur"; "45"; "tahun"];
                   m_type := Some "PROPER"; m_label := Some 0 |};
                set_label 0 (single_token_mention 5 "Dia" "PRONOUN") ] |} ].
Proof. vm_compute. reflexivity. Qed.

(** ** Loops *)

Section for_each_facts.
Context {A S : Type}.
Implicit Types (body : A → S → result S) (l : list A) (s : S).

Lemma for_each_app body l1 l2 s :
  for_each body (l1 ++ l2) s = (s' ← for_each body l1 s; for_each body l2 s').
Proof.
  revert s. induction l1 as [|x l1 IH]; intros s; simpl; [done|].
  destruct (body x s) as [s1|e]; simpl; [apply IH|done].
Qed.

Lemma for_each_invariant (P : S → Prop) body l s s' :
  (∀ x s1 s2, x ∈ l → P s1 → body x s1 = Ok s2 → P s2) →
  P s → for_each body l s = Ok s' → P s'.
Proof.
  revert s. induction l as [|x l IH]; intros s Hstep HP Hrun; simpl in Hrun.
  - by inversion Hrun; subst.
  - destruct (body x s) as [s1|e] eqn:Hx; simpl in Hrun; [|done].
    apply (IH s1); [|by eapply Hstep; [left| |]|done].
    intros y t1 t2 Hy. apply Hstep. by right.
Qed.
End for_each_facts.

(** Inversion of a bind that returned. *)
Lemma bind_Ok {A B : Type} (r : result A) (k : A → result B) (b : B) :
  (x ← r; k x) = Ok b → ∃ a, r = Ok a ∧ k a = Ok b.
Proof. destruct r as [a|e]; simpl; [eauto|done]. Qed.

(** ** The cluster builder *)

Lemma meets_iff_shares (pair : MentionPair) (cluster : Cluster) :
  set_of_pair pair ∩ cluster ≠ ∅ ↔ pair.1 ∈ cluster ∨ pair.2 ∈ cluster.
Proof.
  unfold set_of_pair. split.
  - intros Hne. apply set_choose_L in Hne as [x Hx]. set_unfold. naive_solver.
  - intros [H|H]; set_solver.
Qed.

Lemma scan_clusters_find pair clusters :
  scan_clusters pair clusters =
  (λ ic, <[ ic.1 := ic.2 ∪ set_of_pair pair ]> clusters)
    <$> list_find (λ cluster, pair.1 ∈ cluster ∨ pair.2 ∈ cluster) clusters.
Proof.
  induction clusters as [|c clusters IH]; simpl; [done|].
  destruct (decide (pair.1 ∈ c ∨ pair.2 ∈ c)) as [Hs|Hs].
  - rewrite bool_decide_true by by apply meets_iff_shares. done.
  - rewrite bool_decide_false by by rewrite meets_iff_shares. rewrite IH.
    destruct (list_find _ clusters) as [[i c']|]; done.
Qed.

Lemma add_pair_spec clusters pair :
  add_pair clusters pair = spec_add_pair clusters pair.
Proof.
  unfold add_pair, spec_add_pair. rewrite scan_clusters_find.
  destruct (list_find _ clusters) as [[i c]|]; simpl; [|done].
  f_equal. unfold set_of_pair. set_solver.
Qed.

(** One pair either appends a cluster or changes exactly one cluster in
    place: no step removes or joins clusters. *)
Lemma add_pair_cases clusters pair :
  add_pair clusters pair = clusters ++ [set_of_pair pair] ∨
  ∃ (i : nat) (cluster : Cluster),
    clusters !! i = Some cluster ∧
    add_pair clusters pair = <[ i := cluster ∪ set_of_pair pair ]> clusters.
Proof.
  unfold add_pair. rewrite scan_clusters_find.
  destruct (list_find _ clusters) as [[i c]|] eqn:Hf; simpl; [right|by left].
  apply list_find_Some in Hf as (Hi & _ & _). eauto.
Qed.

Lemma group_fold mention_pairs :
  _group_mentions_into_clusters mention_pairs = fold_left add_pair mention_pairs [].
Proof. by destruct mention_pairs. Qed.

(** C2. The cluster builder returns the cluster list of the algorithm of
    the specification (pairs in input order, both identifiers joined to the
    first cluster that shares one, otherwise a new cluster of the pair
    appended), and a pair never joins two clusters: it appends one cluster
    or grows one cluster in place, every other cluster staying as it is. *)
Theorem group_mentions_into_clusters_spec (mention_pairs : list MentionPair) :
  _group_mentions_into_clusters mention_pairs
  = spec_cluster_builder mention_pairs
  ∧ ∀ (clusters : list Cluster) (pair : MentionPair),
      add_pair clusters pair = clusters ++ [set_of_pair pair] ∨
      ∃ (i : nat) (cluster : Cluster),
        clusters !! i = Some cluster ∧ (pair.1 ∈ cluster ∨ pair.2 ∈ cluster) ∧
        (∀ (j : nat) (other : Cluster),
           (j < i)%nat → clusters !! j = Some other →
           (pair.1 ∉ other) ∧ (pair.2 ∉ other)) ∧
        add_pair clusters pair = <[ i := cluster ∪ set_of_pair pair ]> clusters.
Proof.
  split.
  - rewrite group_fold. unfold spec_cluster_builder.
    generalize (@nil Cluster).
    induction mention_pairs as [|p ps IH]; intros cl; simpl; [done|].
    rewrite add_pair_spec. apply IH.
  - intros clusters pair. unfold add_pair. rewrite scan_clusters_find.
    destruct (list_find _ clusters) as [[i c]|] eqn:Hf; simpl; [right|by left].
    apply list_find_Some in Hf as (Hi & Hc & Hbefore).
    exists i, c. split_and!; [done|done| |done].
    intros j other Hj Hother. specialize (Hbefore j other Hother Hj).
    split; intros ?; apply Hbefore; auto.
Qed.

(** ** Python built-ins *)

Lemma index_nonneg {A : Type} (l : list A) (i : nat) :
  Py.index l (Z.of_nat i)
  = match l !! i with Some x => Ok x | None => Raise IndexError end.
Proof.
  unfold Py.index. destruct (Z.ltb_spec (Z.of_nat i) 0) as [?|_]; [lia|].
  destruct (Z.ltb_spec (Z.of_nat i) 0) as [?|_]; [lia|].
  by rewrite Nat2Z.id.
Qed.

Lemma index_Ok_lookup {A : Type} (l : list A) (i : Z) (x : A) :
  0 ≤ i → Py.index l i = Ok x ↔ l !! Z.to_nat i = Some x.
Proof.
  intros Hi. rewrite <- (Z2Nat.id i) at 1 by done. rewrite index_nonneg.
  destruct (l !! Z.to_nat i); split; intros; simplify_eq; done.
Qed.

Lemma index_Ok_range {A : Type} (l : list A) (i : Z) (x : A) :
  0 ≤ i → Py.index l i = Ok x → i < Py.len l.
Proof.
  intros Hi Hx. apply index_Ok_lookup in Hx; [|done].
  apply lookup_lt_Some in Hx. unfold Py.len. lia.
Qed.

Lemma index_past_end {A : Type} (l : list A) (i : Z) :
  Py.len l ≤ i → Py.index l i = Raise IndexError.
Proof.
  intros Hi. unfold Py.len in Hi. rewrite <- (Z2Nat.id i) by lia.
  rewrite index_nonneg. rewrite lookup_ge_None_2; [done|lia].
Qed.

(** ** Dictionaries *)

Section dict_facts.
Context {V : Type}.
Implicit Types (d : Dict.t V) (k : Z) (v : V).

Lemma get_setitem_eq d k v : Dict.get (Dict.setitem d k v) k = Some v.
Proof.
  induction d as [|[k' v'] d IH]; simpl.
  - by rewrite Z.eqb_refl.
  - destruct (Z.eqb_spec k' k) as [->|Hne]; simpl.
    + by rewrite Z.eqb_refl.
    + by rewrite (proj2 (Z.eqb_neq _ _) Hne).
Qed.

Lemma get_setitem_ne d k k' v :
  k ≠ k' → Dict.get (Dict.setitem d k v) k' = Dict.get d k'.
Proof.
  intros Hne. induction d as [|[k1 v1] d IH]; simpl.
  - by rewrite (proj2 (Z.eqb_neq _ _) Hne).
  - destruct (Z.eqb_spec k1 k) as [->|Hk1]; simpl.
    + by rewrite (proj2 (Z.eqb_neq _ _) Hne).
    + by rewrite IH.
Qed.

Lemma get_remove_eq d k : Dict.get (Dict.remove d k) k = None.
Proof.
  unfold Dict.remove. induction d as [|[k' v'] d IH]; [done|].
  rewrite filter_cons. simpl. destruct (decide (k' ≠ k)) as [Hne|Heq]; [|done].
  simpl. by rewrite (proj2 (Z.eqb_neq _ _) Hne).
Qed.

Lemma get_remove_ne d k k' :
  k ≠ k' → Dict.get (Dict.remove d k) k' = Dict.get d k'.
Proof.
  intros Hne. unfold Dict.remove. induction d as [|[k1 v1] d IH]; [done|].
  rewrite filter_cons. simpl. destruct (decide (k1 ≠ k)) as [Hk1|Hk1]; simpl.
  - by rewrite IH.
  - apply dec_stable in Hk1 as ->. by rewrite (proj2 (Z.eqb_neq _ _) Hne).
Qed.

Lemma elem_of_keys d k : k ∈ Dict.keys d ↔ is_Some (Dict.get d k).
Proof.
  unfold Dict.keys. induction d as [|[k' v'] d IH]; simpl.
  - split; [by intros ?%elem_of_nil|by intros [? ?]].
  - rewrite elem_of_cons, IH. destruct (Z.eqb_spec k' k) as [->|Hne].
    + split; eauto.
    + split; [intros [?|?]; [congruence|done]|auto].
Qed.

Lemma contains_keys d k : Dict.contains d k = true ↔ k ∈ Dict.keys d.
Proof.
  rewrite elem_of_keys. unfold Dict.contains.
  destruct (Dict.get d k); split; try done; eauto.
Qed.

Lemma get_Some_values d k v : Dict.get d k = Some v → v ∈ Dict.values d.
Proof.
  unfold Dict.values. induction d as [|[k' v'] d IH]; simpl; [done|].
  destruct (k' =? k); intros H; [inversion H; left|right; auto].
Qed.

Lemma values_setitem d k v v' :
  v' ∈ Dict.values (Dict.setitem d k v) → v' = v ∨ v' ∈ Dict.values d.
Proof.
  unfold Dict.values. induction d as [|[k1 v1] d IH]; simpl.
  - intros ?%list_elem_of_singleton. by left.
  - destruct (k1 =? k); simpl; rewrite !elem_of_cons; naive_solver.
Qed.

Lemma values_remove d k v :
  v ∈ Dict.values (Dict.remove d k) → v ∈ Dict.values d.
Proof.
  unfold Dict.values, Dict.remove. rewrite !list_elem_of_fmap.
  intros (kv & -> & Hkv%list_elem_of_filter). naive_solver.
Qed.

Lemma keys_remove d k k' :
  k' ∈ Dict.keys (Dict.remove d k) ↔ k' ∈ Dict.keys d ∧ k' ≠ k.
Proof.
  rewrite !elem_of_keys. destruct (decide (k = k')) as [->|Hne].
  - rewrite get_remove_eq. split; [by intros [? ?]|naive_solver].
  - rewrite get_remove_ne by done. naive_solver.
Qed.

Lemma pop_Ok d k d' :
  Dict.pop d k = Ok d' ↔ k ∈ Dict.keys d ∧ d' = Dict.remove d k.
Proof.
  rewrite elem_of_keys. unfold Dict.pop. destruct (Dict.get d k); split.
  - intros H. inversion H. eauto.
  - by intros [_ ->].
  - done.
  - by intros [[? ?] _].
Qed.

Lemma pop_Raise d k e : Dict.pop d k = Raise e ↔ (k ∉ Dict.keys d) ∧ e = KeyError.
Proof.
  rewrite elem_of_keys. unfold Dict.pop. destruct (Dict.get d k); split.
  - done.
  - intros [H _]. destruct H. eauto.
  - intros H. inversion H. split; [by intros [? ?]|done].
  - by intros [_ ->].
Qed.
End dict_facts.

Lemma filter_keep {A : Type} (P : A → Prop) `{!∀ x, Decision (P x)}
  (l : list A) :
  (∀ x, x ∈ l → P x) → filter P l = l.
Proof.
  induction l as [|x l IH]; intros HP; [done|].
  rewrite filter_cons_True by (apply HP; left).
  f_equal. apply IH. intros y Hy. apply HP. by right.
Qed.

Section dict_keys_unique.
Context {V : Type}.
Implicit Types (d : Dict.t V) (k : Z) (v : V).

Lemma keys_setitem d k v k' :
  k' ∈ Dict.keys (Dict.setitem d k v) ↔ k' = k ∨ k' ∈ Dict.keys d.
Proof.
  rewrite !elem_of_keys. destruct (decide (k = k')) as [->|Hne].
  - rewrite get_setitem_eq. naive_solver.
  - rewrite get_setitem_ne by done. naive_solver.
Qed.

(** Keys stay unique: [setitem] replaces the entry of a key that is there,
    and [remove] only takes entries away. *)
Lemma setitem_NoDup d k v :
  NoDup (Dict.keys d) → NoDup (Dict.keys (Dict.setitem d k v)).
Proof.
  unfold Dict.keys. induction d as [|[k1 v1] d IH]; simpl.
  - intros _. apply NoDup_singleton.
  - intros [Hk1 Hd]%NoDup_cons. destruct (Z.eqb_spec k1 k) as [->|Hne]; simpl.
    + by apply NoDup_cons.
    + apply NoDup_cons. split; [|auto].
      intros [?|?]%(keys_setitem d k v k1); [congruence|done].
Qed.

Lemma remove_NoDup d k :
  NoDup (Dict.keys d) → NoDup (Dict.keys (Dict.remove d k)).
Proof.
  unfold Dict.keys, Dict.remove. intros Hd.
  induction d as [|[k1 v1] d IH]; [done|].
  apply NoDup_cons in Hd as [Hk1 Hd]. rewrite filter_cons. simpl.
  destruct (decide (k1 ≠ k)); [|auto]. simpl. apply NoDup_cons.
  split; [|auto]. intros [Hin _]%(keys_remove d k k1). done.
Qed.

(** On a dictionary with unique keys, [remove] takes away the one entry of
    the key. *)
Lemma remove_length d k :
  NoDup (Dict.keys d) → k ∈ Dict.keys d →
  S (length (Dict.remove d k)) = length d.
Proof.
  unfold Dict.keys, Dict.remove. intros Hd Hk.
  induction d as [|[k1 v1] d IH]; [by apply elem_of_nil in Hk|].
  rewrite fmap_cons in Hd, Hk. apply NoDup_cons in Hd as [Hk1 Hd].
  rewrite filter_cons. simpl in Hk1, Hk |- *.
  destruct (decide (k1 ≠ k)) as [Hne|Heq]; simpl.
  - f_equal. apply IH; [done|].
    apply elem_of_cons in Hk as [?|?]; [congruence|done].
  - apply dec_stable in Heq as ->. do 2 f_equal.
    apply filter_keep. intros [k2 v2] Hin. simpl. intros ->.
    apply Hk1. apply list_elem_of_fmap. by exists (k, v2).
Qed.
End dict_keys_unique.

(** ** State updates *)

Lemma update_mention_Ok k f st st' :
  update_mention k f st = Ok st' →
  ∃ m, Dict.get (_mention_dict st) k = Some m ∧
       st' = with_mention_dict (Dict.setitem (_mention_dict st) k (f m)) st.
Proof.
  unfold update_mention, Dict.getitem. intros H.
  destruct (Dict.get _ k) as [m|]; simpl in H; [|done].
  exists m. by inversion H.
Qed.

Lemma update_mention_appos k f st st' :
  update_mention k f st = Ok st' → _appos_mentions st' = _appos_mentions st.
Proof. intros (m & _ & ->)%update_mention_Ok. done. Qed.

(** ** Appositive tuples *)

Lemma handle_tuple_appos mention_pair st st' :
  _handle_appositives_tuple mention_pair st = Ok st' →
  ∃ second, mention_pair !! 1%nat = Some second ∧
            _appos_mentions st' = _appos_mentions st ∪ {[ second ]}.
Proof.
  unfold _handle_appositives_tuple. intros H.
  apply bind_Ok in H as (second & Hsecond & H).
  apply (index_Ok_lookup _ 1) in Hsecond; [|done].
  exists second. split; [done|].
  simpl in H. destruct (_use_appos st); simpl in H; [|by inversion H].
  do 5 (apply bind_Ok in H as (? & _ & H)).
  apply bind_Ok in H as (st1 & Hst1 & H). apply update_mention_appos in Hst1.
  apply bind_Ok in H as (st2 & Hst2 & H). apply update_mention_appos in Hst2.
  do 2 (apply bind_Ok in H as (? & _ & H)).
  assert (_appos_mentions st2 = _appos_mentions st ∪ {[second]}) as Hgoal
    by (by rewrite Hst2, Hst1).
  destruct (_ =? _); [|by inversion H; subst].
  apply bind_Ok in H as (? & _ & H).
  destruct (String.eqb _ _); [|by inversion H; subst].
  do 2 (apply bind_Ok in H as (? & _ & H)).
  apply bind_Ok in H as (st3 & Hst3 & H). apply update_mention_appos in Hst3.
  apply update_mention_appos in H. by rewrite H, Hst3.
Qed.

(** C4, as the code has it.  Whatever the [use_appos] flag, a run of
    [_handle_appositives] that returns has added to the bare-appositive set
    exactly the second member of every sorted appositive tuple (the lowest
    identifier after the head), and nothing else. *)
Theorem handle_appositives_records_second appositive_pairs st st' :
  _handle_appositives appositive_pairs st = Ok st' →
  _appos_mentions st' =
  _appos_mentions st
  ∪ second_members
      (sorted_tuple <$> _group_mentions_into_clusters appositive_pairs).
Proof.
  unfold _handle_appositives.
  generalize (sorted_tuple <$> _group_mentions_into_clusters appositive_pairs).
  intros tuples. revert st.
  induction tuples as [|t tuples IH]; intros st H; simpl in H.
  - inversion H; subst. unfold second_members. simpl. set_solver.
  - apply bind_Ok in H as (st1 & Hst1 & H).
    apply handle_tuple_appos in Hst1 as (second & Hsecond & Hst1).
    rewrite (IH _ H), Hst1. unfold second_members. simpl.
    rewrite Hsecond. simpl. set_solver.
Qed.

Lemma handle_appositives_records_second_witness :
  _handle_appositives [(1, 2)] (__init__ false false false false)
  = Ok (with_appos_mentions (∅ ∪ {[ 2 ]}) (__init__ false false false false))
  ∧ _appos_mentions
      (with_appos_mentions (∅ ∪ {[ 2 ]}) (__init__ false false false false))
    = _appos_mentions (__init__ false false false false)
      ∪ second_members (sorted_tuple <$> _group_mentions_into_clusters [(1, 2)]).
Proof.
  split.
  - vm_compute. reflexivity.
  - apply (handle_appositives_records_second [(1, 2)]).
    vm_compute. reflexivity.
Defined.

(** C4, as stated, fails on the appositive pairs (1,2) and (1,3): they form
    one cluster, its sorted tuple is (1,2,3), and only 2 is recorded; the
    non-head member 3 is not. *)
Lemma handle_appositives_leaves_third_member :
  sorted_tuple <$> _group_mentions_into_clusters [(1, 2); (1, 3)] = [[1; 2; 3]]
  ∧ elements ∘ _appos_mentions
      <$> _handle_appositives [(1, 2); (1, 3)] (__init__ false false false false)
    = Ok [2].
Proof. split; vm_compute; reflexivity. Qed.

(** ** Relation labels *)

(** C6, as the code has it.  For a relation label whose payload is a pair
    of integers [(a, b)], the first loop of [_extract_coreference_links]
    appends [b] to the alias list exactly when the label class is ALIAS and
    [use_aliases] is off, and to the extended-appositive list exactly when
    the class is EXAPPOS and [use_exappos] is off; with the flag on, the
    list stays as it was. *)
Theorem link_label_records_second label acc suffix first second a b :
  is_link_label label = true →
  Py.index (Py.split "[" label) 1 = Ok suffix →
  Py.split "_" (Py.drop_last suffix) = [first; second] →
  Py.int first = Ok a → Py.int second = Ok b →
  ∃ acc',
    _extract_coreference_links_label label acc = Ok acc' ∧
    _use_aliases (self acc') = _use_aliases (self acc) ∧
    _use_exappos (self acc') = _use_exappos (self acc) ∧
    _aliases (self acc') =
      (if negb (_use_aliases (self acc))
          && String.eqb (label_prefix label) "ALIAS"
       then _aliases (self acc) ++ [b] else _aliases (self acc)) ∧
    _exappos_mentions (self acc') =
      (if negb (_use_exappos (self acc))
          && String.eqb (label_prefix label) "EXAPPOS"
       then _exappos_mentions (self acc) ++ [b]
       else _exappos_mentions (self acc)).
Proof.
  intros Hlink Hsuffix Hsplit Ha Hb.
  unfold _extract_coreference_links_label. rewrite Hlink, Hsuffix. simpl.
  rewrite Hsplit. simpl. rewrite Ha. simpl. rewrite Hb. simpl.
  destruct acc as [[? exappos aliases ? ? ? ? ? ? ? ? ? ? ? ? ?] mps aps].
  simpl. destruct (String.eqb (label_prefix label) "APPOS") eqn:Happos.
  - apply String.eqb_eq in Happos. rewrite Happos. simpl.
    eexists. split; [done|]. simpl. by rewrite !andb_false_r.
  - eexists. split; [done|]. simpl.
    destruct aliases, exappos; simpl;
      destruct (String.eqb (label_prefix label) "ALIAS");
      destruct (String.eqb (label_prefix label) "EXAPPOS"); done.
Qed.

Lemma link_label_records_second_witness :
  ∃ acc',
    _extract_coreference_links_label "ALIAS[1_2]"
      (no_links (__init__ false false false false)) = Ok acc' ∧
    _use_aliases (self acc') = false ∧
    _use_exappos (self acc') = false ∧
    _aliases (self acc') = [] ++ [2] ∧
    _exappos_mentions (self acc') = [].
Proof.
  apply (link_label_records_second "ALIAS[1_2]"
           (no_links (__init__ false false false false)) "1_2]" "1" "2" 1 2);
    vm_compute; reflexivity.
Defined.

(** C6, as stated, fails with [use_aliases] on: the alias pair (1,2) is
    read, and its second identifier is not put on the alias list. *)
Lemma alias_not_recorded_when_kept :
  (λ acc, (mention_pairs acc, _aliases (self acc)))
    <$> _extract_coreference_links_label "ALIAS[1_2]"
          (no_links (__init__ false false true false))
  = Ok ([(1, 2)], []).
Proof. vm_compute. reflexivity. Qed.

(** C9, as the code has it.  A relation label whose bracketed payload does
    not split at underscores into exactly two parts is printed and dropped:
    the pair lists and every field of the object but the printed lines stay
    as they were, and the loop goes on with the labels that follow. *)
Theorem malformed_pair_is_skipped label acc suffix rest :
  is_link_label label = true →
  Py.index (Py.split "[" label) 1 = Ok suffix →
  Py.len (Py.split "_" (Py.drop_last suffix)) ≠ 2 →
  _extract_coreference_links_label label acc
  = Ok {| self := print (PrintNotAPair label) (self acc);
          mention_pairs := mention_pairs acc;
          appositive_pairs := appositive_pairs acc |}
  ∧ for_each _extract_coreference_links_label (label :: rest) acc
    = for_each _extract_coreference_links_label rest
        {| self := print (PrintNotAPair label) (self acc);
           mention_pairs := mention_pairs acc;
           appositive_pairs := appositive_pairs acc |}.
Proof.
  intros Hlink Hsuffix Hlen.
  assert (_extract_coreference_links_label label acc
          = Ok {| self := print (PrintNotAPair label) (self acc);
                  mention_pairs := mention_pairs acc;
                  appositive_pairs := appositive_pairs acc |}) as Hstep.
  { unfold _extract_coreference_links_label. rewrite Hlink, Hsuffix. simpl.
    by destruct (Z.eqb_spec (Py.len (Py.split "_" (Py.drop_last suffix))) 2). }
  split; [done|]. simpl. by rewrite Hstep.
Qed.

Lemma malformed_pair_is_skipped_witness :
  let acc := no_links (__init__ false false false false) in
  let acc' := {| self := print (PrintNotAPair "IDENT[1_2_3]") (self acc);
                 mention_pairs := []; appositive_pairs := [] |} in
  _extract_coreference_links_label "IDENT[1_2_3]" acc = Ok acc'
  ∧ for_each _extract_coreference_links_label ["IDENT[1_2_3]"; "IDENT[4_5]"] acc
    = for_each _extract_coreference_links_label ["IDENT[4_5]"] acc'.
Proof.
  apply (malformed_pair_is_skipped "IDENT[1_2_3]"
           (no_links (__init__ false false false false)) "1_2_3]" ["IDENT[4_5]"]).
  - vm_compute. reflexivity.
  - vm_compute. reflexivity.
  - vm_compute. discriminate.
Defined.

(** C9, as stated, fails on a payload of two parts that are not integers:
    the label IDENT[a_b] splits into the two parts a and b, and the
    conversion of the first raises [ValueError]; nothing is printed or
    dropped, and the paragraph is not processed further. *)
Lemma non_integer_pair_raises :
  Py.split "_" (Py.drop_last "a_b]") = ["a"; "b"]
  ∧ _extract_coreference_links_label "IDENT[a_b]"
      (no_links (__init__ false false false false)) = Raise ValueError
  ∧ get_coref_info
      (paragraph_state false false false false ["x"] [["IDENT[a_b]"]])
    = Raise ValueError.
Proof. split_and!; vm_compute; reflexivity. Qed.

(** ** The parenthesis repair *)

Lemma update_mention_get k f st m :
  Dict.get (_mention_dict st) k = Some m →
  update_mention k f st
  = Ok (with_mention_dict (Dict.setitem (_mention_dict st) k (f m)) st).
Proof. intros H. unfold update_mention, Dict.getitem. by rewrite H. Qed.

(** C10.  With appositive fusion on, when the fused text of the head (the
    tokens from the head's start to the end of the last member of the tuple)
    holds exactly one more opening than closing parenthesis and the last
    member ends at the last token, the repair reads the token after the end
    of the token list and the step raises [IndexError]. *)
Theorem paren_repair_reads_past_end
  mention_pair st second head last head_info last_info new_span_end :
  _use_appos st = true →
  Py.index mention_pair 1 = Ok second →
  Py.index mention_pair 0 = Ok head →
  Py.index mention_pair (-1) = Ok last →
  Dict.getitem (_mention_dict st) head = Ok head_info →
  Dict.getitem (_mention_dict st) last = Ok last_info →
  m_end last_info = Some new_span_end →
  new_span_end = Py.len (_tokens st) - 1 →
  Py.count "(" (Py.slice (_tokens st) (m_start head_info) (new_span_end + 1))
  = Py.count ")" (Py.slice (_tokens st) (m_start head_info) (new_span_end + 1))
    + 1 →
  _handle_appositives_tuple mention_pair st = Raise IndexError.
Proof.
  intros Happos Hsecond Hhead Hlast Hhi Hli Hend Hlen Hcount.
  unfold _handle_appositives_tuple.
  rewrite Hsecond. simpl. rewrite Happos. simpl.
  rewrite Hhead. simpl. rewrite Hhi. simpl. rewrite Hlast. simpl.
  rewrite Hli. simpl. rewrite Hend. simpl.
  unfold Dict.getitem in Hhi.
  destruct (Dict.get (_mention_dict st) head) as [hi|] eqn:Hget; [|done].
  inversion Hhi; subst hi.
  erewrite update_mention_get by exact Hget. simpl.
  erewrite update_mention_get by (simpl; apply get_setitem_eq). simpl.
  unfold Dict.getitem. rewrite get_setitem_eq. simpl.
  rewrite Hcount, Z.eqb_refl.
  rewrite index_past_end; [done|lia].
Qed.

Lemma paren_repair_reads_past_end_witness :
  _extract_mentions
    (paragraph_state true false false false unclosed_tokens unclosed_labels)
  = Ok unclosed_state
  ∧ _handle_appositives_tuple [1; 2] unclosed_state = Raise IndexError
  ∧ get_coref_info
      (paragraph_state true false false false unclosed_tokens unclosed_labels)
    = Raise IndexError.
Proof.
  split_and!.
  - vm_compute. reflexivity.
  - apply (paren_repair_reads_past_end [1; 2] unclosed_state 2 1 2
             unclosed_head unclosed_appositive 2); vm_compute; reflexivity.
  - vm_compute. reflexivity.
Defined.

(** ** Removing mentions *)

Lemma for_each_raises_only {A S : Type} (body : A → S → result S)
  (l : list A) (s : S) (e0 e : exn) :
  (∀ x s1 e1, body x s1 = Raise e1 → e1 = e0) →
  for_each body l s = Raise e → e = e0.
Proof.
  intros Hbody. revert s. induction l as [|x l IH]; intros s H; simpl in H.
  - done.
  - destruct (body x s) as [s1|e1] eqn:Hx; simpl in H.
    + by eapply IH.
    + inversion H; subst. by eapply Hbody.
Qed.

Lemma pop_mention_Ok mention_id st st' :
  pop_mention mention_id st = Ok st' ↔
  mention_id ∈ Dict.keys (_mention_dict st) ∧
  st' = with_mention_dict (Dict.remove (_mention_dict st) mention_id) st.
Proof.
  unfold pop_mention. split.
  - intros (d & Hd%pop_Ok & H)%bind_Ok. destruct Hd as [Hin ->].
    by inversion H.
  - intros [Hin ->]. by rewrite (proj2 (pop_Ok _ _ _) (conj Hin eq_refl)).
Qed.

Lemma pop_mention_Raise mention_id st e :
  pop_mention mention_id st = Raise e → e = KeyError.
Proof.
  unfold pop_mention.
  destruct (Dict.pop (_mention_dict st) mention_id) as [d|e'] eqn:Hpop; [done|].
  simpl. intros H. inversion H; subst. by apply pop_Raise in Hpop as [_ ->].
Qed.

Lemma remove_mention_Ok mention_id st st' :
  remove_mention mention_id st = Ok st' →
  mention_id ∈ Dict.keys (_mention_dict st) ∧
  _mention_dict st' = Dict.remove (_mention_dict st) mention_id.
Proof.
  unfold remove_mention.
  intros (st1 & [Hin ->]%pop_mention_Ok & H)%bind_Ok. by inversion H.
Qed.

Lemma remove_mention_present mention_id st :
  mention_id ∈ Dict.keys (_mention_dict st) →
  ∃ st', remove_mention mention_id st = Ok st'.
Proof.
  intros Hin. unfold remove_mention.
  rewrite (proj2 (pop_mention_Ok _ _ _) (conj Hin eq_refl)). simpl. eauto.
Qed.

Lemma remove_mention_Raise mention_id st e :
  remove_mention mention_id st = Raise e → e = KeyError.
Proof.
  unfold remove_mention.
  destruct (pop_mention mention_id st) as [st1|e'] eqn:Hpop; [done|].
  simpl. intros H. inversion H; subst. by eapply pop_mention_Raise.
Qed.

(** A loop of removals returns exactly when the identifiers are mentions
    and no identifier comes twice. *)
Lemma remove_all_Ok (l : list Z) st :
  (∃ st', for_each remove_mention l st = Ok st') ↔
  NoDup l ∧ ∀ m, m ∈ l → m ∈ Dict.keys (_mention_dict st).
Proof.
  revert st. induction l as [|m l IH]; intros st; simpl.
  - split; [intros _; split; [constructor|by intros ? ?%elem_of_nil]|eauto].
  - split.
    + intros [st' (st1 & Hst1 & H)%bind_Ok].
      apply remove_mention_Ok in Hst1 as [Hin Hd].
      destruct (proj1 (IH st1) (ex_intro _ st' H)) as [Hnd Hall].
      assert (∀ m', m' ∈ l → m' ∈ Dict.keys (_mention_dict st) ∧ m' ≠ m)
        as Hl by (intros m' Hm'; apply keys_remove; rewrite <- Hd; auto).
      split.
      * constructor; [|done]. intros Hm. by destruct (Hl m Hm).
      * intros m' [->|Hm']%elem_of_cons; [done|]. by apply Hl.
    + intros [Hnd Hall]. apply NoDup_cons in Hnd as [Hm Hnd].
      destruct (remove_mention_present m st) as [st1 Hst1];
        [apply Hall; left|].
      rewrite Hst1. simpl. apply IH. split; [done|].
      intros m' Hm'. apply remove_mention_Ok in Hst1 as [_ ->].
      apply keys_remove. split; [apply Hall; by right|]. by intros ->.
Qed.

(** The disposal of bare appositives returns exactly when every identifier
    it pops is a mention. *)
Lemma drop_loop_Ok pairs (l : list Z) st :
  NoDup l →
  (∃ st',
     for_each
       (λ mention st,
          if bool_decide (mention ∉ endpoints pairs)
          then d ← Dict.pop (_mention_dict st) mention;
               Ok (with_mention_dict d st)
          else Ok st) l st = Ok st') ↔
  ∀ m, m ∈ l → m ∉ endpoints pairs → m ∈ Dict.keys (_mention_dict st).
Proof.
  intros Hnd. revert st.
  induction Hnd as [|m l Hm Hnd IH]; intros st; simpl.
  - split; [by intros _ ? ?%elem_of_nil|eauto].
  - case_bool_decide as Hend; simpl.
    + fold (pop_mention m st). split.
      * intros [st' (st1 & [Hin ->]%pop_mention_Ok & H)%bind_Ok].
        intros m' [->|Hm']%elem_of_cons Hm'end; [done|].
        pose proof (proj1 (IH _) (ex_intro _ st' H) m' Hm' Hm'end) as Hk.
        simpl in Hk. by apply keys_remove in Hk as [? _].
      * intros Hall.
        rewrite (proj2 (pop_mention_Ok m st _)
                   (conj (Hall m (list_elem_of_here _ _) Hend) eq_refl)).
        simpl. apply IH. intros m' Hm' Hm'end. simpl. apply keys_remove.
        split; [apply Hall; [by right|done]|]. by intros ->.
    + rewrite IH. split.
      * intros Hall m' [->|Hm']%elem_of_cons Hm'end; [done|by apply Hall].
      * intros Hall m' Hm'. apply Hall. by right.
Qed.

Lemma filter_all {A : Type} (P : A → Prop) `{!∀ x, Decision (P x)}
  (l : list A) :
  (∀ x, P x) → filter P l = l.
Proof.
  intros HP. induction l as [|x l IH]; [done|].
  by rewrite filter_cons_True, IH.
Qed.

(** The disposal of bare appositives leaves the entries whose key is not a
    bare appositive or is an endpoint of a pair: the outcome depends on the
    set of bare appositives only, not on the order in which it is gone
    through. *)
Lemma drop_appositives_result pairs st st' :
  drop_appositives pairs st = Ok st' →
  st' = with_mention_dict
          (filter (λ kv, kv.1 ∈ _appos_mentions st → kv.1 ∈ endpoints pairs)
             (_mention_dict st)) st.
Proof.
  unfold drop_appositives. intros H.
  cut (st' = with_mention_dict
               (filter (λ kv, kv.1 ∈ elements (_appos_mentions st) →
                              kv.1 ∈ endpoints pairs) (_mention_dict st)) st).
  { intros ->. f_equal. apply list_filter_iff. intros kv.
    by rewrite elem_of_elements. }
  revert H. generalize (elements (_appos_mentions st)). intros l.
  revert st. induction l as [|m l IH]; intros st H; simpl in H.
  - inversion H; subst. destruct st'. unfold with_mention_dict. simpl. f_equal.
    symmetry. apply filter_all. by intros kv ?%elem_of_nil.
  - apply bind_Ok in H as (st1 & Hst1 & H). apply IH in H. subst st'.
    case_bool_decide as Hend.
    + fold (pop_mention m st) in Hst1.
      apply pop_mention_Ok in Hst1 as [_ ->]. unfold with_mention_dict. simpl.
      f_equal. unfold Dict.remove. rewrite list_filter_filter.
      apply list_filter_iff. intros kv. rewrite elem_of_cons. split.
      * intros [Hl Hne] [Heq|Hin]; [done|auto].
      * intros Hall. split; [auto|]. intros Heq. apply Hend. rewrite <- Heq. auto.
    + inversion Hst1; subst st1. f_equal. apply list_filter_iff.
      intros kv. rewrite elem_of_cons. split.
      * intros Hl [->|Hin]; [done|auto].
      * intros Hall Hin. auto.
Qed.

(** C7, as the code has it.  Each of the three removals pops without a
    guard.  The disposal of bare appositives completes exactly when every
    identifier it pops is in the mention set; alias removal and
    extended-appositive removal complete exactly when every listed
    identifier is in the mention set and is listed once.  In every other
    case the stage raises [KeyError]. *)
Theorem removal_needs_presence st pairs :
  ((∃ st', drop_appositives pairs st = Ok st') ↔
   ∀ m, m ∈ _appos_mentions st → m ∉ endpoints pairs →
        m ∈ Dict.keys (_mention_dict st))
  ∧ ((∃ st', _remove_aliases st = Ok st') ↔
     NoDup (_aliases st) ∧
     ∀ m, m ∈ _aliases st → m ∈ Dict.keys (_mention_dict st))
  ∧ ((∃ st', _remove_exappos st = Ok st') ↔
     NoDup (_exappos_mentions st) ∧
     ∀ m, m ∈ _exappos_mentions st → m ∈ Dict.keys (_mention_dict st))
  ∧ ∀ e, drop_appositives pairs st = Raise e
         ∨ _remove_aliases st = Raise e
         ∨ _remove_exappos st = Raise e → e = KeyError.
Proof.
  split_and!.
  - unfold drop_appositives. rewrite drop_loop_Ok by apply NoDup_elements.
    by setoid_rewrite elem_of_elements.
  - unfold _remove_aliases. destruct (_aliases st) as [|m l] eqn:Hl.
    + simpl. split; [intros _; split; [constructor|by intros ? ?%elem_of_nil]|eauto].
    + replace (0 <? Py.len (m :: l)) with true
        by (symmetry; apply Z.ltb_lt; unfold Py.len; simpl; lia).
      apply remove_all_Ok.
  - unfold _remove_exappos. destruct (_exappos_mentions st) as [|m l] eqn:Hl.
    + simpl. split; [intros _; split; [constructor|by intros ? ?%elem_of_nil]|eauto].
    + replace (0 <? Py.len (m :: l)) with true
        by (symmetry; apply Z.ltb_lt; unfold Py.len; simpl; lia).
      apply remove_all_Ok.
  - intros e [H|[H|H]].
    + unfold drop_appositives in H. eapply for_each_raises_only; [|exact H].
      intros m s1 e1. simpl. case_bool_decide; [|done].
      fold (pop_mention m s1). apply pop_mention_Raise.
    + unfold _remove_aliases in H. destruct (0 <? _); [|done].
      eapply for_each_raises_only; [|exact H].
      intros ? ? ?. apply remove_mention_Raise.
    + unfold _remove_exappos in H. destruct (0 <? _); [|done].
      eapply for_each_raises_only; [|exact H].
      intros ? ? ?. apply remove_mention_Raise.
Qed.

(** C7, as stated, fails on a relation that names an identifier with no
    mention label: with NOUN[1] the only mention, each of APPOS[1_2],
    ALIAS[1_2] and EXAPPOS[1_2] makes the matching removal pop the absent
    identifier 2, and processing ends with [KeyError]. *)
Lemma absent_mention_removal_raises :
  get_coref_info
    (paragraph_state false false false false ["x"] [["NOUN[1]"; "APPOS[1_2]"]])
  = Raise KeyError
  ∧ get_coref_info
      (paragraph_state false false false false ["x"] [["NOUN[1]"; "ALIAS[1_2]"]])
    = Raise KeyError
  ∧ get_coref_info
      (paragraph_state false false false false ["x"]
         [["NOUN[1]"; "EXAPPOS[1_2]"]])
    = Raise KeyError.
Proof. split_and!; vm_compute; reflexivity. Qed.

(** ** [reset] *)

(** C8.  [reset] leaves the list of extended-appositive candidates as it
    was, so a paragraph is not processed apart from the ones before it.
    With [use_exappos] off, the paragraph with two mentions and no relation
    yields both mentions when it is alone; after a paragraph with
    EXAPPOS[1_2] its mention 2 is popped as a left-over candidate. *)
Theorem reset_keeps_exappos_mentions :
  (∀ st, _exappos_mentions (reset st) = _exappos_mentions st)
  ∧ records (convert_tsv_to_jsonl plain_paragraph
               (__init__ false false false false))
    = Ok [ {| text := "c d"; tokens := ["c"; "d"];
              corefs := [single_token_mention 0 "c" "NOUN";
                         single_token_mention 1 "d" "NOUN"] |} ]
  ∧ records (convert_tsv_to_jsonl
               (exappos_paragraph +:+ newline +:+ newline +:+ plain_paragraph)
               (__init__ false false false false))
    = Ok [ {| text := "a b"; tokens := ["a"; "b"];
              corefs := [set_label 0 (single_token_mention 0 "a" "NOUN")] |};
           {| text := "c d"; tokens := ["c"; "d"];
              corefs := [single_token_mention 0 "c" "NOUN"] |} ].
Proof. split_and!; [done|vm_compute; reflexivity..]. Qed.

(** ** Spans stay within the tokens *)

Lemma same_input_refl st : same_input st st.
Proof. by repeat split. Qed.

Lemma same_input_trans st1 st2 st3 :
  same_input st1 st2 → same_input st2 st3 → same_input st1 st3.
Proof.
  unfold same_input, same_flags. intros (H1 & H2 & H3) (H4 & H5 & H6).
  destruct_and!. split_and!; congruence.
Qed.

Lemma same_input_mention_dict d st : same_input st (with_mention_dict d st).
Proof. by repeat split. Qed.

Lemma in_range_weaken n n' ordered ordered' m :
  n ≤ n' → (ordered' = true → ordered = true) →
  in_range n ordered m → in_range n' ordered' m.
Proof.
  intros Hn Hb (Hs & He & Ht). split; [lia|]. split; [|done].
  intros e Hm. destruct (He e Hm) as [? Hord]. split; [lia|auto].
Qed.

Lemma in_range_set_label n ordered i m :
  in_range n ordered m → in_range n ordered (set_label i m).
Proof. done. Qed.

Lemma Forall_values_setitem {V : Type} (P : V → Prop) (d : Dict.t V) k v :
  Forall P (Dict.values d) → P v → Forall P (Dict.values (Dict.setitem d k v)).
Proof.
  rewrite !Forall_forall. intros Hd Hv v' [->|Hin]%values_setitem; auto.
Qed.

Lemma Forall_values_remove {V : Type} (P : V → Prop) (d : Dict.t V) k :
  Forall P (Dict.values d) → Forall P (Dict.values (Dict.remove d k)).
Proof.
  rewrite !Forall_forall. intros Hd v' Hin%values_remove. auto.
Qed.

Lemma getitem_values {V : Type} (d : Dict.t V) k v :
  Dict.getitem d k = Ok v → v ∈ Dict.values d.
Proof.
  unfold Dict.getitem. destruct (Dict.get d k) eqn:Hget; [|done].
  intros H. inversion H; subst. by eapply get_Some_values.
Qed.

(** One label of one position. *)
Lemma extract_label_in_range i label st st' :
  0 ≤ i →
  Forall (in_range (i + 1) true) (Dict.values (_mention_dict st)) →
  _extract_mentions_label i label st = Ok st' →
  Forall (in_range (i + 1) true) (Dict.values (_mention_dict st'))
  ∧ same_input st st'.
Proof.
  intros Hi Hinv. unfold _extract_mentions_label.
  destruct (is_link_label label);
    [intros [= <-]; by split; [|apply same_input_refl]|].
  destruct (Py.strlen label =? 0);
    [intros [= <-]; by split; [|apply same_input_refl]|].
  set (st1 := if String.eqb (label_prefix label) ""
              then print (PrintLabel label) st else st).
  assert (_mention_dict st1 = _mention_dict st ∧ same_input st st1) as [Hd1 Hs1].
  { unfold st1. destruct (String.eqb _ _); by repeat split. }
  intros (mention_id & _ & H)%bind_Ok.
  set (st2 := if Dict.contains (_mention_dict st1) mention_id then st1
              else with_mention_dict
                     (Dict.setitem (_mention_dict st1) mention_id
                        (new_mention i)) st1) in H.
  assert (Forall (in_range (i + 1) true) (Dict.values (_mention_dict st2))
          ∧ same_input st st2) as [Hinv2 Hs2].
  { unfold st2. destruct (Dict.contains _ _).
    - by rewrite Hd1.
    - split; [|eapply same_input_trans; [done|apply same_input_mention_dict]].
      simpl. apply Forall_values_setitem; [by rewrite Hd1|].
      unfold in_range, new_mention. simpl.
      split; [lia|]. split; [done|by intros [? ?]]. }
  apply bind_Ok in H as (ends_here & _ & H).
  destruct ends_here; [|by inversion H; subst].
  apply bind_Ok in H as (m & Hm & H). inversion H; subst st'. clear H.
  split; [|eapply same_input_trans; [done|apply same_input_mention_dict]].
  simpl. apply Forall_values_setitem; [done|].
  apply getitem_values in Hm.
  rewrite Forall_forall in Hinv2. destruct (Hinv2 _ Hm) as (Hs & He & Ht).
  unfold in_range. simpl. split; [done|]. split; [|eauto].
  intros e [= <-]. split; [lia|]. intros _. lia.
Qed.
Lemma for_each_enumerate_from {A St : Type} (P : Z → St → Prop)
  (body : Z * A → St → result St) (l : list A) (k : nat) (s s' : St) :
  (∀ (i : nat) x s1 s2,
     l !! i = Some x → P (Z.of_nat (k + i)) s1 →
     body (Z.of_nat (k + i), x) s1 = Ok s2 → P (Z.of_nat (k + i) + 1) s2) →
  P (Z.of_nat k) s →
  for_each body (zip (Z.of_nat <$> seq k (length l)) l) s = Ok s' →
  P (Z.of_nat (k + length l)) s'.
Proof.
  revert k s. induction l as [|x l IH]; intros k s Hstep HP Hrun; simpl in *.
  - inversion Hrun; subst. by rewrite Nat.add_0_r.
  - apply bind_Ok in Hrun as (s1 & Hx & Hrun).
    replace (k + S (length l))%nat with (S k + length l)%nat by lia.
    apply (IH (S k) s1); [| |done].
    + intros i y t1 t2 Hy. replace (S k + i)%nat with (k + S i)%nat by lia.
      by apply Hstep.
    + specialize (Hstep 0%nat x s s1 eq_refl).
      rewrite Nat.add_0_r in Hstep. specialize (Hstep HP Hx).
      by replace (Z.of_nat (S k)) with (Z.of_nat k + 1) by lia.
Qed.

Lemma for_each_enumerate_invariant {A St : Type} (P : Z → St → Prop)
  (body : Z * A → St → result St) (l : list A) (s s' : St) :
  (∀ (i : nat) x s1 s2,
     l !! i = Some x → P (Z.of_nat i) s1 →
     body (Z.of_nat i, x) s1 = Ok s2 → P (Z.of_nat i + 1) s2) →
  P 0 s → for_each body (Py.enumerate l) s = Ok s' → P (Py.len l) s'.
Proof.
  intros Hstep HP Hrun.
  apply (for_each_enumerate_from P body l 0 s s'); done.
Qed.

(** One position. *)
Lemma extract_position_in_range i label_list st st' :
  0 ≤ i →
  Forall (in_range i true) (Dict.values (_mention_dict st)) →
  _extract_mentions_position (i, label_list) st = Ok st' →
  Forall (in_range (i + 1) true) (Dict.values (_mention_dict st'))
  ∧ same_input st st'.
Proof.
  intros Hi Hinv. unfold _extract_mentions_position. simpl.
  assert (Forall (in_range (i + 1) true) (Dict.values (_mention_dict st)))
    as Hinv1.
  { eapply Forall_impl; [done|]. intros m. apply in_range_weaken; [lia|done]. }
  destruct (Py.mem "_" label_list).
  - intros H. inversion H; subst. split; [done|apply same_input_refl].
  - apply (for_each_invariant
             (λ s, Forall (in_range (i + 1) true) (Dict.values (_mention_dict s))
                   ∧ same_input st s)); [|split; [done|apply same_input_refl]].
    intros label s1 s2 _ [H1 H2] Hstep.
    destruct (extract_label_in_range i label s1 s2 Hi H1 Hstep) as [H3 H4].
    split; [done|by eapply same_input_trans].
Qed.

(** Span extraction from an empty dictionary: every mention starts and, when
    it has an end, ends within the labelled positions, end not before
    start. *)
Lemma extract_mentions_in_range st st' :
  _mention_dict st = [] →
  _extract_mentions st = Ok st' →
  Forall (in_range (Py.len (_labels st)) true) (Dict.values (_mention_dict st'))
  ∧ same_input st st'.
Proof.
  intros Hempty. unfold _extract_mentions.
  apply (for_each_enumerate_invariant
           (λ k s, Forall (in_range k true) (Dict.values (_mention_dict s))
                   ∧ same_input st s)).
  - intros i label_list s1 s2 _ [H1 H2] Hstep.
    destruct (extract_position_in_range (Z.of_nat i) label_list s1 s2) as [H3 H4];
      [lia|done|done|].
    split; [done|by eapply same_input_trans].
  - rewrite Hempty. split; [constructor|apply same_input_refl].
Qed.
Lemma same_context_refl st : same_context st st.
Proof. by repeat split. Qed.

Lemma same_context_trans st1 st2 st3 :
  same_context st1 st2 → same_context st2 st3 → same_context st1 st3.
Proof.
  intros (H1 & H2 & H3 & H4) (H5 & H6 & H7 & H8).
  split; [by eapply same_input_trans|]. split_and!; congruence.
Qed.

Lemma same_context_mention_dict d st : same_context st (with_mention_dict d st).
Proof. by repeat split. Qed.

(** *** Link extraction leaves the mentions alone *)

Lemma link_label_frame label acc acc' :
  _extract_coreference_links_label label acc = Ok acc' →
  _mention_dict (self acc') = _mention_dict (self acc)
  ∧ same_input (self acc) (self acc')
  ∧ _appos_mentions (self acc') = _appos_mentions (self acc).
Proof.
  unfold _extract_coreference_links_label.
  destruct acc as [st mps aps]. simpl.
  destruct (is_link_label label); [|by intros [= <-]; repeat split].
  intros (suffix & _ & H)%bind_Ok.
  destruct (negb _); [by inversion H; subst; repeat split|].
  apply bind_Ok in H as (first & _ & H). apply bind_Ok in H as (a & _ & H).
  apply bind_Ok in H as (second & _ & H). apply bind_Ok in H as (b & _ & H).
  destruct (String.eqb (label_prefix label) "APPOS");
    [by inversion H; subst; repeat split|].
  inversion H; subst; clear H. simpl.
  destruct st as [? exappos aliases ? ? ? ? ? ? ? ? ? ? ? ? ?]. simpl.
  destruct aliases, exappos; simpl;
    destruct (String.eqb (label_prefix label) "ALIAS");
    destruct (String.eqb (label_prefix label) "EXAPPOS"); by repeat split.
Qed.

Lemma read_links_frame st links :
  read_links st = Ok links →
  _mention_dict (self links) = _mention_dict st
  ∧ same_input st (self links)
  ∧ _appos_mentions (self links) = _appos_mentions st.
Proof.
  unfold read_links.
  apply (for_each_invariant
           (λ acc, _mention_dict (self acc) = _mention_dict st
                   ∧ same_input st (self acc)
                   ∧ _appos_mentions (self acc) = _appos_mentions st));
    [|by repeat split].
  intros label_list acc1 acc2 _ Hacc1.
  apply (for_each_invariant
           (λ acc, _mention_dict (self acc) = _mention_dict st
                   ∧ same_input st (self acc)
                   ∧ _appos_mentions (self acc) = _appos_mentions st));
    [|done].
  intros label a1 a2 _ (H1 & H2 & H3) Hstep.
  apply link_label_frame in Hstep as (H4 & H5 & H6).
  split_and!; [congruence|by eapply same_input_trans|congruence].
Qed.

Lemma report_absent_frame pairs st :
  _mention_dict (report_absent pairs st) = _mention_dict st
  ∧ same_context st (report_absent pairs st).
Proof.
  unfold report_absent. revert st.
  induction pairs as [|p pairs IH]; intros st; simpl.
  - split; [done|apply same_context_refl].
  - match goal with |- context [fold_left _ pairs ?s] => set (st1 := s) end.
    assert (_mention_dict st1 = _mention_dict st ∧ same_context st st1)
      as [Hd Hc] by (unfold st1; destruct (_ || _); by repeat split).
    destruct (IH st1) as [Hd' Hc'].
    split; [etrans; [exact Hd'|exact Hd]|].
    eapply same_context_trans; [exact Hc|exact Hc'].
Qed.

(** *** Appositive fusion keeps spans within the tokens *)

Lemma keys_setitem_present {V : Type} (d : Dict.t V) k v :
  is_Some (Dict.get d k) → Dict.keys (Dict.setitem d k v) = Dict.keys d.
Proof.
  unfold Dict.keys. induction d as [|[k' v'] d IH]; simpl.
  - by intros [? ?].
  - destruct (Z.eqb_spec k' k) as [->|Hne]; simpl; [done|].
    intros H. f_equal. by apply IH.
Qed.

Lemma update_mention_frame (P : MentionInformation → Prop) k f st st' :
  update_mention k f st = Ok st' →
  (∀ m, Dict.get (_mention_dict st) k = Some m → P m → P (f m)) →
  Forall P (Dict.values (_mention_dict st)) →
  Forall P (Dict.values (_mention_dict st'))
  ∧ Dict.keys (_mention_dict st') = Dict.keys (_mention_dict st)
  ∧ same_context st st'.
Proof.
  intros (m & Hget & ->)%update_mention_Ok Hf HP. simpl. split_and!.
  - apply Forall_values_setitem; [done|]. apply Hf; [done|].
    rewrite Forall_forall in HP. apply HP. by eapply get_Some_values.
  - apply keys_setitem_present. eauto.
  - apply same_context_mention_dict.
Qed.
Lemma setitem_setitem {V : Type} (d : Dict.t V) k v v' :
  Dict.setitem (Dict.setitem d k v) k v' = Dict.setitem d k v'.
Proof.
  induction d as [|[k1 v1] d IH]; simpl.
  - by rewrite Z.eqb_refl.
  - destruct (Z.eqb_spec k1 k) as [->|Hne]; simpl.
    + by rewrite Z.eqb_refl.
    + rewrite (proj2 (Z.eqb_neq _ _) Hne). by rewrite IH.
Qed.

Lemma bind_ret {A B : Type} (a : A) (k : A → result B) :
  (x ← Ok a; k x) = k a.
Proof. done. Qed.

Lemma getitem_setitem_eq {V : Type} (d : Dict.t V) k v :
  Dict.getitem (Dict.setitem d k v) k = Ok v.
Proof. unfold Dict.getitem. by rewrite get_setitem_eq. Qed.

Lemma update_mention_setitem k f d st m :
  update_mention k f (with_mention_dict (Dict.setitem d k m) st)
  = Ok (with_mention_dict (Dict.setitem d k (f m)) st).
Proof.
  unfold update_mention. simpl. rewrite getitem_setitem_eq, bind_ret.
  by rewrite setitem_setitem.
Qed.

(** What one appositive tuple does to the object: the second member joins
    the bare-appositive set and, under fusion, the entry of the head gets
    the end of the last member, or one more when the repair applies. *)
Lemma handle_tuple_Ok mention_pair st st' :
  _handle_appositives_tuple mention_pair st = Ok st' →
  ∃ second,
    mention_pair !! 1%nat = Some second ∧
    ((_use_appos st = false ∧
      st' = with_appos_mentions (_appos_mentions st ∪ {[ second ]}) st)
     ∨ (_use_appos st = true ∧
        ∃ head head_info last_info new_span_end fused,
          Dict.get (_mention_dict st) head = Some head_info ∧
          last_info ∈ Dict.values (_mention_dict st) ∧
          m_end last_info = Some new_span_end ∧
          st' = with_mention_dict (Dict.setitem (_mention_dict st) head fused)
                  (with_appos_mentions (_appos_mentions st ∪ {[ second ]}) st) ∧
          m_start fused = m_start head_info ∧
          m_type fused = m_type head_info ∧
          (m_end fused = Some new_span_end
           ∨ (m_end fused = Some (new_span_end + 1) ∧
              (0 ≤ new_span_end + 1 →
               new_span_end + 1 < Py.len (_tokens st)))))).
Proof.
  unfold _handle_appositives_tuple. intros H.
  apply bind_Ok in H as (second & Hsecond & H).
  apply (index_Ok_lookup _ 1) in Hsecond; [|done].
  exists second. split; [done|].
  set (st0 := with_appos_mentions (_appos_mentions st ∪ {[ second ]}) st) in *.
  change (_use_appos st0) with (_use_appos st) in H.
  destruct (_use_appos st) eqn:Happos; cbn [negb] in H;
    [right; split; [done|]|left; by inversion H].
  apply bind_Ok in H as (head & _ & H).
  apply bind_Ok in H as (head_info & Hhead & H).
  apply bind_Ok in H as (last & _ & H).
  apply bind_Ok in H as (last_info & Hlast & H).
  apply bind_Ok in H as (new_span_end & Hend & H).
  apply getitem_values in Hlast.
  change (_mention_dict st0) with (_mention_dict st) in Hlast, Hhead.
  change (_tokens st0) with (_tokens st) in H.
  destruct (m_end last_info) as [e|] eqn:He; [|done].
  inversion Hend; subst e. clear Hend.
  unfold Dict.getitem in Hhead.
  destruct (Dict.get (_mention_dict st) head) as [hi|] eqn:Hget; [|done].
  inversion Hhead; subst hi. clear Hhead.
  erewrite update_mention_get in H by exact Hget.
  rewrite bind_ret in H. cbv beta in H.
  change (_mention_dict st0) with (_mention_dict st) in H.
  rewrite update_mention_setitem, bind_ret in H. cbv beta in H.
  cbn [_mention_dict with_mention_dict _tokens] in H.
  rewrite getitem_setitem_eq, bind_ret in H. cbv beta in H.
  cbn [m_text set_text field] in H. rewrite bind_ret in H. cbv beta in H.
  exists head, head_info, last_info, new_span_end.
  destruct (_ =? _) in H;
    [|eexists; split_and!; [done..|by inversion H|done|done|by left]].
  apply bind_Ok in H as (following & Hfollowing & H).
  change (_tokens st0) with (_tokens st) in Hfollowing.
  destruct (String.eqb following ")");
    [|eexists; split_and!; [done..|by inversion H|done|done|by left]].
  rewrite bind_ret in H. cbv beta in H.
  cbn [m_end set_text set_end field] in H. rewrite bind_ret in H. cbv beta in H.
  rewrite update_mention_setitem, bind_ret in H. cbv beta in H.
  rewrite update_mention_setitem in H.
  eexists. split_and!; [done..|by inversion H|done|done|right].
  split; [done|]. intros Hnn. by eapply index_Ok_range.
Qed.

Lemma handle_tuple_frame mention_pair st st' :
  _handle_appositives_tuple mention_pair st = Ok st' →
  Dict.keys (_mention_dict st') = Dict.keys (_mention_dict st)
  ∧ same_input st st'
  ∧ _aliases st' = _aliases st
  ∧ _exappos_mentions st' = _exappos_mentions st.
Proof.
  intros (second & _ & [[_ ->]|(_ & H)])%handle_tuple_Ok.
  2: destruct H as (head & hi & li & e & fused & Hget & _ & _ & -> & _).
  - by repeat split.
  - simpl. split; [|by repeat split]. apply keys_setitem_present. eauto.
Qed.

Lemma handle_tuple_in_range mention_pair st st' :
  Forall (in_range (Py.len (_tokens st)) (negb (_use_appos st)))
    (Dict.values (_mention_dict st)) →
  _handle_appositives_tuple mention_pair st = Ok st' →
  Forall (in_range (Py.len (_tokens st)) (negb (_use_appos st)))
    (Dict.values (_mention_dict st')).
Proof.
  intros Hinv (second & _ & [[_ ->]|(Happos & H)])%handle_tuple_Ok; [done|].
  destruct H as (head & hi & li & e & fused & Hget & Hli & He & -> & Hs & Ht
                 & Hend).
  simpl. apply Forall_values_setitem; [done|].
  rewrite Forall_forall in Hinv.
  destruct (Hinv _ Hli) as (_ & Hle & _). destruct (Hle e He) as [Hebound _].
  destruct (Hinv _ (get_Some_values _ _ _ Hget)) as (Hhs & _ & Hht).
  rewrite Happos. unfold in_range. rewrite Hs, Ht. split; [done|]. split.
  - intros e' He'. split; [|done].
    destruct Hend as [Hend|[Hend Hlt]]; rewrite Hend in He'; inversion He'; lia.
  - intros _. destruct Hend as [->|[-> _]]; eauto.
Qed.

Lemma handle_appositives_frame appositive_pairs st st' :
  _handle_appositives appositive_pairs st = Ok st' →
  Dict.keys (_mention_dict st') = Dict.keys (_mention_dict st)
  ∧ same_input st st'
  ∧ _aliases st' = _aliases st
  ∧ _exappos_mentions st' = _exappos_mentions st.
Proof.
  unfold _handle_appositives.
  apply (for_each_invariant
           (λ s, Dict.keys (_mention_dict s) = Dict.keys (_mention_dict st)
                 ∧ same_input st s ∧ _aliases s = _aliases st
                 ∧ _exappos_mentions s = _exappos_mentions st));
    [|by repeat split].
  intros t s1 s2 _ (H1 & H2 & H3 & H4) (H5 & H6 & H7 & H8)%handle_tuple_frame.
  split_and!; [congruence|by eapply same_input_trans|congruence..].
Qed.

Lemma handle_appositives_in_range appositive_pairs st st' :
  Forall (in_range (Py.len (_tokens st)) (negb (_use_appos st)))
    (Dict.values (_mention_dict st)) →
  _handle_appositives appositive_pairs st = Ok st' →
  Forall (in_range (Py.len (_tokens st)) (negb (_use_appos st)))
    (Dict.values (_mention_dict st')).
Proof.
  intros Hinv. unfold _handle_appositives. intros Hrun.
  cut (Forall (in_range (Py.len (_tokens st)) (negb (_use_appos st)))
         (Dict.values (_mention_dict st')) ∧ same_input st st'); [by intros []|].
  revert Hrun.
  apply (for_each_invariant
           (λ s, Forall (in_range (Py.len (_tokens st)) (negb (_use_appos st)))
                   (Dict.values (_mention_dict s)) ∧ same_input st s));
    [|split; [done|apply same_input_refl]].
  intros t s1 s2 _ [H1 H2] Hstep. split.
  - destruct H2 as ((Ha & _) & Htok & _). rewrite <- Htok, <- Ha.
    apply (handle_tuple_in_range t s1 s2); [|done]. by rewrite Htok, Ha.
  - eapply same_input_trans; [done|].
    by apply handle_tuple_frame in Hstep as (_ & ? & _).
Qed.
(** *** Removal only takes mentions away *)

Lemma pop_loop_Ok (l : list Z) st st' :
  for_each pop_mention l st = Ok st' →
  same_context st st'
  ∧ _clusters st' = _clusters st
  ∧ (∀ v, v ∈ Dict.values (_mention_dict st') → v ∈ Dict.values (_mention_dict st))
  ∧ (∀ k, k ∈ Dict.keys (_mention_dict st') ↔
          k ∈ Dict.keys (_mention_dict st) ∧ k ∉ l).
Proof.
  revert st. induction l as [|m l IH]; intros st H; simpl in H.
  - inversion H; subst. split_and!; [apply same_context_refl|done|done|].
    intros k. split; [intros ?; split; [done|apply not_elem_of_nil]|by intros []].
  - apply bind_Ok in H as (st1 & [Hin ->]%pop_mention_Ok & H).
    destruct (IH _ H) as (Hc & Hcl & Hv & Hk). simpl in *.
    split_and!.
    + eapply same_context_trans; [apply same_context_mention_dict|done].
    + done.
    + intros v Hv'. eapply values_remove. by apply Hv.
    + intros k. rewrite Hk, keys_remove, not_elem_of_cons. naive_solver.
Qed.

Lemma remove_loop_Ok (l : list Z) st st' :
  for_each remove_mention l st = Ok st' →
  same_context st st'
  ∧ (∀ v, v ∈ Dict.values (_mention_dict st') → v ∈ Dict.values (_mention_dict st))
  ∧ (∀ k, k ∈ Dict.keys (_mention_dict st') ↔
          k ∈ Dict.keys (_mention_dict st) ∧ k ∉ l).
Proof.
  revert st. induction l as [|m l IH]; intros st H; simpl in H.
  - inversion H; subst. split_and!; [apply same_context_refl|done|].
    intros k. split; [intros ?; split; [done|apply not_elem_of_nil]|by intros []].
  - apply bind_Ok in H as (st1 & Hst1 & H).
    unfold remove_mention in Hst1.
    apply bind_Ok in Hst1 as (st0 & [Hin ->]%pop_mention_Ok & Hst1).
    inversion Hst1; subst st1; clear Hst1.
    destruct (IH _ H) as (Hc & Hv & Hk). simpl in *.
    split_and!.
    + eapply same_context_trans; [|done]. by repeat split.
    + intros v Hv'. eapply values_remove. by apply Hv.
    + intros k. rewrite Hk, keys_remove, not_elem_of_cons. naive_solver.
Qed.

Lemma drop_appositives_Ok pairs st st' :
  drop_appositives pairs st = Ok st' →
  same_context st st'
  ∧ _clusters st' = _clusters st
  ∧ (∀ v, v ∈ Dict.values (_mention_dict st') → v ∈ Dict.values (_mention_dict st))
  ∧ (∀ k, k ∈ Dict.keys (_mention_dict st') ↔
          k ∈ Dict.keys (_mention_dict st) ∧
          (k ∈ _appos_mentions st → k ∈ endpoints pairs)).
Proof.
  unfold drop_appositives. intros H.
  cut (same_context st st' ∧ _clusters st' = _clusters st
       ∧ (∀ v, v ∈ Dict.values (_mention_dict st') → v ∈ Dict.values (_mention_dict st))
       ∧ (∀ k, k ∈ Dict.keys (_mention_dict st') ↔
               k ∈ Dict.keys (_mention_dict st) ∧
               (k ∈ elements (_appos_mentions st) → k ∈ endpoints pairs))).
  { intros (? & ? & ? & Hk). split_and!; [done..|].
    intros k. rewrite Hk. by rewrite elem_of_elements. }
  revert H. generalize (elements (_appos_mentions st)). intros l. revert st.
  induction l as [|m l IH]; intros st H; simpl in H.
  - inversion H; subst. split_and!; [apply same_context_refl|done|done|].
    intros k. split; [intros ?; split; [done|by intros ?%elem_of_nil]|by intros []].
  - apply bind_Ok in H as (st1 & Hst1 & H).
    destruct (IH _ H) as (Hc & Hcl & Hv & Hk). clear IH.
    case_bool_decide as Hend.
    + fold (pop_mention m st) in Hst1.
      apply pop_mention_Ok in Hst1 as [Hin ->]. simpl in *. split_and!.
      * eapply same_context_trans; [apply same_context_mention_dict|done].
      * done.
      * intros v Hv'. eapply values_remove. by apply Hv.
      * intros k. rewrite Hk, keys_remove, elem_of_cons. split.
        -- intros [[Hk1 Hk2] Hk3]. split; [done|]. intros [->|?]; [done|auto].
        -- intros [Hk1 Hk2]. split_and!; [done| |auto].
           intros ->. apply Hend, Hk2. by left.
    + inversion Hst1; subst st1. split_and!; [done..|].
      intros k. rewrite Hk, elem_of_cons. split.
      * intros [Hk1 Hk2]. split; [done|]. intros [->|?]; [done|auto].
      * intros [Hk1 Hk2]. auto.
Qed.

(** *** Cluster labels *)

Lemma first_cluster_None mention_id i clusters :
  first_cluster mention_id i clusters = None ↔
  ∀ cluster, cluster ∈ clusters → mention_id ∉ cluster.
Proof.
  revert i. induction clusters as [|c clusters IH]; intros i; simpl.
  - split; [by intros _ ? ?%elem_of_nil|done].
  - case_bool_decide as Hin.
    + split; [done|]. intros H. destruct (H c); [by left|done].
    + rewrite IH. split.
      * intros H c' [->|?]%elem_of_cons; auto.
      * intros H c' Hc'. apply H. by right.
Qed.

Lemma label_mentions_spec clusters items count singletons d c s :
  label_mentions clusters items count singletons = (d, c, s) →
  Dict.keys d = Dict.keys items
  ∧ (∀ v, v ∈ Dict.values d →
          ∃ v0, v0 ∈ Dict.values items ∧ (v = v0 ∨ ∃ i, v = set_label i v0))
  ∧ (∀ k, k ∈ s ↔
          k ∈ singletons ∨
          (k ∈ Dict.keys items ∧ ∀ cluster, cluster ∈ clusters → k ∉ cluster)).
Proof.
  revert count singletons d c s.
  induction items as [|[k0 v0] items IH]; intros count singletons d c s H;
    simpl in H.
  - inversion H; subst. split_and!; [done|by intros ? ?%elem_of_nil|].
    intros k. split; [by left|]. intros [?|[?%elem_of_nil _]]; done.
  - destruct (first_cluster k0 0 clusters) as [i|] eqn:Hfc.
    + destruct (label_mentions clusters items count singletons)
        as [[d1 c1] s1] eqn:Hrec.
      inversion H; subst. destruct (IH _ _ _ _ _ Hrec) as (Hk & Hv & Hs).
      unfold Dict.keys, Dict.values in *. simpl. split_and!.
      * by f_equal.
      * intros v [->|Hin]%elem_of_cons.
        -- exists v0. split; [by left|]. right. eauto.
        -- destruct (Hv v Hin) as (v1 & ? & ?). exists v1. split; [by right|done].
      * intros k. rewrite Hs, elem_of_cons. split; [naive_solver|].
        intros [?|[[->|?] Hc]]; [by left| |by right].
        apply (first_cluster_None _ 0) in Hc. congruence.
    + destruct (label_mentions clusters items (count + 1) (singletons ++ [k0]))
        as [[d1 c1] s1] eqn:Hrec.
      inversion H; subst. destruct (IH _ _ _ _ _ Hrec) as (Hk & Hv & Hs).
      unfold Dict.keys, Dict.values in *. simpl. split_and!.
      * by f_equal.
      * intros v [->|Hin]%elem_of_cons.
        -- exists v0. split; [by left|]. by left.
        -- destruct (Hv v Hin) as (v1 & ? & ?). exists v1. split; [by right|done].
      * intros k. rewrite Hs, elem_of_app, list_elem_of_singleton, elem_of_cons.
        pose proof (proj1 (first_cluster_None _ _ _) Hfc). naive_solver.
Qed.

Lemma assign_Ok st st' :
  _assign_mentions_to_clusters st = Ok st' →
  same_context st st'
  ∧ _clusters st' = _clusters st
  ∧ (∀ v, v ∈ Dict.values (_mention_dict st') →
          ∃ v0, v0 ∈ Dict.values (_mention_dict st) ∧
                (v = v0 ∨ ∃ i, v = set_label i v0))
  ∧ (∀ k, k ∈ Dict.keys (_mention_dict st') → k ∈ Dict.keys (_mention_dict st))
  ∧ (∀ k cluster, k ∈ Dict.keys (_mention_dict st) →
                  cluster ∈ _clusters st → k ∈ cluster →
                  k ∈ Dict.keys (_mention_dict st')).
Proof.
  unfold _assign_mentions_to_clusters.
  destruct (label_mentions _ _ _ _) as [[d c] s] eqn:Hlab.
  apply label_mentions_spec in Hlab as (Hk & Hv & Hs). simpl.
  destruct (_remove_singletons st).
  - intros (Hc & Hcl & Hv' & Hk')%pop_loop_Ok. simpl in *. split_and!.
    + eapply same_context_trans; [|done]. by repeat split.
    + done.
    + intros v Hin. apply Hv. by apply Hv'.
    + intros k [Hin _]%Hk'. by rewrite <- Hk.
    + intros k cluster Hin Hcl' Hkc. apply Hk'. rewrite Hk. split; [done|].
      rewrite Hs. intros [?%elem_of_nil|[_ Hno]]; [done|].
      by apply (Hno cluster).
  - intros [= <-]. simpl. split_and!; [by repeat split|done|done| |].
    + intros k. by rewrite Hk.
    + intros k _ ? _ _. by rewrite Hk.
Qed.
(** *** The whole of [get_coref_info] *)

Lemma Forall_values_subset {V : Type} (P : V → Prop) (d d' : Dict.t V) :
  (∀ v, v ∈ Dict.values d' → v ∈ Dict.values d) →
  Forall P (Dict.values d) → Forall P (Dict.values d').
Proof. rewrite !Forall_forall. auto. Qed.

Lemma extract_coreference_links_in_range st st' :
  Forall (in_range (Py.len (_tokens st)) (negb (_use_appos st)))
    (Dict.values (_mention_dict st)) →
  _extract_coreference_links st = Ok st' →
  Forall (in_range (Py.len (_tokens st)) (negb (_use_appos st)))
    (Dict.values (_mention_dict st'))
  ∧ same_input st st'.
Proof.
  intros Hinv. unfold _extract_coreference_links.
  intros (links & Hlinks & H)%bind_Ok.
  apply bind_Ok in H as (sb & Hsb & H).
  apply bind_Ok in H as (sc & Hsc & H). inversion H; subst st'; clear H.
  apply read_links_frame in Hlinks as (Hd1 & Hi1 & _).
  destruct (report_absent_frame (mention_pairs links) (self links))
    as (Hd2 & Hi2 & _).
  set (sa := report_absent (mention_pairs links) (self links)) in *.
  assert (same_input st sa) as Hia by (by eapply same_input_trans).
  pose proof Hia as ((Happos & _) & Htok & _).
  assert (Forall (in_range (Py.len (_tokens sa)) (negb (_use_appos sa)))
            (Dict.values (_mention_dict sa))) as Hinva
    by (by rewrite Htok, Happos, Hd2, Hd1).
  pose proof (handle_appositives_in_range _ _ _ Hinva Hsb) as Hinvb.
  apply handle_appositives_frame in Hsb as (_ & Hib & _).
  apply drop_appositives_Ok in Hsc as ((Hic & _) & _ & Hvc & _).
  split.
  - simpl. eapply Forall_values_subset; [exact Hvc|].
    by rewrite <- Htok, <- Happos.
  - eapply same_input_trans; [exact Hia|].
    eapply same_input_trans; [exact Hib|].
    eapply same_input_trans; [exact Hic|]. by repeat split.
Qed.

Lemma remove_aliases_Ok st st' :
  _remove_aliases st = Ok st' →
  same_context st st'
  ∧ (∀ v, v ∈ Dict.values (_mention_dict st') → v ∈ Dict.values (_mention_dict st))
  ∧ (∀ k, k ∈ Dict.keys (_mention_dict st') ↔
          k ∈ Dict.keys (_mention_dict st) ∧ k ∉ _aliases st).
Proof.
  unfold _remove_aliases. destruct (0 <? _) eqn:Hlen; [apply remove_loop_Ok|].
  intros [= <-]. split_and!; [apply same_context_refl|done|].
  destruct (_aliases st); [|done].
  intros k. split; [intros ?; split; [done|apply not_elem_of_nil]|by intros []].
Qed.

Lemma remove_exappos_Ok st st' :
  _remove_exappos st = Ok st' →
  same_context st st'
  ∧ (∀ v, v ∈ Dict.values (_mention_dict st') → v ∈ Dict.values (_mention_dict st))
  ∧ (∀ k, k ∈ Dict.keys (_mention_dict st') ↔
          k ∈ Dict.keys (_mention_dict st) ∧ k ∉ _exappos_mentions st).
Proof.
  unfold _remove_exappos. destruct (0 <? _) eqn:Hlen; [apply remove_loop_Ok|].
  intros [= <-]. split_and!; [apply same_context_refl|done|].
  destruct (_exappos_mentions st); [|done].
  intros k. split; [intros ?; split; [done|apply not_elem_of_nil]|by intros []].
Qed.

Lemma get_coref_info_in_range st st' :
  _mention_dict st = [] →
  Py.len (_tokens st) = Py.len (_labels st) →
  get_coref_info st = Ok st' →
  Forall (in_range (Py.len (_tokens st)) (negb (_use_appos st)))
    (Dict.values (_mention_dict st'))
  ∧ same_input st st'.
Proof.
  intros Hempty Hlen. unfold get_coref_info.
  intros (s1 & Hs1 & H)%bind_Ok.
  apply bind_Ok in H as (s2 & Hs2 & H).
  apply bind_Ok in H as (s3 & Hs3 & H).
  apply bind_Ok in H as (s4 & Hs4 & H).
  destruct (extract_mentions_in_range _ _ Hempty Hs1) as [Hinv1 Hi1].
  pose proof Hi1 as ((Happos1 & _) & Htok1 & _).
  assert (Forall (in_range (Py.len (_tokens s1)) (negb (_use_appos s1)))
            (Dict.values (_mention_dict s1))) as Hinv1'.
  { rewrite Htok1, Hlen. eapply Forall_impl; [exact Hinv1|].
    intros m. apply in_range_weaken; [lia|done]. }
  destruct (extract_coreference_links_in_range _ _ Hinv1' Hs2) as [Hinv2 Hi2].
  apply assign_Ok in Hs3 as ((Hi3 & _) & _ & Hv3 & _).
  assert (same_input st s3) as His3.
  { eapply same_input_trans; [exact Hi1|].
    eapply same_input_trans; [exact Hi2|exact Hi3]. }
  assert (Forall (in_range (Py.len (_tokens st)) (negb (_use_appos st)))
            (Dict.values (_mention_dict s3))) as Hinv3.
  { rewrite Forall_forall. intros v (v0 & Hv0 & Hv)%Hv3.
    rewrite Forall_forall in Hinv2. specialize (Hinv2 _ Hv0).
    rewrite Htok1, Happos1 in Hinv2.
    destruct Hv as [->|[i ->]]; [done|by apply in_range_set_label]. }
  assert (Forall (in_range (Py.len (_tokens st)) (negb (_use_appos st)))
            (Dict.values (_mention_dict s4)) ∧ same_input st s4) as [Hinv4 His4].
  { destruct (negb (_use_aliases s3)).
    - apply remove_aliases_Ok in Hs4 as ((Hi4 & _) & Hv4 & _). split.
      + by eapply Forall_values_subset.
      + by eapply same_input_trans.
    - by inversion Hs4; subst. }
  destruct (negb (_use_exappos s4)).
  - apply remove_exappos_Ok in H as ((Hi5 & _) & Hv5 & _). split.
    + by eapply Forall_values_subset.
    + by eapply same_input_trans.
  - by inversion H; subst.
Qed.
(** *** Emitted records *)

Lemma get_paragraph_data_Ok paragraph st st' :
  get_paragraph_data paragraph st = Ok st' →
  Py.len (_tokens st') = Py.len (_labels st')
  ∧ _mention_dict st' = _mention_dict st
  ∧ same_flags st st'.
Proof.
  unfold get_paragraph_data. intros (first_line & _ & H)%bind_Ok.
  apply bind_Ok in H as ([tokens labels] & Hloop & H).
  inversion H; subst st'; clear H. simpl. split; [|by repeat split].
  revert Hloop.
  apply (for_each_invariant (λ acc, Py.len acc.1 = Py.len acc.2)); [|done].
  intros line [toks labs] [toks' labs'] _ Hacc. unfold get_paragraph_data_line.
  destruct (_ =? 1); [intros H; by inversion H; subst|].
  intros (token & _ & H)%bind_Ok. apply bind_Ok in H as (column & _ & H).
  inversion H; subst. simpl in *. unfold Py.len in *.
  rewrite !length_app. simpl. lia.
Qed.

Lemma accumulate_Ok st st' :
  _accumulate_mention_type_counts st = Ok st' →
  (∀ m, m ∈ Dict.values (_mention_dict st) → is_Some (m_type m))
  ∧ _mention_dict st' = _mention_dict st
  ∧ same_flags st st'.
Proof.
  unfold _accumulate_mention_type_counts.
  generalize (Dict.values (_mention_dict st)). intros l. revert st.
  induction l as [|m l IH]; intros st H; simpl in H.
  - inversion H; subst. split; [by intros ? ?%elem_of_nil|by repeat split].
  - apply bind_Ok in H as (s1 & Hs1 & H).
    apply bind_Ok in Hs1 as (mention_type & Htype & Hs1).
    inversion Hs1; subst s1; clear Hs1.
    destruct (IH _ H) as (Hall & Hd & Hf).
    split; [|split; [exact Hd|exact Hf]].
    intros m' [->|?]%elem_of_cons; [|auto].
    destruct (m_type m); [eauto|done].
Qed.

Lemma in_range_span_ok n ordered m :
  in_range n ordered m → is_Some (m_type m) → span_ok n ordered m.
Proof.
  intros (Hs & He & Ht) Htype. destruct (Ht Htype) as [e Hend].
  destruct (He e Hend) as [Hb Ho]. exists e. do 3 (split; [done|]). done.
Qed.

(** The loop of [convert_tsv_to_jsonl], from a state with no mention. *)
Lemma convert_loop_spans paragraphs st0 out0 st' output :
  _mention_dict st0 = [] →
  (∀ record mention, record ∈ out0 → mention ∈ corefs record →
     span_ok (Py.len (tokens record)) (negb (_use_appos st0)) mention) →
  for_each convert_paragraph paragraphs (st0, out0) = Ok (st', output) →
  ∀ record mention, record ∈ output → mention ∈ corefs record →
    span_ok (Py.len (tokens record)) (negb (_use_appos st0)) mention.
Proof.
  intros Hempty Hout Hrun.
  cut (_mention_dict st' = [] ∧ same_flags st0 st' ∧
       ∀ record mention, record ∈ output → mention ∈ corefs record →
         span_ok (Py.len (tokens record)) (negb (_use_appos st0)) mention);
    [by intros (_ & _ & ?)|].
  revert Hrun.
  apply (for_each_invariant
           (λ acc : State * list ParagraphDict,
              _mention_dict acc.1 = [] ∧ same_flags st0 acc.1 ∧
              ∀ record mention, record ∈ acc.2 → mention ∈ corefs record →
                span_ok (Py.len (tokens record)) (negb (_use_appos st0)) mention));
    [|by repeat split].
  intros paragraph [st out] [st2 out2] _ (Hd & Hf & Hrec). simpl in *.
  intros (s1 & Hs1 & H)%bind_Ok.
  apply bind_Ok in H as (s2 & Hs2 & H).
  apply bind_Ok in H as (s3 & Hs3 & H). inversion H; subst st2 out2; clear H.
  apply get_paragraph_data_Ok in Hs1 as (Hlen & Hd1 & Hf1).
  rewrite Hd in Hd1.
  destruct (get_coref_info_in_range _ _ Hd1 Hlen Hs2) as (Hinv & Hf2 & Htok & _).
  apply accumulate_Ok in Hs3 as (Htypes & _ & Hf3). simpl in *.
  split; [done|]. split.
  - clear Hrec Hout Hinv Htypes. unfold same_flags, reset in *. simpl in *.
    destruct_and!. split_and!; congruence.
  - intros record mention [Hin|Heq%list_elem_of_singleton]%elem_of_app Hm;
      [by eapply Hrec|].
    subst record. simpl in *. apply in_range_span_ok; [|by apply Htypes].
    rewrite Forall_forall in Hinv. specialize (Hinv _ Hm).
    destruct Hf as (Ha & _), Hf1 as (Ha1 & _).
    by rewrite Htok, <- Ha, <- Ha1.
Qed.

Lemma extract_label_frame i label st st' :
  _extract_mentions_label i label st = Ok st' → same_input st st'.
Proof.
  unfold _extract_mentions_label.
  destruct (is_link_label label); [intros [= <-]; apply same_input_refl|].
  destruct (Py.strlen label =? 0); [intros [= <-]; apply same_input_refl|].
  set (st1 := if String.eqb (label_prefix label) ""
              then print (PrintLabel label) st else st).
  assert (same_input st st1) as Hs1
    by (unfold st1; destruct (String.eqb _ _); by repeat split).
  intros (mention_id & _ & H)%bind_Ok.
  set (st2 := if Dict.contains (_mention_dict st1) mention_id then st1
              else with_mention_dict
                     (Dict.setitem (_mention_dict st1) mention_id
                        (new_mention i)) st1) in H.
  assert (same_input st st2) as Hs2.
  { unfold st2. destruct (Dict.contains _ _); [done|].
    eapply same_input_trans; [done|apply same_input_mention_dict]. }
  apply bind_Ok in H as (ends_here & _ & H).
  destruct ends_here; [|by inversion H; subst].
  apply bind_Ok in H as (m & _ & H). inversion H; subst st'.
  eapply same_input_trans; [done|apply same_input_mention_dict].
Qed.

Lemma extract_mentions_frame st st' :
  _extract_mentions st = Ok st' → same_input st st'.
Proof.
  unfold _extract_mentions.
  apply (for_each_invariant (same_input st)); [|apply same_input_refl].
  intros [i label_list] s1 s2 _ Hs1. unfold _extract_mentions_position.
  simpl. destruct (Py.mem "_" label_list); [by intros [= <-]|].
  apply (for_each_invariant (same_input st)); [|done].
  intros label t1 t2 _ Ht1 Hstep%extract_label_frame.
  by eapply same_input_trans.
Qed.
(** ** Bare appositives *)

Lemma elem_of_endpoints (pairs : list MentionPair) (k : Z) :
  k ∈ endpoints pairs ↔ ∃ pair, pair ∈ pairs ∧ (k = pair.1 ∨ k = pair.2).
Proof.
  unfold endpoints. rewrite elem_of_union_list. split.
  - intros (X & (pair & -> & Hpair)%list_elem_of_fmap & Hk).
    exists pair. split; [done|]. unfold set_of_pair in Hk. set_solver.
  - intros (pair & Hpair & Hk). exists (set_of_pair pair).
    split; [apply list_elem_of_fmap; eauto|]. unfold set_of_pair. set_solver.
Qed.

Lemma add_pair_covers clusters pair k :
  (k = pair.1 ∨ k = pair.2 ∨ ∃ cluster, cluster ∈ clusters ∧ k ∈ cluster) →
  ∃ cluster, cluster ∈ add_pair clusters pair ∧ k ∈ cluster.
Proof.
  intros Hk.
  assert (k ∈ set_of_pair pair ∨ ∃ cluster, cluster ∈ clusters ∧ k ∈ cluster)
    as [Hp|(c & Hc & Hkc)] by (unfold set_of_pair; set_solver).
  - destruct (add_pair_cases clusters pair) as [->|(i & c & Hi & ->)].
    + exists (set_of_pair pair). split; [|done].
      apply elem_of_app. right. by left.
    + exists (c ∪ set_of_pair pair). split; [|set_solver].
      apply list_elem_of_lookup. exists i.
      apply list_lookup_insert_eq. by eapply lookup_lt_Some.
  - destruct (add_pair_cases clusters pair) as [->|(i & c' & Hi & ->)].
    + exists c. split; [|done]. apply elem_of_app. by left.
    + apply list_elem_of_lookup in Hc as [j Hj].
      destruct (decide (i = j)) as [->|Hne].
      * rewrite Hi in Hj. inversion Hj; subst c'.
        exists (c ∪ set_of_pair pair). split; [|set_solver].
        apply list_elem_of_lookup. exists j.
        apply list_lookup_insert_eq. by eapply lookup_lt_Some.
      * exists c. split; [|done]. apply list_elem_of_lookup. exists j.
        by rewrite list_lookup_insert_ne.
Qed.

(** Every endpoint of a pair lies in a cluster the builder returns. *)
Lemma group_covers pairs k :
  k ∈ endpoints pairs →
  ∃ cluster, cluster ∈ _group_mentions_into_clusters pairs ∧ k ∈ cluster.
Proof.
  rewrite group_fold. intros Hk.
  cut (∀ clusters,
         (k ∈ endpoints pairs ∨ ∃ cluster, cluster ∈ clusters ∧ k ∈ cluster) →
         ∃ cluster, cluster ∈ fold_left add_pair pairs clusters ∧ k ∈ cluster);
    [intros Hcut; apply Hcut; by left|].
  clear Hk. induction pairs as [|p ps IH]; intros clusters.
  - simpl. intros [Hk|?]; [|done].
    apply elem_of_endpoints in Hk as (? & ?%elem_of_nil & _). done.
  - simpl. intros Hk. apply IH.
    destruct Hk as [(pair & [->|Hin]%elem_of_cons & Hk)%elem_of_endpoints|Hk].
    + right. apply add_pair_covers. tauto.
    + left. apply elem_of_endpoints. eauto.
    + right. apply add_pair_covers. tauto.
Qed.

(** C5, as the code has it.  A mention of the bare-appositive set that was
    in the mention set after span extraction is in the final mention set if
    and only if it is an endpoint of a coreference pair and is not removed
    afterwards as a candidate: it is not on the alias list when
    [use_aliases] is off, and not on the extended-appositive list when
    [use_exappos] is off. *)
Theorem bare_appositive_retention st st1 links st' m :
  _extract_mentions st = Ok st1 →
  read_links st1 = Ok links →
  get_coref_info st = Ok st' →
  m ∈ _appos_mentions st' →
  m ∈ Dict.keys (_mention_dict st1) →
  m ∈ Dict.keys (_mention_dict st') ↔
  m ∈ endpoints (mention_pairs links)
  ∧ (_use_aliases st = false → m ∉ _aliases (self links))
  ∧ (_use_exappos st = false → m ∉ _exappos_mentions (self links)).
Proof.
  intros Hextract Hlinks Hrun Hm Hkey. unfold get_coref_info in Hrun.
  rewrite Hextract, bind_ret in Hrun.
  apply bind_Ok in Hrun as (s2 & Hs2 & Hrun).
  apply bind_Ok in Hrun as (s3 & Hs3 & Hrun).
  apply bind_Ok in Hrun as (s4 & Hs4 & Hrun).
  unfold _extract_coreference_links in Hs2.
  rewrite Hlinks, bind_ret in Hs2.
  apply bind_Ok in Hs2 as (sb & Hsb & Hs2).
  apply bind_Ok in Hs2 as (sc & Hsc & Hs2). inversion Hs2; subst s2; clear Hs2.
  destruct (extract_mentions_frame _ _ Hextract) as (Hf0 & _).
  apply read_links_frame in Hlinks as (Hd1 & (Hf1 & _) & _).
  destruct (report_absent_frame (mention_pairs links) (self links))
    as (Hd2 & (Hf2 & _) & Hal2 & Hex2 & _).
  set (sa := report_absent (mention_pairs links) (self links)) in *.
  apply handle_appositives_frame in Hsb as (Hkb & (Hfb & _) & Halb & Hexb).
  apply drop_appositives_Ok in Hsc as (((Hfc & _) & Halc & Hexc & Hapc) & _ & _ & Hkc).
  apply assign_Ok in Hs3 as (((Hf3 & _) & Hal3 & Hex3 & Hap3) & _ & _ & Hk3 & Hk3').
  unfold with_clusters in *. simpl in *.
  assert (_use_aliases s3 = _use_aliases st ∧ _use_exappos s3 = _use_exappos st)
    as [Hua3 Hue3].
  { unfold same_flags in *. simpl in *. destruct_and!. split; congruence. }
  assert (_aliases s3 = _aliases (self links)
          ∧ _exappos_mentions s3 = _exappos_mentions (self links))
    as [Hals3 Hexs3] by (split; congruence).
  assert (m ∈ Dict.keys (_mention_dict s3) ↔ m ∈ endpoints (mention_pairs links))
    as Hretained.
  { split.
    - intros Hin%Hk3. apply Hkc in Hin as [_ Hin]. apply Hin.
      rewrite <- Hapc, <- Hap3.
      cut (_appos_mentions st' = _appos_mentions s3); [congruence|].
      clear -Hs4 Hrun.
      assert (_appos_mentions s4 = _appos_mentions s3) as <-.
      { destruct (negb (_use_aliases s3)); [|by inversion Hs4].
        by apply remove_aliases_Ok in Hs4 as ((_ & _ & _ & ?) & _). }
      destruct (negb (_use_exappos s4)); [|by inversion Hrun].
      by apply remove_exappos_Ok in Hrun as ((_ & _ & _ & ?) & _).
    - intros Hend. destruct (group_covers _ _ Hend) as (cluster & Hcl & Hmc).
      apply (Hk3' m cluster); [|done|done].
      apply Hkc. split; [|done]. rewrite Hkb. unfold Dict.keys.
      rewrite Hd2, Hd1. exact Hkey. }
  assert (m ∈ Dict.keys (_mention_dict s4) ↔
          m ∈ endpoints (mention_pairs links)
          ∧ (_use_aliases st = false → m ∉ _aliases (self links))) as Hs4keys.
  { rewrite <- Hretained, <- Hua3, <- Hals3.
    destruct (_use_aliases s3); simpl in Hs4.
    - inversion Hs4; subst s4. naive_solver.
    - apply remove_aliases_Ok in Hs4 as (_ & _ & Hk4). rewrite Hk4. naive_solver. }
  assert (_use_exappos s4 = _use_exappos st
          ∧ _exappos_mentions s4 = _exappos_mentions (self links))
    as [Hue4 Hexs4].
  { destruct (negb (_use_aliases s3)); [|by inversion Hs4; subst].
    apply remove_aliases_Ok in Hs4 as (((Hf4 & _) & _ & Hex4 & _) & _).
    unfold same_flags in Hf4. destruct_and!. split; congruence. }
  rewrite <- Hue4, <- Hexs4.
  destruct (_use_exappos s4); simpl in Hrun.
  - inversion Hrun; subst st'. rewrite Hs4keys. naive_solver.
  - apply remove_exappos_Ok in Hrun as (_ & _ & Hk5).
    rewrite Hk5, Hs4keys. naive_solver.
Qed.

Lemma bare_appositive_retention_witness :
  ∃ st1 links st',
    _extract_mentions (linked_appositive_state "IDENT[2_3]") = Ok st1
    ∧ read_links st1 = Ok links
    ∧ get_coref_info (linked_appositive_state "IDENT[2_3]") = Ok st'
    ∧ 2 ∈ _appos_mentions st'
    ∧ 2 ∈ Dict.keys (_mention_dict st1)
    ∧ (2 ∈ Dict.keys (_mention_dict st') ↔
       2 ∈ endpoints (mention_pairs links)
       ∧ (_use_aliases (linked_appositive_state "IDENT[2_3]") = false →
          2 ∉ _aliases (self links))
       ∧ (_use_exappos (linked_appositive_state "IDENT[2_3]") = false →
          2 ∉ _exappos_mentions (self links))).
Proof.
  destruct (_extract_mentions (linked_appositive_state "IDENT[2_3]"))
    as [st1|] eqn:Hextract; [|by vm_compute in Hextract].
  destruct (read_links st1) as [links|] eqn:Hlinks;
    [|vm_compute in Hextract; injection Hextract as <-;
      by vm_compute in Hlinks].
  destruct (get_coref_info (linked_appositive_state "IDENT[2_3]"))
    as [st'|] eqn:Hrun; [|by vm_compute in Hrun].
  assert (2 ∈ _appos_mentions st') as Happos.
  { vm_compute in Hrun. injection Hrun as <-.
    apply (bool_decide_unpack _). vm_compute. exact I. }
  assert (2 ∈ Dict.keys (_mention_dict st1)) as Hkey.
  { vm_compute in Hextract. injection Hextract as <-.
    apply (bool_decide_unpack _). vm_compute. exact I. }
  exists st1, links, st'. do 5 (split; [done|]).
  exact (bare_appositive_retention (linked_appositive_state "IDENT[2_3]")
           st1 links st' 2 Hextract Hlinks Hrun Happos Hkey).
Defined.

(** C5, as stated, fails with [use_aliases] off: the appositive NOUN[2] is
    in the bare-appositive set and is an endpoint of the pair of ALIAS[3_2],
    and it is not in the final mention set, because alias removal pops it
    after the disposal of bare appositives has kept it. *)
Lemma alias_removal_drops_linked_appositive :
  mention_pairs
    <$> (st1 ← _extract_mentions (linked_appositive_state "ALIAS[3_2]");
         read_links st1)
  = Ok [(3, 2)]
  ∧ (λ st', (elements (_appos_mentions st'), Dict.keys (_mention_dict st')))
      <$> get_coref_info (linked_appositive_state "ALIAS[3_2]")
    = Ok ([2], [1; 3]).
Proof. split; vm_compute; reflexivity. Qed.

(** ** Span ends *)

(** What one label of one position does to the dictionary. *)
Lemma extract_label_Ok i label st st' :
  _extract_mentions_label i label st = Ok st' →
  (is_mention_label label = false ∧ st' = st)
  ∨ (is_mention_label label = true ∧
     ∃ mention_id ends_here,
       mention_id_of label = Ok mention_id ∧
       span_ends (_labels st) i label = Ok ends_here ∧
       Dict.get (_mention_dict st') mention_id
       = Some (processed_mention (_tokens st) i label
                 (Dict.get (_mention_dict st) mention_id) ends_here) ∧
       ∀ k, k ≠ mention_id →
            Dict.get (_mention_dict st') k = Dict.get (_mention_dict st) k).
Proof.
  unfold _extract_mentions_label, is_mention_label.
  destruct (is_link_label label); [intros [= <-]; by left|].
  destruct (Py.strlen label =? 0); [intros [= <-]; by left|].
  intros H. right. split; [done|].
  set (st1 := if String.eqb (label_prefix label) ""
              then print (PrintLabel label) st else st) in H.
  assert (_mention_dict st1 = _mention_dict st ∧ _labels st1 = _labels st
          ∧ _tokens st1 = _tokens st) as (Hd1 & Hl1 & Ht1)
    by (unfold st1; by destruct (String.eqb _ _)).
  apply bind_Ok in H as (mention_id & Hid & H).
  set (st2 := if Dict.contains (_mention_dict st1) mention_id then st1
              else with_mention_dict
                     (Dict.setitem (_mention_dict st1) mention_id
                        (new_mention i)) st1) in H.
  assert (_labels st2 = _labels st ∧ _tokens st2 = _tokens st
          ∧ Dict.get (_mention_dict st2) mention_id
            = Some (default (new_mention i)
                      (Dict.get (_mention_dict st) mention_id))
          ∧ ∀ k, k ≠ mention_id →
                 Dict.get (_mention_dict st2) k = Dict.get (_mention_dict st) k)
    as (Hl2 & Ht2 & Hg2 & Ho2).
  { unfold st2, Dict.contains. rewrite Hd1.
    destruct (Dict.get (_mention_dict st) mention_id) as [m|] eqn:Hget; simpl.
    - split_and!; [done|done|congruence|intros; congruence].
    - split_and!; [done|done|apply get_setitem_eq|].
      intros k Hk. rewrite get_setitem_ne by done. congruence. }
  apply bind_Ok in H as (ends_here & Hends & H). rewrite Hl2 in Hends.
  exists mention_id, ends_here. split; [done|]. split; [done|].
  unfold processed_mention. destruct ends_here.
  - unfold Dict.getitem in H. rewrite Hg2, bind_ret in H.
    inversion H; subst st'; clear H. simpl. rewrite Ht2. split.
    + apply get_setitem_eq.
    + intros k Hk. rewrite get_setitem_ne by done. by apply Ho2.
  - inversion H; subst st'. by split.
Qed.
Lemma processed_mention_end tokens i label previous ends_here :
  m_end (processed_mention tokens i label previous ends_here)
  = if ends_here then Some i else previous ≫= m_end.
Proof. unfold processed_mention. by destruct ends_here, previous. Qed.

(** A label processed at position [e] keeps an end already set to [e]. *)
Lemma extract_label_keeps_end e label mid st st' m :
  Dict.get (_mention_dict st) mid = Some m → m_end m = Some e →
  _extract_mentions_label e label st = Ok st' →
  ∃ m', Dict.get (_mention_dict st') mid = Some m' ∧ m_end m' = Some e.
Proof.
  intros Hget Hend [[_ ->]|(_ & id & ends_here & _ & _ & Hid & Hother)]%extract_label_Ok;
    [eauto|].
  destruct (decide (mid = id)) as [->|Hne].
  - eexists. split; [exact Hid|]. rewrite processed_mention_end, Hget.
    by destruct ends_here.
  - exists m. split; [|done]. by rewrite Hother.
Qed.

(** A label of another mention leaves the entry of [mid] as it was. *)
Lemma extract_label_other i label mid st st' :
  (is_mention_label label = true → mention_id_of label ≠ Ok mid) →
  _extract_mentions_label i label st = Ok st' →
  Dict.get (_mention_dict st') mid = Dict.get (_mention_dict st) mid.
Proof.
  intros Hne [[_ ->]|(Hml & id & ends_here & Hid & _ & _ & Hother)]%extract_label_Ok;
    [done|].
  apply Hother. intros ->. by apply Hne.
Qed.

Lemma extract_position_other i label_list mid st st' :
  (Py.mem "_" label_list = false →
   ∀ label, label ∈ label_list → is_mention_label label = true →
            mention_id_of label ≠ Ok mid) →
  _extract_mentions_position (i, label_list) st = Ok st' →
  Dict.get (_mention_dict st') mid = Dict.get (_mention_dict st) mid.
Proof.
  intros Hne. unfold _extract_mentions_position. simpl.
  destruct (Py.mem "_" label_list); [by intros [= <-]|].
  apply (for_each_invariant
           (λ s, Dict.get (_mention_dict s) mid = Dict.get (_mention_dict st) mid));
    [|done].
  intros label s1 s2 Hin Hs1 Hstep. rewrite <- Hs1.
  eapply extract_label_other; [|done]. by apply Hne.
Qed.

Lemma extract_position_frame i label_list st st' :
  _extract_mentions_position (i, label_list) st = Ok st' → same_input st st'.
Proof.
  unfold _extract_mentions_position. simpl.
  destruct (Py.mem "_" label_list); [intros [= <-]; apply same_input_refl|].
  apply (for_each_invariant (same_input st)); [|apply same_input_refl].
  intros label t1 t2 _ Ht1 Hstep%extract_label_frame.
  by eapply same_input_trans.
Qed.

(** A position that is not passed over sets the end of a mention whose
    label is not repeated at the next position. *)
Lemma extract_position_sets_end e label_list label mid st st' :
  Py.mem "_" label_list = false →
  label ∈ label_list → is_mention_label label = true →
  mention_id_of label = Ok mid →
  span_ends (_labels st) e label = Ok true →
  _extract_mentions_position (e, label_list) st = Ok st' →
  ∃ m, Dict.get (_mention_dict st') mid = Some m ∧ m_end m = Some e.
Proof.
  intros Hmem Hin Hml Hid Hends. unfold _extract_mentions_position. simpl.
  rewrite Hmem. apply list_elem_of_split in Hin as (before & after & ->).
  rewrite for_each_app. intros (t1 & Ht1 & H)%bind_Ok. simpl in H.
  apply bind_Ok in H as (t2 & Ht2 & H).
  assert (same_input st t1) as (_ & _ & Hlabels).
  { revert Ht1. apply (for_each_invariant (same_input st));
      [|apply same_input_refl].
    intros l s1 s2 _ Hs1 Hstep%extract_label_frame. by eapply same_input_trans. }
  assert (∃ m, Dict.get (_mention_dict t2) mid = Some m ∧ m_end m = Some e)
    as Ht2end.
  { apply extract_label_Ok in Ht2
      as [[Hno _]|(_ & id & ends_here & Hid' & Hends' & Hget & _)];
      [congruence|].
    rewrite Hlabels, Hends in Hends'. rewrite Hid in Hid'.
    inversion Hends'; inversion Hid'; subst.
    eexists. split; [exact Hget|]. by rewrite processed_mention_end. }
  revert H.
  apply (for_each_invariant
           (λ s, ∃ m, Dict.get (_mention_dict s) mid = Some m ∧ m_end m = Some e));
    [|done].
  intros l s1 s2 _ (m & Hm & Hmend) Hstep.
  by eapply extract_label_keeps_end.
Qed.

Lemma span_ends_returns labels i label :
  0 ≤ i < Py.len labels → ∃ ends_here, span_ends labels i label = Ok ends_here.
Proof.
  intros Hi. unfold span_ends. destruct (Z.eqb_spec i (Py.len labels - 1));
    [eauto|].
  destruct (labels !! Z.to_nat (i + 1)) as [next|] eqn:Hnext.
  - apply index_Ok_lookup in Hnext; [|lia]. rewrite Hnext, bind_ret. eauto.
  - apply lookup_ge_None in Hnext. unfold Py.len in *. lia.
Qed.

Lemma mem_elem_of (x : string) (l : list string) :
  Py.mem x l = true ↔ x ∈ l.
Proof.
  unfold Py.mem. rewrite existsb_exists. split.
  - intros (y & Hy%list_elem_of_In & Heq%String.eqb_eq). by subst.
  - intros Hx. exists x. split; [by apply list_elem_of_In|apply String.eqb_refl].
Qed.

(** The test of the code is the end rule. *)
Lemma span_ends_rule labels i label ends_here :
  0 ≤ i → span_ends labels i label = Ok ends_here →
  ends_here = true ↔ not_repeated labels i label.
Proof.
  intros Hi. unfold span_ends, not_repeated.
  destruct (Z.eqb_spec i (Py.len labels - 1)) as [Hlast|Hlast].
  - intros [= <-]. split; [by left|done].
  - intros (next & Hnext & H)%bind_Ok. inversion H; subst ends_here; clear H.
    apply index_Ok_lookup in Hnext; [|lia]. rewrite Hnext. split.
    + intros Hneg. right. exists next. split; [done|].
      rewrite <- mem_elem_of. by destruct (Py.mem label next).
    + intros [?|(next' & [= <-] & Hnot)]; [done|].
      rewrite <- mem_elem_of in Hnot. by destruct (Py.mem label next).
Qed.

(** C3, as the code has it.  A position whose label list holds the
    placeholder is passed over as a whole.  At any other position a label
    that holds no relation marker and is not empty is processed: the entry of
    its mention gets the end [i], the text and the type precisely when the
    same label string is not in the label list of position [i+1] or [i] is
    the last position, and otherwise stays as it was (a new entry has the
    start [i] and no end).  So the recorded end of a mention is the position
    [e] of such a label that is not repeated at [e+1], when no label of the
    same identifier is processed after [e]. *)
Theorem span_end_is_last_unrepeated_position :
  (∀ i label_list st,
     Py.mem "_" label_list = true →
     _extract_mentions_position (i, label_list) st = Ok st)
  ∧ (∀ i label st st',
       0 ≤ i →
       is_mention_label label = true →
       _extract_mentions_label i label st = Ok st' →
       ∃ mention_id,
         mention_id_of label = Ok mention_id ∧
         (not_repeated (_labels st) i label →
          Dict.get (_mention_dict st') mention_id
          = Some (set_type (label_prefix label)
                    (set_text
                       (Py.slice (_tokens st)
                          (m_start
                             (default (new_mention i)
                                (Dict.get (_mention_dict st) mention_id)))
                          (i + 1))
                       (set_end i
                          (default (new_mention i)
                             (Dict.get (_mention_dict st) mention_id)))))) ∧
         (¬ not_repeated (_labels st) i label →
          Dict.get (_mention_dict st') mention_id
          = Some (default (new_mention i)
                    (Dict.get (_mention_dict st) mention_id))) ∧
         (∀ k, k ≠ mention_id →
               Dict.get (_mention_dict st') k = Dict.get (_mention_dict st) k))
  ∧ (∀ st st' (e : nat) label_list label mention_id,
       _extract_mentions st = Ok st' →
       _labels st !! e = Some label_list →
       Py.mem "_" label_list = false →
       label ∈ label_list → is_mention_label label = true →
       mention_id_of label = Ok mention_id →
       not_repeated (_labels st) (Z.of_nat e) label →
       (∀ (j : nat) later other,
          (e < j)%nat → _labels st !! j = Some later →
          Py.mem "_" later = false → other ∈ later →
          is_mention_label other = true →
          mention_id_of other ≠ Ok mention_id) →
       ∃ m, Dict.get (_mention_dict st') mention_id = Some m
            ∧ m_end m = Some (Z.of_nat e)).
Proof.
  split_and!.
  - intros i label_list st Hmem. unfold _extract_mentions_position. simpl.
    by rewrite Hmem.
  - intros i label st st' Hi Hml
      [[Hno _]|(_ & id & ends_here & Hid & Hends & Hget & Hother)]%extract_label_Ok;
      [congruence|].
    exists id. split; [done|].
    pose proof (span_ends_rule _ _ _ _ Hi Hends) as Hrule.
    unfold processed_mention in Hget. split_and!; [| |done].
    + intros Hnot. apply Hrule in Hnot. by subst ends_here.
    + intros Hnot. destruct ends_here; [|done]. destruct Hnot. by apply Hrule.
  - intros st st' e label_list label mid Hrun He Hmem Hin Hml Hid Hnot Hlater.
    assert (span_ends (_labels st) (Z.of_nat e) label = Ok true) as Hends.
    { assert (0 ≤ Z.of_nat e < Py.len (_labels st)) as Hrange
        by (apply lookup_lt_Some in He; unfold Py.len; lia).
      destruct (span_ends_returns (_labels st) (Z.of_nat e) label Hrange)
        as [ends_here Hends].
      rewrite Hends. f_equal. eapply span_ends_rule; [|done..]. lia. }
    unfold _extract_mentions in Hrun.
    cut (same_input st st' ∧
         (Z.of_nat e < Py.len (_labels st) →
          ∃ m, Dict.get (_mention_dict st') mid = Some m
               ∧ m_end m = Some (Z.of_nat e))).
    { intros [_ Hcut]. apply Hcut. apply lookup_lt_Some in He.
      unfold Py.len. lia. }
    revert Hrun.
    apply (for_each_enumerate_invariant
             (λ k s, same_input st s ∧
                     (Z.of_nat e < k →
                      ∃ m, Dict.get (_mention_dict s) mid = Some m
                           ∧ m_end m = Some (Z.of_nat e))));
      [|split; [apply same_input_refl|intros ?; lia]].
    intros i ll s1 s2 Hi [Hs1 Hdone] Hstep.
    pose proof (extract_position_frame _ _ _ _ Hstep) as Hs2.
    split; [by eapply same_input_trans|]. intros Hlt.
    destruct (decide (i = e)) as [->|Hne].
    + rewrite He in Hi. inversion Hi; subst ll.
      eapply extract_position_sets_end; [done..| |done].
      destruct Hs1 as (_ & _ & ->). done.
    + assert (e < i)%nat as Hei by lia.
      rewrite (extract_position_other _ _ mid _ _
                 (λ Hm l Hl, Hlater i ll l Hei Hi Hm Hl) Hstep).
      apply Hdone. lia.
Qed.

Lemma span_end_is_last_unrepeated_position_witness :
  ∃ st',
    _extract_mentions two_token_run_state = Ok st'
    ∧ not_repeated (_labels two_token_run_state) (Z.of_nat 1) "NOUN[1]"
    ∧ ∃ m, Dict.get (_mention_dict st') 1 = Some m
           ∧ m_end m = Some (Z.of_nat 1).
Proof.
  destruct (_extract_mentions two_token_run_state) as [st'|] eqn:Hrun;
    [|by vm_compute in Hrun].
  exists st'. split; [done|].
  assert (not_repeated (_labels two_token_run_state) (Z.of_nat 1) "NOUN[1]")
    as Hnot.
  { right. exists ["VERB[2]"]. split; [reflexivity|].
    intros Hin%list_elem_of_singleton. discriminate. }
  split; [exact Hnot|].
  destruct span_end_is_last_unrepeated_position as (_ & _ & Hend).
  apply (Hend two_token_run_state st' 1%nat ["NOUN[1]"] "NOUN[1]" 1 Hrun).
  - reflexivity.
  - reflexivity.
  - apply list_elem_of_here.
  - vm_compute. reflexivity.
  - vm_compute. reflexivity.
  - exact Hnot.
  - intros j later other Hj Hlater _ Hother _.
    destruct j as [|[|[|j]]]; [lia|lia| |done].
    injection Hlater as <-. apply list_elem_of_singleton in Hother as ->.
    vm_compute. discriminate.
Defined.

(** C3, as stated, fails on a label that stands beside the placeholder:
    the position is passed over as a whole.  Alone at its position NOUN[1]
    gives mention 1; beside the placeholder it gives no mention; and a run
    of NOUN[1] whose last position also holds the placeholder leaves
    mention 1 with a start and no end. *)
Lemma label_beside_placeholder_is_ignored :
  _mention_dict
    <$> _extract_mentions
          (paragraph_state false false false false ["x"] [["NOUN[1]"]])
  = Ok [(1, single_token_mention 0 "x" "NOUN")]
  ∧ _mention_dict
      <$> _extract_mentions
            (paragraph_state false false false false ["x"] [["_"; "NOUN[1]"]])
    = Ok []
  ∧ _mention_dict
      <$> _extract_mentions
            (paragraph_state false false false false ["x"; "y"]
               [["NOUN[1]"]; ["_"; "NOUN[1]"]])
    = Ok [(1, new_mention 0)].
Proof. split_and!; vm_compute; reflexivity. Qed.

(** * Further properties of the code *)

(** ** The cluster builder: what the clusters hold *)

Lemma add_pair_members clusters pair k :
  (∃ cluster, cluster ∈ add_pair clusters pair ∧ k ∈ cluster) ↔
  k = pair.1 ∨ k = pair.2 ∨ ∃ cluster, cluster ∈ clusters ∧ k ∈ cluster.
Proof.
  split; [|apply add_pair_covers].
  intros (c & Hc & Hk).
  destruct (add_pair_cases clusters pair) as [Heq|(i & c0 & Hi & Heq)];
    rewrite Heq in Hc.
  - apply elem_of_app in Hc as [Hc|Hc%list_elem_of_singleton].
    + right. right. eauto.
    + subst c. unfold set_of_pair in Hk. set_solver.
  - apply list_elem_of_lookup in Hc as [j Hj].
    destruct (decide (i = j)) as [->|Hne].
    + rewrite list_lookup_insert_eq in Hj by (by eapply lookup_lt_Some).
      inversion Hj; subst c. apply elem_of_union in Hk as [Hk|Hk].
      * right. right. exists c0. split; [|done].
        apply list_elem_of_lookup. eauto.
      * unfold set_of_pair in Hk. set_solver.
    + rewrite list_lookup_insert_ne in Hj by done. right. right.
      exists c. split; [|done]. apply list_elem_of_lookup. eauto.
Qed.

Lemma add_pair_nonempty clusters pair :
  Forall (λ cluster : gset Z, cluster ≠ ∅) clusters →
  Forall (λ cluster : gset Z, cluster ≠ ∅) (add_pair clusters pair).
Proof.
  intros Hne.
  destruct (add_pair_cases clusters pair) as [->|(i & c0 & Hi & ->)].
  - apply Forall_app. split; [done|]. apply Forall_singleton.
    unfold set_of_pair. set_solver.
  - apply Forall_insert; [done|]. set_solver.
Qed.

Lemma add_pair_length clusters pair :
  (length clusters ≤ length (add_pair clusters pair) ≤ S (length clusters))%nat.
Proof.
  destruct (add_pair_cases clusters pair) as [->|(i & c0 & Hi & ->)].
  - rewrite length_app. simpl. lia.
  - rewrite length_insert. lia.
Qed.

(** X1.  The clusters hold exactly the identifiers of the pairs: every
    endpoint of a pair is in a cluster and every member of a cluster is an
    endpoint of a pair.  No cluster is empty, and there are at most as many
    clusters as pairs. *)
Theorem clusters_hold_the_endpoints (mention_pairs : list MentionPair) :
  (∀ k, (∃ cluster, cluster ∈ _group_mentions_into_clusters mention_pairs
                    ∧ k ∈ cluster)
        ↔ k ∈ endpoints mention_pairs)
  ∧ Forall (λ cluster : gset Z, cluster ≠ ∅)
      (_group_mentions_into_clusters mention_pairs)
  ∧ (length (_group_mentions_into_clusters mention_pairs)
     ≤ length mention_pairs)%nat.
Proof.
  rewrite group_fold.
  cut (∀ clusters,
         (∀ k, (∃ cluster, cluster ∈ fold_left add_pair mention_pairs clusters
                           ∧ k ∈ cluster)
               ↔ k ∈ endpoints mention_pairs
                 ∨ ∃ cluster, cluster ∈ clusters ∧ k ∈ cluster)
         ∧ (Forall (λ cluster : gset Z, cluster ≠ ∅) clusters →
            Forall (λ cluster : gset Z, cluster ≠ ∅)
              (fold_left add_pair mention_pairs clusters))
         ∧ (length (fold_left add_pair mention_pairs clusters)
            ≤ length mention_pairs + length clusters)%nat).
  { intros Hcut. destruct (Hcut []) as (Hk & Hne & Hlen). split_and!.
    - intros k. rewrite Hk. split; [|by left].
      intros [?|(c & ?%elem_of_nil & _)]; done.
    - by apply Hne.
    - simpl in Hlen. lia. }
  induction mention_pairs as [|p ps IH]; intros clusters; simpl.
  - split_and!; [|done|lia]. intros k. split; [by right|].
    intros [Hk|?]; [|done].
    apply elem_of_endpoints in Hk as (? & ?%elem_of_nil & _). done.
  - destruct (IH (add_pair clusters p)) as (Hk & Hne & Hlen). split_and!.
    + intros k. rewrite Hk, add_pair_members, !elem_of_endpoints. split.
      * intros [(q & Hq & Hkq)|[->|[->|?]]]; [| | |by right].
        -- left. exists q. split; [by right|done].
        -- left. exists p. split; [by left|by left].
        -- left. exists p. split; [by left|by right].
      * intros [(q & [->|Hq]%elem_of_cons & Hkq)|?]; [| |by right; right; right].
        -- right. tauto.
        -- left. eauto.
    + intros H. by apply Hne, add_pair_nonempty.
    + pose proof (add_pair_length clusters p). lia.
Qed.

(** ** Appositive fusion: what it changes *)

Lemma fused_mention_twice tokens head_info e :
  set_text (Py.slice tokens (m_start head_info) (e + 2))
    (set_end (e + 1) (fused_mention tokens head_info e))
  = fused_mention tokens head_info (e + 1).
Proof.
  unfold fused_mention, set_text, set_end. simpl.
  by replace (e + 1 + 1) with (e + 2) by lia.
Qed.

(** One tuple under fusion, in full: the entry of the head is replaced by
    the fused entry, and nothing else of the dictionary changes. *)
Lemma handle_tuple_exact mention_pair st st' :
  _use_appos st = true →
  _handle_appositives_tuple mention_pair st = Ok st' →
  ∃ second head last head_info last_info e new_end,
    Py.index mention_pair 1 = Ok second ∧
    Py.index mention_pair 0 = Ok head ∧
    Py.index mention_pair (-1) = Ok last ∧
    Dict.get (_mention_dict st) head = Some head_info ∧
    Dict.get (_mention_dict st) last = Some last_info ∧
    m_end last_info = Some e ∧
    fused_end (_tokens st) (m_start head_info) e = Ok new_end ∧
    st' = with_mention_dict
            (Dict.setitem (_mention_dict st) head
               (fused_mention (_tokens st) head_info new_end))
            (with_appos_mentions (_appos_mentions st ∪ {[ second ]}) st).
Proof.
  intros Happos. unfold _handle_appositives_tuple. intros H.
  apply bind_Ok in H as (second & Hsecond & H).
  set (st0 := with_appos_mentions (_appos_mentions st ∪ {[ second ]}) st) in *.
  change (_use_appos st0) with (_use_appos st) in H.
  rewrite Happos in H. cbn [negb] in H.
  apply bind_Ok in H as (head & Hhead0 & H).
  apply bind_Ok in H as (head_info & Hhead & H).
  apply bind_Ok in H as (last & Hlast0 & H).
  apply bind_Ok in H as (last_info & Hlast & H).
  apply bind_Ok in H as (e & Hend & H).
  change (_mention_dict st0) with (_mention_dict st) in Hlast, Hhead.
  change (_tokens st0) with (_tokens st) in H.
  destruct (m_end last_info) as [e'|] eqn:He; [|done].
  inversion Hend; subst e'. clear Hend.
  unfold Dict.getitem in Hhead, Hlast.
  destruct (Dict.get (_mention_dict st) head) as [hi|] eqn:Hget; [|done].
  inversion Hhead; subst hi. clear Hhead.
  destruct (Dict.get (_mention_dict st) last) as [li|] eqn:Hgetl; [|done].
  inversion Hlast; subst li. clear Hlast.
  erewrite update_mention_get in H by exact Hget.
  rewrite bind_ret in H. cbv beta in H.
  change (_mention_dict st0) with (_mention_dict st) in H.
  rewrite update_mention_setitem, bind_ret in H. cbv beta in H.
  cbn [_mention_dict with_mention_dict _tokens] in H.
  rewrite getitem_setitem_eq, bind_ret in H. cbv beta in H.
  cbn [m_text set_text field] in H. rewrite bind_ret in H. cbv beta in H.
  change (_tokens st0) with (_tokens st) in H.
  fold (fused_mention (_tokens st) head_info e) in H.
  exists second, head, last, head_info, last_info, e.
  unfold fused_end.
  destruct (_ =? _) in H |- *;
    [|exists e; split_and!; [done..|by inversion H]].
  apply bind_Ok in H as (following & Hfollowing & H).
  rewrite Hfollowing, bind_ret.
  destruct (String.eqb following ")");
    [|exists e; split_and!; [done..|by inversion H]].
  rewrite bind_ret in H. cbv beta in H.
  cbn [m_end set_text set_end field fused_mention] in H.
  rewrite bind_ret in H. cbv beta in H.
  rewrite update_mention_setitem, bind_ret in H. cbv beta in H.
  rewrite update_mention_setitem in H.
  exists (e + 1). split_and!; [done..|].
  inversion H. f_equal. f_equal. apply fused_mention_twice.
Qed.

(** ** Cluster labels and removal, in closed form *)

Lemma state_eta st :
  with_clusters (_clusters st) (with_mention_dict (_mention_dict st) st) = st.
Proof. by destruct st. Qed.

Lemma filter_ext_in {A : Type} (P Q : A → Prop) `{!∀ x, Decision (P x)}
  `{!∀ x, Decision (Q x)} (l : list A) :
  (∀ x, x ∈ l → P x ↔ Q x) → filter P l = filter Q l.
Proof.
  induction l as [|x l IH]; intros Hext; [done|].
  rewrite !filter_cons.
  destruct (decide (P x)) as [HP|HP], (decide (Q x)) as [HQ|HQ].
  - f_equal. apply IH. intros y Hy. apply Hext. by right.
  - destruct HQ. apply Hext; [by left|done].
  - destruct HP. apply Hext; [by left|done].
  - apply IH. intros y Hy. apply Hext. by right.
Qed.

(** A loop of pops, in closed form. *)
Lemma pop_loop_exact (l : list Z) st st' :
  for_each pop_mention l st = Ok st' →
  st' = with_mention_dict (filter (λ kv, kv.1 ∉ l) (_mention_dict st)) st.
Proof.
  revert st. induction l as [|m l IH]; intros st H; simpl in H.
  - inversion H; subst. destruct st'. unfold with_mention_dict. simpl. f_equal.
    symmetry. apply filter_all. intros kv. apply not_elem_of_nil.
  - apply bind_Ok in H as (st1 & [_ ->]%pop_mention_Ok & H).
    apply IH in H. subst st'. unfold with_mention_dict. simpl. f_equal.
    unfold Dict.remove. rewrite list_filter_filter. apply list_filter_iff.
    intros kv. rewrite not_elem_of_cons. tauto.
Qed.

Lemma pop_loop_returns (l : list Z) st :
  NoDup l → (∀ k, k ∈ l → k ∈ Dict.keys (_mention_dict st)) →
  ∃ st', for_each pop_mention l st = Ok st'.
Proof.
  intros Hnd. revert st. induction Hnd as [|m l Hm Hnd IH]; intros st Hall.
  - simpl. eauto.
  - simpl.
    rewrite (proj2 (pop_mention_Ok m st _) (conj (Hall m (list_elem_of_here _ _)) eq_refl)).
    simpl. apply IH. intros k Hk. simpl. apply keys_remove.
    split; [apply Hall; by right|]. by intros ->.
Qed.

(** A loop of removals, in closed form. *)
Lemma remove_loop_exact (l : list Z) st st' :
  for_each remove_mention l st = Ok st' → st' = without_mentions l st.
Proof.
  unfold without_mentions.
  revert st. induction l as [|m l IH]; intros st H; simpl in H.
  - inversion H; subst. rewrite <- (state_eta st') at 1. f_equal.
    + rewrite <- (list_fmap_id (_clusters st')) at 1. apply list_fmap_ext.
      intros _ cluster _. simpl. set_solver.
    + f_equal. symmetry. apply filter_all. intros kv. apply not_elem_of_nil.
  - apply bind_Ok in H as (st1 & Hst1 & H). unfold remove_mention in Hst1.
    apply bind_Ok in Hst1 as (st0 & [_ ->]%pop_mention_Ok & Hst1).
    inversion Hst1; subst st1; clear Hst1.
    apply IH in H. clear IH. subst st'.
    unfold with_clusters, with_mention_dict. simpl. f_equal.
    + unfold Dict.remove. rewrite list_filter_filter. apply list_filter_iff.
      intros kv. rewrite not_elem_of_cons. tauto.
    + rewrite <- list_fmap_compose. apply list_fmap_ext.
      intros _ cluster _. simpl. set_solver.
Qed.

Lemma remove_loop_total (l : list Z) st :
  for_each remove_mention l st
  = if bool_decide (NoDup l ∧ Forall (λ k, k ∈ Dict.keys (_mention_dict st)) l)
    then Ok (without_mentions l st) else Raise KeyError.
Proof.
  pose proof (remove_all_Ok l st) as Hiff. rewrite <- Forall_forall in Hiff.
  case_bool_decide as Hok.
  - apply Hiff in Hok as [st' Hrun]. rewrite Hrun. f_equal.
    by apply remove_loop_exact.
  - destruct (for_each remove_mention l st) as [st'|e] eqn:Hrun.
    + destruct Hok. apply Hiff. eauto.
    + f_equal. revert Hrun. apply for_each_raises_only.
      intros x s1 e1. apply remove_mention_Raise.
Qed.

Lemma remove_aliases_loop st :
  _remove_aliases st = for_each remove_mention (_aliases st) st.
Proof. unfold _remove_aliases. by destruct (_aliases st). Qed.

Lemma remove_exappos_loop st :
  _remove_exappos st = for_each remove_mention (_exappos_mentions st) st.
Proof. unfold _remove_exappos. by destruct (_exappos_mentions st). Qed.

(** X2.  The two removals in closed form.  Alias removal returns when the
    listed identifiers are distinct keys of the dictionary and raises
    [KeyError] otherwise.  When it returns, the dictionary is the old one
    without the entries of the listed identifiers, every cluster is the old
    cluster at the same position without the listed identifiers (a cluster
    may become empty; none is dropped), and nothing else of the object has
    changed.  The same holds of extended-appositive removal and its list. *)
Theorem removal_scrubs_dictionary_and_clusters st :
  _remove_aliases st
  = (if bool_decide
          (NoDup (_aliases st)
           ∧ Forall (λ k, k ∈ Dict.keys (_mention_dict st)) (_aliases st))
     then Ok (without_mentions (_aliases st) st) else Raise KeyError)
  ∧ _remove_exappos st
    = (if bool_decide
            (NoDup (_exappos_mentions st)
             ∧ Forall (λ k, k ∈ Dict.keys (_mention_dict st))
                 (_exappos_mentions st))
       then Ok (without_mentions (_exappos_mentions st) st)
       else Raise KeyError).
Proof.
  rewrite remove_aliases_loop, remove_exappos_loop.
  split; apply remove_loop_total.
Qed.

(** ** Cluster labels, in closed form *)

Lemma first_cluster_find mention_id i clusters :
  first_cluster mention_id i clusters
  = (λ found : nat * Cluster, i + Z.of_nat found.1)
      <$> list_find (λ cluster : Cluster, mention_id ∈ cluster) clusters.
Proof.
  revert i. induction clusters as [|c clusters IH]; intros i; [done|].
  cbn [first_cluster list_find]. case_bool_decide as Hin.
  - rewrite decide_True by done. simpl. f_equal. lia.
  - rewrite decide_False by done. rewrite IH, <- option_fmap_compose.
    apply option_fmap_ext. intros [j c']. simpl. lia.
Qed.

Lemma list_find_no_cluster (k : Z) (clusters : list Cluster) :
  list_find (λ cluster : Cluster, k ∈ cluster) clusters = None
  ↔ Forall (λ cluster : Cluster, k ∉ cluster) clusters.
Proof. apply list_find_None. Qed.

Lemma assigned_entry_key clusters kv :
  ∃ m, assigned_entry clusters false kv = Some (kv.1, m).
Proof.
  unfold assigned_entry. destruct (list_find _ _) as [[i c]|]; [eauto|].
  destruct kv. eauto.
Qed.

Lemma keys_assigned clusters (d : Dict.t MentionInformation) :
  Dict.keys (omap (assigned_entry clusters false) d) = Dict.keys d.
Proof.
  unfold Dict.keys. induction d as [|kv d IH]; [done|]. simpl.
  destruct (assigned_entry_key clusters kv) as [m ->]. simpl. by f_equal.
Qed.

Lemma label_mentions_exact clusters items count singletons :
  label_mentions clusters items count singletons
  = (omap (assigned_entry clusters false) items,
     count + Py.len (singleton_keys clusters items),
     singletons ++ singleton_keys clusters items).
Proof.
  revert count singletons.
  induction items as [|[k m] items IH]; intros count singletons.
  - simpl. unfold singleton_keys, Py.len. simpl.
    by rewrite Z.add_0_r, app_nil_r.
  - cbn [label_mentions omap list_omap]. unfold assigned_entry at 1.
    cbn [fst snd]. rewrite first_cluster_find. unfold singleton_keys.
    cbn [Dict.keys fmap list_fmap fst]. rewrite filter_cons.
    destruct (list_find _ clusters) as [[i c]|] eqn:Hfind;
      cbn [fmap option_fmap option_map fst].
    + rewrite decide_False.
      2: { rewrite <- list_find_no_cluster. congruence. }
      rewrite IH. by rewrite Z.add_0_l.
    + rewrite decide_True by (by apply list_find_no_cluster).
      rewrite IH. unfold singleton_keys, Py.len, Dict.keys. simpl.
      rewrite <- app_assoc. simpl. do 2 f_equal. lia.
Qed.

Lemma drop_singletons clusters (d : Dict.t MentionInformation) :
  filter (λ kv, kv.1 ∉ singleton_keys clusters d)
    (omap (assigned_entry clusters false) d)
  = omap (assigned_entry clusters true) d.
Proof.
  rewrite (filter_ext_in _
             (λ kv, ¬ Forall (λ cluster : Cluster, kv.1 ∉ cluster) clusters)).
  - induction d as [|kv d IH]; [done|]. cbn [omap list_omap].
    destruct (list_find (λ cluster : Cluster, kv.1 ∈ cluster) clusters)
      as [[i c]|] eqn:Hfind.
    + assert (∀ b, assigned_entry clusters b kv
                   = Some (kv.1, set_label (Z.of_nat i) kv.2)) as Heq
        by (intros b; unfold assigned_entry; by rewrite Hfind).
      rewrite !Heq. rewrite filter_cons_True; [by rewrite IH|].
      cbn [fst]. rewrite <- list_find_no_cluster. congruence.
    + assert (assigned_entry clusters false kv = Some kv
              ∧ assigned_entry clusters true kv = None) as [-> ->]
        by (unfold assigned_entry; by rewrite Hfind).
      rewrite filter_cons_False; [done|].
      intros Hno. apply Hno. by apply list_find_no_cluster.
  - intros kv Hkv. unfold singleton_keys. rewrite list_elem_of_filter.
    assert (kv.1 ∈ Dict.keys d); [|tauto].
    rewrite <- (keys_assigned clusters). unfold Dict.keys.
    apply list_elem_of_fmap. eauto.
Qed.

(** X3.  Cluster assignment in closed form.  On a dictionary (keys are
    unique) the assignment never raises.  Every entry whose key is in some
    cluster gets the position of the first such cluster as label.  An entry
    whose key is in no cluster is counted as a singleton; it is dropped under
    [remove_singletons] and kept unchanged otherwise.  The order of the
    remaining entries, the clusters and everything else stay as they
    were. *)
Theorem assignment_labels_by_first_cluster st :
  NoDup (Dict.keys (_mention_dict st)) →
  _assign_mentions_to_clusters st
  = Ok (with_statistics
          (with_singleton_count
             (singleton_count (_statistics st)
              + Py.len (singleton_keys (_clusters st) (_mention_dict st)))
             (_statistics st))
          (with_mention_dict
             (omap (assigned_entry (_clusters st) (_remove_singletons st))
                (_mention_dict st)) st)).
Proof.
  intros Hnd. unfold _assign_mentions_to_clusters.
  rewrite label_mentions_exact. cbn [app].
  set (d1 := omap (assigned_entry (_clusters st) false) (_mention_dict st)).
  set (s1 := with_singleton_count _ _).
  change (_remove_singletons (with_statistics _ _)) with (_remove_singletons st).
  destruct (_remove_singletons st) eqn:Hrs; [|done].
  destruct (pop_loop_returns
              (singleton_keys (_clusters st) (_mention_dict st))
              (with_statistics
                 (with_singleton_count
                    (singleton_count (_statistics st)
                     + Py.len (singleton_keys (_clusters st) (_mention_dict st)))
                    (_statistics (with_mention_dict d1 st)))
                 (with_mention_dict d1 st)))
    as [st' Hrun].
  { unfold singleton_keys. by apply NoDup_filter. }
  { intros k Hk. simpl. unfold d1. rewrite keys_assigned.
    unfold singleton_keys in Hk. by apply list_elem_of_filter in Hk as [_ ?]. }
  unfold s1. rewrite Hrun. f_equal. apply pop_loop_exact in Hrun. subst st'.
  unfold with_statistics, with_mention_dict. simpl. f_equal.
  apply drop_singletons.
Qed.

Lemma assignment_labels_by_first_cluster_witness :
  NoDup (Dict.keys (_mention_dict
                      (with_clusters [ {[ 1; 3 ]} ] unclosed_state)))
  ∧ _assign_mentions_to_clusters (with_clusters [ {[ 1; 3 ]} ] unclosed_state)
    = Ok (with_statistics
            {| paragraph_count := 0; token_count := 0; mention_count := 0;
               cluster_count := 0; singleton_count := 1 |}
            (with_mention_dict
               [(1, set_label 0 unclosed_head); (2, unclosed_appositive)]
               (with_clusters [ {[ 1; 3 ]} ] unclosed_state))).
Proof.
  assert (NoDup (Dict.keys (_mention_dict
                              (with_clusters [ {[ 1; 3 ]} ] unclosed_state))))
    as Hnd by (vm_compute; repeat constructor; set_solver).
  split; [exact Hnd|].
  rewrite (assignment_labels_by_first_cluster _ Hnd). vm_compute. reflexivity.
Defined.

(** ** Properties of the entries that every stage keeps *)

Section entries.
Context (P : MentionInformation → Prop) (paragraph_tokens : list string).
Hypothesis P_new : ∀ i, P (new_mention i).
Hypothesis P_span :
  ∀ i type m,
    P m →
    P (set_type type
         (set_text (Py.slice paragraph_tokens (m_start m) (i + 1))
            (set_end i m))).
Hypothesis P_fused : ∀ m e, P m → P (fused_mention paragraph_tokens m e).

Lemma extract_label_entries i label st st' :
  _tokens st = paragraph_tokens →
  Forall P (Dict.values (_mention_dict st)) →
  _extract_mentions_label i label st = Ok st' →
  Forall P (Dict.values (_mention_dict st')).
Proof.
  intros Htok Hinv. unfold _extract_mentions_label.
  destruct (is_link_label label); [by intros [= <-]|].
  destruct (Py.strlen label =? 0); [by intros [= <-]|].
  set (st1 := if String.eqb (label_prefix label) ""
              then print (PrintLabel label) st else st).
  assert (_mention_dict st1 = _mention_dict st ∧ _tokens st1 = _tokens st)
    as [Hd1 Ht1] by (unfold st1; by destruct (String.eqb _ _)).
  intros (mention_id & _ & H)%bind_Ok.
  set (st2 := if Dict.contains (_mention_dict st1) mention_id then st1
              else with_mention_dict
                     (Dict.setitem (_mention_dict st1) mention_id
                        (new_mention i)) st1) in H.
  assert (Forall P (Dict.values (_mention_dict st2))
          ∧ _tokens st2 = _tokens st) as [Hinv2 Ht2].
  { unfold st2. destruct (Dict.contains _ _).
    - by rewrite Hd1.
    - split; [|done]. simpl. apply Forall_values_setitem; [by rewrite Hd1|].
      apply P_new. }
  apply bind_Ok in H as (ends_here & _ & H).
  destruct ends_here; [|by inversion H; subst].
  apply bind_Ok in H as (m & Hm & H). inversion H; subst st'. clear H.
  simpl. apply Forall_values_setitem; [done|].
  rewrite Ht2, Htok. apply P_span.
  apply getitem_values in Hm. rewrite Forall_forall in Hinv2. auto.
Qed.

Lemma extract_mentions_entries st st' :
  _tokens st = paragraph_tokens →
  Forall P (Dict.values (_mention_dict st)) →
  _extract_mentions st = Ok st' →
  Forall P (Dict.values (_mention_dict st')).
Proof.
  intros Htok Hinv Hrun.
  cut (Forall P (Dict.values (_mention_dict st')) ∧ same_input st st');
    [by intros []|].
  revert Hrun. unfold _extract_mentions.
  apply (for_each_invariant
           (λ s, Forall P (Dict.values (_mention_dict s)) ∧ same_input st s));
    [|split; [done|apply same_input_refl]].
  intros [i label_list] s1 s2 _ Hs1. unfold _extract_mentions_position.
  simpl. destruct (Py.mem "_" label_list); [by intros [= <-]|].
  apply (for_each_invariant
           (λ s, Forall P (Dict.values (_mention_dict s)) ∧ same_input st s));
    [|done].
  intros label t1 t2 _ [Ht1 Hi1] Hstep. split.
  - eapply extract_label_entries; [|done..].
    destruct Hi1 as (_ & -> & _). done.
  - eapply same_input_trans; [done|]. by eapply extract_label_frame.
Qed.

Lemma handle_tuple_entries mention_pair st st' :
  _tokens st = paragraph_tokens →
  Forall P (Dict.values (_mention_dict st)) →
  _handle_appositives_tuple mention_pair st = Ok st' →
  Forall P (Dict.values (_mention_dict st')).
Proof.
  intros Htok Hinv Hstep. destruct (_use_appos st) eqn:Happos.
  - apply handle_tuple_exact in Hstep
      as (second & head & last & hi & li & e & new_end & _ & _ & _ & Hget & _
          & _ & _ & ->); [|done].
    simpl. apply Forall_values_setitem; [done|]. rewrite Htok.
    apply P_fused. rewrite Forall_forall in Hinv.
    by eapply Hinv, get_Some_values.
  - apply handle_tuple_Ok in Hstep as (second & _ & [[_ ->]|[? _]]);
      [done|congruence].
Qed.

Lemma handle_appositives_entries appositive_pairs st st' :
  _tokens st = paragraph_tokens →
  Forall P (Dict.values (_mention_dict st)) →
  _handle_appositives appositive_pairs st = Ok st' →
  Forall P (Dict.values (_mention_dict st')).
Proof.
  intros Htok Hinv Hrun.
  cut (Forall P (Dict.values (_mention_dict st')) ∧ same_input st st');
    [by intros []|].
  revert Hrun. unfold _handle_appositives.
  apply (for_each_invariant
           (λ s, Forall P (Dict.values (_mention_dict s)) ∧ same_input st s));
    [|split; [done|apply same_input_refl]].
  intros t s1 s2 _ [H1 H2] Hstep. split.
  - eapply handle_tuple_entries; [|done..]. destruct H2 as (_ & -> & _). done.
  - eapply same_input_trans; [done|].
    by apply handle_tuple_frame in Hstep as (_ & ? & _).
Qed.

Lemma extract_coreference_links_entries st st' :
  _tokens st = paragraph_tokens →
  Forall P (Dict.values (_mention_dict st)) →
  _extract_coreference_links st = Ok st' →
  Forall P (Dict.values (_mention_dict st')).
Proof.
  intros Htok Hinv. unfold _extract_coreference_links.
  intros (links & Hlinks & H)%bind_Ok.
  apply bind_Ok in H as (sb & Hsb & H).
  apply bind_Ok in H as (sc & Hsc & H). inversion H; subst st'; clear H.
  apply read_links_frame in Hlinks as (Hd1 & (_ & Ht1 & _) & _).
  destruct (report_absent_frame (mention_pairs links) (self links))
    as (Hd2 & ((_ & Ht2 & _) & _)).
  apply handle_appositives_entries in Hsb;
    [|congruence|by rewrite Hd2, Hd1].
  apply drop_appositives_Ok in Hsc as (_ & _ & Hvc & _).
  simpl. by eapply Forall_values_subset.
Qed.

End entries.

(** ** The labels after [get_coref_info] *)

Lemma assign_exact st st' :
  _assign_mentions_to_clusters st = Ok st' →
  st' = with_statistics
          (with_singleton_count
             (singleton_count (_statistics st)
              + Py.len (singleton_keys (_clusters st) (_mention_dict st)))
             (_statistics st))
          (with_mention_dict
             (omap (assigned_entry (_clusters st) (_remove_singletons st))
                (_mention_dict st)) st).
Proof.
  unfold _assign_mentions_to_clusters.
  rewrite label_mentions_exact. cbn [app].
  change (_remove_singletons (with_statistics _ _)) with (_remove_singletons st).
  destruct (_remove_singletons st) eqn:Hrs; [|by intros [= <-]].
  intros ->%pop_loop_exact.
  unfold with_statistics, with_mention_dict. simpl. f_equal.
  apply drop_singletons.
Qed.

Lemma extract_coreference_links_frame st st' :
  _extract_coreference_links st = Ok st' → same_input st st'.
Proof.
  unfold _extract_coreference_links.
  intros (links & Hlinks & H)%bind_Ok.
  apply bind_Ok in H as (sb & Hsb & H).
  apply bind_Ok in H as (sc & Hsc & H). inversion H; subst st'; clear H.
  apply read_links_frame in Hlinks as (_ & Hi1 & _).
  destruct (report_absent_frame (mention_pairs links) (self links))
    as (_ & Hi2 & _).
  apply handle_appositives_frame in Hsb as (_ & Hib & _).
  apply drop_appositives_Ok in Hsc as ((Hic & _) & _).
  eapply same_input_trans; [exact Hi1|].
  eapply same_input_trans; [exact Hi2|].
  eapply same_input_trans; [exact Hib|].
  eapply same_input_trans; [exact Hic|]. by repeat split.
Qed.

Lemma assigned_entry_label clusters remove_singletons k m k' m' :
  m_label m = None →
  assigned_entry clusters remove_singletons (k, m) = Some (k', m') →
  k' = k ∧ label_matches_clusters clusters k m'
  ∧ (m_label m' = None → remove_singletons = false).
Proof.
  intros Hnone. unfold assigned_entry, label_matches_clusters. cbn [fst snd].
  destruct (list_find _ clusters) as [[n c]|] eqn:Hfind.
  - intros [= <- <-]. split; [done|]. split; [|done]. simpl.
    apply list_find_Some in Hfind as (Hn & Hk & Hearlier).
    exists n, c. split_and!; [done..|]. intros j c' Hj Hc'. by eapply Hearlier.
  - destruct remove_singletons; [done|]. intros [= <- <-]. split; [done|].
    rewrite Hnone. split; [|done]. by apply list_find_no_cluster.
Qed.

Lemma label_matches_without l clusters k m :
  k ∉ l → label_matches_clusters clusters k m →
  label_matches_clusters
    ((λ cluster : Cluster, cluster ∖ list_to_set l) <$> clusters) k m.
Proof.
  intros Hk. unfold label_matches_clusters. destruct (m_label m) as [i|].
  - intros (n & c & -> & Hn & Hin & Hearlier).
    exists n, (c ∖ list_to_set l). split_and!; [done| |set_solver|].
    + by rewrite list_lookup_fmap, Hn.
    + intros j c' Hj. rewrite list_lookup_fmap.
      destruct (clusters !! j) as [c0|] eqn:Hc0; [|done].
      intros [= <-]. specialize (Hearlier j c0 Hj Hc0). set_solver.
  - rewrite !Forall_forall. intros Hno c' (c0 & -> & Hc0)%list_elem_of_fmap.
    specialize (Hno c0 Hc0). set_solver.
Qed.

(** The invariant of the two removals. *)
Lemma without_mentions_labels l st (Q : Z → MentionInformation → Prop) :
  (∀ k m, (k, m) ∈ _mention_dict st →
          label_matches_clusters (_clusters st) k m ∧ Q k m) →
  ∀ k m, (k, m) ∈ _mention_dict (without_mentions l st) →
         label_matches_clusters (_clusters (without_mentions l st)) k m ∧ Q k m.
Proof.
  intros Hinv k m. unfold without_mentions. simpl.
  intros [Hk Hin]%list_elem_of_filter. destruct (Hinv k m Hin) as [Hl HQ].
  split; [|done]. by apply label_matches_without.
Qed.

(** X4.  The labels a paragraph ends with.  After [get_coref_info] on an
    object with an empty dictionary, the label of every mention that is left
    is the position, in the final cluster list, of the first cluster that
    holds the mention.  A mention that is left without a label is in no
    cluster, and this only happens with [remove_singletons] off. *)
Theorem labels_index_the_clusters st st' k m :
  _mention_dict st = [] →
  get_coref_info st = Ok st' →
  (k, m) ∈ _mention_dict st' →
  label_matches_clusters (_clusters st') k m
  ∧ (m_label m = None → _remove_singletons st = false).
Proof.
  intros Hempty. unfold get_coref_info.
  intros (s1 & Hs1 & H)%bind_Ok.
  apply bind_Ok in H as (s2 & Hs2 & H).
  apply bind_Ok in H as (s3 & Hs3 & H).
  apply bind_Ok in H as (s4 & Hs4 & H).
  assert (Forall (λ m, m_label m = None) (Dict.values (_mention_dict s2)))
    as Hnone.
  { eapply (extract_coreference_links_entries
              (λ m, m_label m = None) (_tokens s1)); [..|exact Hs2]; try done.
    eapply (extract_mentions_entries
              (λ m, m_label m = None) (_tokens st)); [..|exact Hs1]; try done.
    rewrite Hempty. constructor. }
  assert (_remove_singletons s2 = _remove_singletons st) as Hrs.
  { apply extract_mentions_frame in Hs1 as ((_ & _ & _ & Hr1) & _).
    apply extract_coreference_links_frame in Hs2 as ((_ & _ & _ & Hr2) & _).
    congruence. }
  apply assign_exact in Hs3.
  assert (∀ k m, (k, m) ∈ _mention_dict s3 →
                 label_matches_clusters (_clusters s3) k m
                 ∧ (m_label m = None → _remove_singletons st = false)) as H3.
  { subst s3. simpl. intros k' m' ([k0 m0] & Hin & Hassigned)%list_elem_of_omap.
    rewrite Forall_forall in Hnone.
    apply assigned_entry_label in Hassigned as (-> & Hl & Hn).
    - by rewrite <- Hrs.
    - apply Hnone. unfold Dict.values. apply list_elem_of_fmap.
      by exists (k0, m0). }
  assert (∀ k m, (k, m) ∈ _mention_dict s4 →
                 label_matches_clusters (_clusters s4) k m
                 ∧ (m_label m = None → _remove_singletons st = false)) as H4.
  { destruct (negb (_use_aliases s3)); [|by inversion Hs4; subst].
    rewrite remove_aliases_loop in Hs4. apply remove_loop_exact in Hs4.
    subst s4.
    by apply (without_mentions_labels _ s3
                (λ _ m, m_label m = None → _remove_singletons st = false)). }
  destruct (negb (_use_exappos s4)); [|inversion H; subst; by apply H4].
  rewrite remove_exappos_loop in H. apply remove_loop_exact in H.
  subst st'.
  by apply (without_mentions_labels _ s4
              (λ _ m, m_label m = None → _remove_singletons st = false)).
Qed.

Lemma labels_index_the_clusters_witness :
  ∃ st',
    _mention_dict (linked_appositive_state "IDENT[2_3]") = []
    ∧ get_coref_info (linked_appositive_state "IDENT[2_3]") = Ok st'
    ∧ (3, set_label 0 (single_token_mention 2 "c" "NOUN")) ∈ _mention_dict st'
    ∧ label_matches_clusters (_clusters st') 3
        (set_label 0 (single_token_mention 2 "c" "NOUN"))
    ∧ (m_label (set_label 0 (single_token_mention 2 "c" "NOUN")) = None →
       _remove_singletons (linked_appositive_state "IDENT[2_3]") = false).
Proof.
  destruct (get_coref_info (linked_appositive_state "IDENT[2_3]"))
    as [st'|e] eqn:Hrun; [|vm_compute in Hrun; discriminate].
  exists st'. split; [reflexivity|]. split; [reflexivity|].
  assert ((3, set_label 0 (single_token_mention 2 "c" "NOUN"))
          ∈ _mention_dict st') as Hin.
  { pose proof Hrun as Hvalue. vm_compute in Hvalue.
    injection Hvalue as <-. cbn [_mention_dict].
    do 2 apply list_elem_of_further. apply list_elem_of_here. }
  split; [exact Hin|].
  exact (labels_index_the_clusters
           (linked_appositive_state "IDENT[2_3]") st' 3 _ eq_refl Hrun Hin).
Defined.

(** ** The text of an emitted mention *)

(** A property of the entries that span extraction, fusion and labelling
    keep holds of every entry [get_coref_info] leaves. *)
Lemma get_coref_info_entries (P : MentionInformation → Prop) st st' :
  (∀ i, P (new_mention i)) →
  (∀ i type m,
     P m →
     P (set_type type
          (set_text (Py.slice (_tokens st) (m_start m) (i + 1)) (set_end i m)))) →
  (∀ m e, P m → P (fused_mention (_tokens st) m e)) →
  (∀ m i, P m → P (set_label i m)) →
  Forall P (Dict.values (_mention_dict st)) →
  get_coref_info st = Ok st' →
  Forall P (Dict.values (_mention_dict st')).
Proof.
  intros P_new P_span P_fused P_label Hinv. unfold get_coref_info.
  intros (s1 & Hs1 & H)%bind_Ok.
  apply bind_Ok in H as (s2 & Hs2 & H).
  apply bind_Ok in H as (s3 & Hs3 & H).
  apply bind_Ok in H as (s4 & Hs4 & H).
  assert (Forall P (Dict.values (_mention_dict s1))) as H1
    by (eapply (extract_mentions_entries P (_tokens st)); [..|exact Hs1]; done).
  apply extract_mentions_frame in Hs1 as (_ & Htok1 & _).
  assert (Forall P (Dict.values (_mention_dict s2))) as H2.
  { eapply (extract_coreference_links_entries P (_tokens st));
      [..|exact Hs2]; done. }
  apply assign_Ok in Hs3 as (_ & _ & Hv3 & _).
  assert (Forall P (Dict.values (_mention_dict s3))) as H3.
  { rewrite Forall_forall in H2 |- *. intros v (v0 & Hv0 & Hv)%Hv3.
    destruct Hv as [->|[i ->]]; auto. }
  assert (Forall P (Dict.values (_mention_dict s4))) as H4.
  { destruct (negb (_use_aliases s3)); [|by inversion Hs4; subst].
    apply remove_aliases_Ok in Hs4 as (_ & Hv4 & _).
    by eapply Forall_values_subset. }
  destruct (negb (_use_exappos s4)); [|by inversion H; subst].
  apply remove_exappos_Ok in H as (_ & Hv5 & _).
  by eapply Forall_values_subset.
Qed.

Lemma get_coref_info_text st st' :
  _mention_dict st = [] →
  get_coref_info st = Ok st' →
  Forall (λ m, text_matches_span (_tokens st) m
               ∧ (is_Some (m_type m) → is_Some (m_end m)))
    (Dict.values (_mention_dict st')).
Proof.
  intros Hempty. apply get_coref_info_entries.
  - intros i. unfold text_matches_span. simpl. split; [done|by intros [? ?]].
  - intros i type m _. unfold text_matches_span. simpl. eauto.
  - intros m e _. unfold text_matches_span. simpl. eauto.
  - intros m i. unfold text_matches_span. by simpl.
  - rewrite Hempty. constructor.
Qed.

(** X5.  The text of an emitted mention.  In every record of a conversion
    that starts from an object with an empty dictionary, every mention has a
    type and an end, and its text is the slice of the tokens of the record
    from its start up to and including its end. *)
Theorem emitted_text_is_the_span data st st' output record mention :
  _mention_dict st = [] →
  convert_tsv_to_jsonl data st = Ok (st', output) →
  record ∈ output → mention ∈ corefs record →
  ∃ e type,
    m_end mention = Some e ∧ m_type mention = Some type ∧
    m_text mention
    = Some (Py.slice (tokens record) (m_start mention) (e + 1)).
Proof.
  intros Hempty Hrun. unfold convert_tsv_to_jsonl in Hrun.
  cut (_mention_dict st' = [] ∧
       ∀ record mention, record ∈ output → mention ∈ corefs record →
         ∃ e type,
           m_end mention = Some e ∧ m_type mention = Some type ∧
           m_text mention
           = Some (Py.slice (tokens record) (m_start mention) (e + 1)));
    [intros [_ Hall]; apply Hall|].
  revert Hrun.
  apply (for_each_invariant
           (λ acc : State * list ParagraphDict,
              _mention_dict acc.1 = [] ∧
              ∀ record mention, record ∈ acc.2 → mention ∈ corefs record →
                ∃ e type,
                  m_end mention = Some e ∧ m_type mention = Some type ∧
                  m_text mention
                  = Some (Py.slice (tokens record) (m_start mention) (e + 1))));
    [|split; [done|by intros ? ? ?%elem_of_nil]].
  intros paragraph [s out] [s' out'] _ [Hd Hrec]. simpl in *.
  intros (s1 & Hs1 & H)%bind_Ok.
  apply bind_Ok in H as (s2 & Hs2 & H).
  apply bind_Ok in H as (s3 & Hs3 & H). inversion H; subst s' out'; clear H.
  apply get_paragraph_data_Ok in Hs1 as (Hlen & Hd1 & _). rewrite Hd in Hd1.
  pose proof (get_coref_info_text _ _ Hd1 Hs2) as Htext.
  apply get_coref_info_in_range in Hs2 as (_ & _ & Htok & _); [|done..].
  apply accumulate_Ok in Hs3 as (Htypes & _). simpl in *.
  split; [done|].
  intros r m [Hin|Heq%list_elem_of_singleton]%elem_of_app Hm; [by eapply Hrec|].
  subst r. simpl in *. rewrite Forall_forall in Htext.
  destruct (Htext _ Hm) as [Hspan Hend]. destruct (Htypes _ Hm) as [type Htype].
  destruct Hend as [e He]; [by rewrite Htype|].
  exists e, type. split; [done|]. split; [done|].
  unfold text_matches_span in Hspan. rewrite He in Hspan. by rewrite Htok.
Qed.

Lemma emitted_text_is_the_span_witness :
  ∃ st' output,
    _mention_dict (__init__ true false false false) = []
    ∧ convert_tsv_to_jsonl docstring_paragraph (__init__ true false false false)
      = Ok (st', output)
    ∧ ∃ record mention,
        record ∈ output ∧ mention ∈ corefs record ∧ m_start mention = 0
        ∧ ∃ e type,
            m_end mention = Some e ∧ m_type mention = Some type ∧
            m_text mention
            = Some (Py.slice (tokens record) (m_start mention) (e + 1)).
Proof.
  destruct (convert_tsv_to_jsonl docstring_paragraph
              (__init__ true false false false))
    as [[st' output]|e] eqn:Hrun; [|vm_compute in Hrun; discriminate].
  exists st', output. split; [reflexivity|]. split; [reflexivity|].
  pose proof Hrun as Hvalue. vm_compute in Hvalue.
  injection Hvalue as _ Houtput.
  destruct output as [|record output]; [discriminate|].
  injection Houtput as Hrecord _.
  destruct record as [text tokens [|mention corefs]]; [discriminate|].
  injection Hrecord as _ _ Hmention _.
  exists {| text := text; tokens := tokens; corefs := mention :: corefs |},
    mention.
  assert ({| text := text; tokens := tokens; corefs := mention :: corefs |}
          ∈ {| text := text; tokens := tokens; corefs := mention :: corefs |}
            :: output) as Hin by apply list_elem_of_here.
  assert (mention ∈ mention :: corefs) as Hm by apply list_elem_of_here.
  split; [exact Hin|]. split; [exact Hm|]. split; [by subst mention|].
  exact (emitted_text_is_the_span docstring_paragraph
           (__init__ true false false false) st' _ _ mention eq_refl Hrun
           Hin Hm).
Defined.

(** ** Reading a paragraph *)

Lemma split_aux_nonempty sep skip cur s : Py.split_aux sep skip cur s ≠ [].
Proof.
  revert skip cur.
  induction s as [|c s IH]; intros skip cur; cbn [Py.split_aux]; [done|].
  destruct skip; [|apply IH].
  destruct (String.prefix sep (String c s)); [done|apply IH].
Qed.

Lemma split_nonempty sep s : Py.split sep s ≠ [].
Proof. apply split_aux_nonempty. Qed.

Lemma paragraph_line_columns line acc :
  get_paragraph_data_line line acc
  = let columns := Py.split tab line in
    if bool_decide (Py.len columns = 1) then Ok acc
    else if bool_decide (4 ≤ Py.len columns)
         then Ok (acc.1 ++ [nth 2 columns EmptyString],
                  acc.2 ++ [Py.split "|" (nth 3 columns EmptyString)])
         else Raise IndexError.
Proof.
  unfold get_paragraph_data_line. cbv zeta.
  destruct (Py.split tab line) as [|a [|b [|c [|d rest]]]]; try done.
  unfold Py.len. simpl length.
  rewrite bool_decide_eq_false_2 by lia.
  rewrite bool_decide_eq_true_2 by lia.
  replace (Z.of_nat (S (S (S (S (length rest))))) =? 1) with false
    by (symmetry; apply Z.eqb_neq; lia).
  done.
Qed.

Lemma paragraph_lines_columns lines acc :
  for_each get_paragraph_data_line lines acc
  = let rows := filter (λ columns, Py.len columns ≠ 1) (Py.split tab <$> lines) in
    if bool_decide (Forall (λ columns, 4 ≤ Py.len columns) rows)
    then Ok (acc.1 ++ ((λ columns, nth 2 columns EmptyString) <$> rows),
             acc.2 ++ ((λ columns, Py.split "|" (nth 3 columns EmptyString))
                         <$> rows))
    else Raise IndexError.
Proof.
  cbv zeta. revert acc. induction lines as [|line lines IH]; intros [toks labs].
  - simpl. by rewrite !app_nil_r.
  - cbn [for_each]. rewrite paragraph_line_columns. cbv zeta.
    rewrite fmap_cons, filter_cons.
    destruct (decide (Py.len (Py.split tab line) = 1)) as [Hone|Hone].
    + rewrite (bool_decide_eq_true_2 _ Hone).
      rewrite decide_False by (intros Hc; by apply Hc). simpl. apply IH.
    + rewrite (bool_decide_eq_false_2 _ Hone), decide_True by done.
      destruct (decide (4 ≤ Py.len (Py.split tab line))) as [Hfour|Hfour].
      * rewrite (bool_decide_eq_true_2 _ Hfour). simpl. rewrite IH. simpl.
        set (rows := filter (λ columns, Py.len columns ≠ 1)
                       (Py.split tab <$> lines)).
        destruct (decide (Forall (λ columns : list string, 4 ≤ Py.len columns)
                            rows)) as [Hrest|Hrest].
        -- rewrite (bool_decide_eq_true_2 _ Hrest).
           rewrite bool_decide_eq_true_2 by (by constructor).
           by rewrite <- !app_assoc.
        -- rewrite (bool_decide_eq_false_2 _ Hrest).
           rewrite bool_decide_eq_false_2; [done|].
           intros Hall. apply Hrest. by inversion Hall.
      * rewrite (bool_decide_eq_false_2 _ Hfour). simpl.
        rewrite bool_decide_eq_false_2; [done|].
        intros Hall. apply Hfour. by inversion Hall.
Qed.

Lemma get_paragraph_data_exact paragraph st st' :
  get_paragraph_data paragraph st = Ok st' →
  st' = with_labels
          ((λ columns, Py.split "|" (nth 3 columns EmptyString))
             <$> token_rows paragraph)
          (with_tokens (paragraph_tokens paragraph)
             (with_text (paragraph_text paragraph) st)).
Proof.
  unfold get_paragraph_data, paragraph_tokens, paragraph_text, token_rows.
  cbv zeta. intros (first_line & Hfirst & H)%bind_Ok.
  destruct (Py.split newline (Py.strip paragraph)) as [|line lines]; [done|].
  inversion Hfirst; subst first_line; clear Hfirst. cbn [tail hd] in *.
  rewrite paragraph_lines_columns in H. cbv zeta in H.
  destruct (bool_decide _) in H; [|done]. by inversion H.
Qed.

(** X6.  Reading a paragraph, in closed form.  The lines after the first
    are split at the tabs; a line that holds no tab is passed over.  The call
    returns when every other line has at least four fields, and raises
    [IndexError] when one has two or three.  When it returns, the tokens are
    the third fields and the label lists the fourth fields split at the
    bars, line by line, the text is the first line without its first six
    characters, and nothing else of the object has changed. *)
Theorem paragraph_data_closed_form paragraph st :
  get_paragraph_data paragraph st
  = if bool_decide (Forall (λ columns, 4 ≤ Py.len columns)
                      (token_rows paragraph))
    then Ok (with_labels
               ((λ columns, Py.split "|" (nth 3 columns EmptyString))
                  <$> token_rows paragraph)
               (with_tokens (paragraph_tokens paragraph)
                  (with_text (paragraph_text paragraph) st)))
    else Raise IndexError.
Proof.
  unfold get_paragraph_data, paragraph_tokens, paragraph_text, token_rows.
  cbv zeta.
  pose proof (split_nonempty newline (Py.strip paragraph)) as Hne.
  destruct (Py.split newline (Py.strip paragraph)) as [|first_line lines];
    [done|].
  change (Py.index (first_line :: lines) 0) with (Ok first_line).
  rewrite bind_ret. cbn [tail hd]. rewrite paragraph_lines_columns. cbv zeta.
  by case_bool_decide.
Qed.

(** ** What coreference processing leaves alone *)

Lemma same_bookkeeping_refl st : same_bookkeeping st st.
Proof. by repeat split. Qed.

Lemma same_bookkeeping_trans st1 st2 st3 :
  same_bookkeeping st1 st2 → same_bookkeeping st2 st3 →
  same_bookkeeping st1 st3.
Proof. unfold same_bookkeeping. intros ? ?. destruct_and!. split_and!; congruence. Qed.

Lemma extract_label_bookkeeping i label st st' :
  _extract_mentions_label i label st = Ok st' → same_bookkeeping st st'.
Proof.
  unfold _extract_mentions_label.
  destruct (is_link_label label); [intros [= <-]; apply same_bookkeeping_refl|].
  destruct (Py.strlen label =? 0); [intros [= <-]; apply same_bookkeeping_refl|].
  set (st1 := if String.eqb (label_prefix label) ""
              then print (PrintLabel label) st else st).
  assert (same_bookkeeping st st1) as Hs1
    by (unfold st1; destruct (String.eqb _ _); by repeat split).
  intros (mention_id & _ & H)%bind_Ok.
  set (st2 := if Dict.contains (_mention_dict st1) mention_id then st1
              else with_mention_dict
                     (Dict.setitem (_mention_dict st1) mention_id
                        (new_mention i)) st1) in H.
  assert (same_bookkeeping st st2) as Hs2.
  { unfold st2. destruct (Dict.contains _ _); [done|].
    eapply same_bookkeeping_trans; [done|by repeat split]. }
  apply bind_Ok in H as (ends_here & _ & H).
  destruct ends_here; [|by inversion H; subst].
  apply bind_Ok in H as (m & _ & H). inversion H; subst st'.
  eapply same_bookkeeping_trans; [done|by repeat split].
Qed.

Lemma extract_mentions_bookkeeping st st' :
  _extract_mentions st = Ok st' → same_bookkeeping st st'.
Proof.
  unfold _extract_mentions.
  apply (for_each_invariant (same_bookkeeping st));
    [|apply same_bookkeeping_refl].
  intros [i label_list] s1 s2 _ Hs1. unfold _extract_mentions_position.
  simpl. destruct (Py.mem "_" label_list); [by intros [= <-]|].
  apply (for_each_invariant (same_bookkeeping st)); [|done].
  intros label t1 t2 _ Ht1 Hstep%extract_label_bookkeeping.
  by eapply same_bookkeeping_trans.
Qed.

Lemma link_label_bookkeeping label acc acc' :
  _extract_coreference_links_label label acc = Ok acc' →
  same_bookkeeping (self acc) (self acc').
Proof.
  unfold _extract_coreference_links_label.
  destruct acc as [st mps aps]. simpl.
  destruct (is_link_label label); [|by intros [= <-]; repeat split].
  intros (suffix & _ & H)%bind_Ok.
  destruct (negb _); [by inversion H; subst; repeat split|].
  apply bind_Ok in H as (first & _ & H). apply bind_Ok in H as (a & _ & H).
  apply bind_Ok in H as (second & _ & H). apply bind_Ok in H as (b & _ & H).
  destruct (String.eqb (label_prefix label) "APPOS");
    [by inversion H; subst; repeat split|].
  inversion H; subst; clear H. simpl.
  destruct st as [? exappos aliases ? ? ? ? ? ? ? ? ? ? ? ? ?]. simpl.
  destruct aliases, exappos; simpl;
    destruct (String.eqb (label_prefix label) "ALIAS");
    destruct (String.eqb (label_prefix label) "EXAPPOS"); by repeat split.
Qed.

Lemma read_links_bookkeeping st links :
  read_links st = Ok links → same_bookkeeping st (self links).
Proof.
  unfold read_links.
  apply (for_each_invariant (λ acc, same_bookkeeping st (self acc)));
    [|apply same_bookkeeping_refl].
  intros label_list acc1 acc2 _ Hacc1.
  apply (for_each_invariant (λ acc, same_bookkeeping st (self acc))); [|done].
  intros label a1 a2 _ H1 Hstep%link_label_bookkeeping.
  by eapply same_bookkeeping_trans.
Qed.

Lemma report_absent_bookkeeping pairs st :
  same_bookkeeping st (report_absent pairs st).
Proof.
  unfold report_absent. revert st.
  induction pairs as [|p pairs IH]; intros st; simpl.
  - apply same_bookkeeping_refl.
  - match goal with |- context [fold_left _ pairs ?s] => set (st1 := s) end.
    assert (same_bookkeeping st st1) as Hc
      by (unfold st1; destruct (_ || _); by repeat split).
    eapply same_bookkeeping_trans; [exact Hc|apply IH].
Qed.

Lemma handle_appositives_bookkeeping appositive_pairs st st' :
  _handle_appositives appositive_pairs st = Ok st' → same_bookkeeping st st'.
Proof.
  unfold _handle_appositives.
  apply (for_each_invariant (same_bookkeeping st));
    [|apply same_bookkeeping_refl].
  intros t s1 s2 _ H1 (second & _ & [[_ ->]|(_ & H)])%handle_tuple_Ok.
  2: destruct H as (head & hi & li & e & fused & _ & _ & _ & -> & _).
  - eapply same_bookkeeping_trans; [done|by repeat split].
  - eapply same_bookkeeping_trans; [done|by repeat split].
Qed.

Lemma extract_coreference_links_bookkeeping st st' :
  _extract_coreference_links st = Ok st' → same_bookkeeping st st'.
Proof.
  unfold _extract_coreference_links.
  intros (links & Hlinks & H)%bind_Ok.
  apply bind_Ok in H as (sb & Hsb & H).
  apply bind_Ok in H as (sc & Hsc & H). inversion H; subst st'; clear H.
  apply read_links_bookkeeping in Hlinks.
  pose proof (report_absent_bookkeeping (mention_pairs links) (self links)).
  apply handle_appositives_bookkeeping in Hsb.
  apply drop_appositives_result in Hsc. subst sc.
  eapply same_bookkeeping_trans; [exact Hlinks|].
  eapply same_bookkeeping_trans; [done|].
  eapply same_bookkeeping_trans; [exact Hsb|]. by repeat split.
Qed.

Lemma get_coref_info_frame st st' :
  get_coref_info st = Ok st' → same_input st st' ∧ same_bookkeeping st st'.
Proof.
  unfold get_coref_info.
  intros (s1 & Hs1 & H)%bind_Ok.
  apply bind_Ok in H as (s2 & Hs2 & H).
  apply bind_Ok in H as (s3 & Hs3 & H).
  apply bind_Ok in H as (s4 & Hs4 & H).
  assert (same_input st s2 ∧ same_bookkeeping st s2) as [Hi2 Hb2].
  { split.
    - eapply same_input_trans; [by eapply extract_mentions_frame|].
      by eapply extract_coreference_links_frame.
    - eapply same_bookkeeping_trans; [by eapply extract_mentions_bookkeeping|].
      by eapply extract_coreference_links_bookkeeping. }
  apply assign_exact in Hs3.
  assert (same_input st s3 ∧ same_bookkeeping st s3) as [Hi3 Hb3].
  { subst s3. split.
    - eapply same_input_trans; [done|by repeat split].
    - eapply same_bookkeeping_trans; [done|by repeat split]. }
  assert (same_input st s4 ∧ same_bookkeeping st s4) as [Hi4 Hb4].
  { destruct (negb (_use_aliases s3)); [|by inversion Hs4; subst].
    rewrite remove_aliases_loop in Hs4. apply remove_loop_exact in Hs4.
    subst s4. split.
    - eapply same_input_trans; [done|by repeat split].
    - eapply same_bookkeeping_trans; [done|by repeat split]. }
  destruct (negb (_use_exappos s4)); [|by inversion H; subst].
  rewrite remove_exappos_loop in H. apply remove_loop_exact in H.
  subst st'. split.
  - eapply same_input_trans; [done|by repeat split].
  - eapply same_bookkeeping_trans; [done|by repeat split].
Qed.

(** ** The records and the statistics of a conversion *)

Lemma type_count_increment k t counts :
  type_count t (increment k counts)
  = type_count t counts + (if decide (k = t) then 1 else 0).
Proof.
  unfold type_count, increment. destruct (decide (k = t)) as [->|Hne].
  - by rewrite lookup_insert_eq.
  - rewrite lookup_insert_ne by done. lia.
Qed.

Lemma accumulate_loop_counts (l : list MentionInformation) st st' :
  for_each
    (λ mention st,
       mention_type ← field (m_type mention);
       Ok (with_mention_types (increment mention_type (_mention_types st)) st))
    l st = Ok st' →
  ∃ counts,
    st' = with_mention_types counts st ∧
    ∀ t, type_count t counts
         = type_count t (_mention_types st)
           + Py.len (filter (λ m, m_type m = Some t) l).
Proof.
  revert st. induction l as [|m l IH]; intros st H; simpl in H.
  - inversion H; subst. exists (_mention_types st'). split; [by destruct st'|].
    intros t. unfold Py.len. simpl. lia.
  - apply bind_Ok in H as (s1 & Hs1 & H).
    apply bind_Ok in Hs1 as (mention_type & Htype & Hs1).
    inversion Hs1; subst s1; clear Hs1.
    destruct (m_type m) as [type|] eqn:Hm; [|done].
    inversion Htype; subst mention_type; clear Htype.
    destruct (IH _ H) as (counts & -> & Hcounts). exists counts.
    split; [done|]. intros t. rewrite Hcounts. simpl.
    rewrite type_count_increment, filter_cons. unfold Py.len.
    destruct (decide (type = t)) as [->|Hne].
    + rewrite decide_True by done. simpl. lia.
    + rewrite decide_False by congruence. lia.
Qed.

(** One paragraph of the conversion. *)
Lemma convert_paragraph_step paragraph st out st' out' :
  convert_paragraph paragraph (st, out) = Ok (st', out') →
  ∃ record,
    out' = out ++ [record] ∧
    text record = paragraph_text paragraph ∧
    tokens record = paragraph_tokens paragraph ∧
    same_flags st st' ∧
    st' = reset st' ∧
    paragraph_count (_statistics st') = paragraph_count (_statistics st) + 1 ∧
    token_count (_statistics st')
    = token_count (_statistics st) + Py.len (tokens record) ∧
    mention_count (_statistics st')
    = mention_count (_statistics st) + Py.len (corefs record) ∧
    ∀ t, type_count t (_mention_types st')
         = type_count t (_mention_types st)
           + Py.len (filter (λ m, m_type m = Some t) (corefs record)).
Proof.
  unfold convert_paragraph.
  intros (s1 & Hs1 & H)%bind_Ok.
  apply bind_Ok in H as (s2 & Hs2 & H).
  apply bind_Ok in H as (s3 & Hs3 & H). inversion H; subst st' out'; clear H.
  apply get_paragraph_data_exact in Hs1. subst s1.
  apply get_coref_info_frame in Hs2
    as [(Hflags & Htok & _) (Htext & Htypes & Hp & Ht & Hm & _)].
  unfold _accumulate_mention_type_counts in Hs3.
  apply accumulate_loop_counts in Hs3 as (counts & -> & Hcounts).
  simpl in *.
  exists {| text := _text s2; tokens := _tokens s2;
            corefs := Dict.values (_mention_dict s2) |}.
  simpl. split_and!; try done; try lia.
  - rewrite Hm. unfold Py.len, Dict.keys, Dict.values.
    by rewrite !length_fmap.
  - intros t. rewrite Hcounts. by rewrite Htypes.
Qed.

(** The loop of [convert_tsv_to_jsonl]. *)
Lemma convert_loop_step paragraphs st out st' out' :
  for_each convert_paragraph paragraphs (st, out) = Ok (st', out') →
  ∃ new,
    out' = out ++ new ∧
    Forall2 (λ paragraph record,
               text record = paragraph_text paragraph ∧
               tokens record = paragraph_tokens paragraph) paragraphs new ∧
    same_flags st st' ∧
    (paragraphs ≠ [] → st' = reset st') ∧
    paragraph_count (_statistics st')
    = paragraph_count (_statistics st) + Py.len new ∧
    token_count (_statistics st')
    = token_count (_statistics st) + Py.len (emitted_tokens new) ∧
    mention_count (_statistics st')
    = mention_count (_statistics st) + Py.len (emitted_mentions new) ∧
    ∀ t, type_count t (_mention_types st')
         = type_count t (_mention_types st)
           + Py.len (filter (λ m, m_type m = Some t) (emitted_mentions new)).
Proof.
  revert st out. induction paragraphs as [|p ps IH]; intros st out H.
  - simpl in H. inversion H; subst. exists []. rewrite app_nil_r.
    unfold Py.len, emitted_tokens, emitted_mentions. simpl.
    split_and!; try done; try lia; try (intros t; lia).
  - cbn [for_each] in H. apply bind_Ok in H as ([s1 out1] & Hstep & H).
    apply convert_paragraph_step in Hstep
      as (record & -> & Htext & Htok & Hf1 & Hreset & Hp1 & Ht1 & Hm1 & Hc1).
    destruct (IH _ _ H) as (new & -> & Hall & Hf2 & Hreset2 & Hp2 & Ht2 & Hm2
                            & Hc2).
    exists (record :: new). split_and!.
    + by rewrite <- app_assoc.
    + by constructor.
    + unfold same_flags in *. destruct_and!. split_and!; congruence.
    + intros _. destruct ps as [|p' ps]; [|by apply Hreset2].
      simpl in H. by inversion H; subst.
    + rewrite Hp2, Hp1. unfold Py.len. rewrite length_cons. lia.
    + rewrite Ht2, Ht1. unfold Py.len, emitted_tokens.
      rewrite fmap_cons. cbn [concat]. rewrite length_app. lia.
    + rewrite Hm2, Hm1. unfold Py.len, emitted_mentions.
      rewrite fmap_cons. cbn [concat]. rewrite length_app. lia.
    + intros t. rewrite Hc2, Hc1. unfold Py.len, emitted_mentions.
      rewrite fmap_cons. cbn [concat]. rewrite filter_app, length_app. lia.
Qed.

(** X8.  The statistics agree with the output.  Over a conversion that
    returns, the paragraph count grows by the number of records emitted, the
    token count by the number of tokens in them and the mention count by the
    number of mentions in them. *)
Theorem statistics_count_the_output data st st' output :
  convert_tsv_to_jsonl data st = Ok (st', output) →
  paragraph_count (_statistics st')
  = paragraph_count (_statistics st) + Py.len output
  ∧ token_count (_statistics st')
    = token_count (_statistics st) + Py.len (emitted_tokens output)
  ∧ mention_count (_statistics st')
    = mention_count (_statistics st) + Py.len (emitted_mentions output).
Proof.
  unfold convert_tsv_to_jsonl. intros H.
  apply convert_loop_step in H as (new & -> & _ & _ & _ & Hp & Ht & Hm & _).
  by simpl.
Qed.

Lemma statistics_count_the_output_witness :
  ∃ st' output,
    convert_tsv_to_jsonl docstring_paragraph (__init__ true false false true)
    = Ok (st', output)
    ∧ Py.len (emitted_tokens output) = 6
    ∧ Py.len (emitted_mentions output) = 2
    ∧ paragraph_count (_statistics st')
      = paragraph_count (_statistics (__init__ true false false true))
        + Py.len output
    ∧ token_count (_statistics st')
      = token_count (_statistics (__init__ true false false true))
        + Py.len (emitted_tokens output)
    ∧ mention_count (_statistics st')
      = mention_count (_statistics (__init__ true false false true))
        + Py.len (emitted_mentions output).
Proof.
  destruct (convert_tsv_to_jsonl docstring_paragraph
              (__init__ true false false true))
    as [[st' output]|e] eqn:Hrun; [|vm_compute in Hrun; discriminate].
  exists st', output. split; [reflexivity|].
  assert (Py.len (emitted_tokens output) = 6
          ∧ Py.len (emitted_mentions output) = 2) as [Htokens Hmentions].
  { pose proof Hrun as Hvalue. vm_compute in Hvalue.
    injection Hvalue as _ <-. split; reflexivity. }
  split; [exact Htokens|]. split; [exact Hmentions|].
  exact (statistics_count_the_output _ _ st' output Hrun).
Defined.

(** X9.  The type counts agree with the output.  Over a conversion that
    returns, the count of each mention type grows by the number of emitted
    mentions of that type. *)
Theorem type_counts_count_the_output data st st' output t :
  convert_tsv_to_jsonl data st = Ok (st', output) →
  type_count t (_mention_types st')
  = type_count t (_mention_types st)
    + Py.len (filter (λ m, m_type m = Some t) (emitted_mentions output)).
Proof.
  unfold convert_tsv_to_jsonl. intros H.
  apply convert_loop_step in H as (new & -> & _ & _ & _ & _ & _ & _ & Hc).
  apply Hc.
Qed.

Lemma type_counts_count_the_output_witness :
  ∃ st' output,
    convert_tsv_to_jsonl docstring_paragraph (__init__ true false false false)
    = Ok (st', output)
    ∧ Py.len (filter (λ m, m_type m = Some "PROPER") (emitted_mentions output))
      = 1
    ∧ type_count "PROPER" (_mention_types st')
      = type_count "PROPER"
          (_mention_types (__init__ true false false false))
        + Py.len (filter (λ m, m_type m = Some "PROPER")
                    (emitted_mentions output)).
Proof.
  destruct (convert_tsv_to_jsonl docstring_paragraph
              (__init__ true false false false))
    as [[st' output]|e] eqn:Hrun; [|vm_compute in Hrun; discriminate].
  exists st', output. split; [reflexivity|]. split.
  - pose proof Hrun as Hvalue. vm_compute in Hvalue.
    injection Hvalue as _ <-. reflexivity.
  - exact (type_counts_count_the_output _ _ st' output "PROPER" Hrun).
Defined.

(** ** The dataset reader *)

Lemma keys_setitem_absent {V : Type} (d : Dict.t V) k v :
  Dict.get d k = None → Dict.keys (Dict.setitem d k v) = Dict.keys d ++ [k].
Proof.
  unfold Dict.keys. induction d as [|[k' v'] d IH]; simpl; [done|].
  destruct (Z.eqb_spec k' k); [done|]. intros Hget. simpl. f_equal. auto.
Qed.

Lemma values_by_keys {V : Type} (d : Dict.t V) (v0 : V) :
  NoDup (Dict.keys d) →
  Dict.values d = (λ k, default v0 (Dict.get d k)) <$> Dict.keys d.
Proof.
  unfold Dict.keys, Dict.values. induction d as [|[k v] d IH]; [done|].
  cbn [fmap list_fmap fst snd]. intros [Hk Hnd]%NoDup_cons.
  cbn [Dict.get]. rewrite Z.eqb_refl. simpl. f_equal.
  rewrite IH by done. apply list_fmap_ext. intros i k' Hk'.
  destruct (Z.eqb_spec k k') as [->|Hne]; [|done].
  destruct Hk. by eapply list_elem_of_lookup_2.
Qed.

Lemma keys_append_span clusters cluster_id span :
  Dict.keys (append_span clusters cluster_id span)
  = if decide (cluster_id ∈ Dict.keys clusters) then Dict.keys clusters
    else Dict.keys clusters ++ [cluster_id].
Proof.
  unfold append_span. destruct (decide _) as [Hin|Hin].
  - apply elem_of_keys in Hin as [v Hv]. apply keys_setitem_present. eauto.
  - apply keys_setitem_absent. rewrite elem_of_keys in Hin.
    destruct (Dict.get clusters cluster_id); [|done]. destruct Hin. eauto.
Qed.

Lemma get_append_span clusters cluster_id span k :
  default [] (Dict.get (append_span clusters cluster_id span) k)
  = default [] (Dict.get clusters k)
    ++ (if decide (cluster_id = k) then [span] else []).
Proof.
  unfold append_span. destruct (decide (cluster_id = k)) as [->|Hne].
  - by rewrite get_setitem_eq.
  - rewrite get_setitem_ne by done. by rewrite app_nil_r.
Qed.

(** The loop over the mentions of a document. *)
Lemma read_loop_closed_form (corefs : list MentionInformation)
  (clusters : Dict.t (list (Z * Z))) :
  NoDup (Dict.keys clusters) →
  if bool_decide (Forall (λ m, is_Some (m_label m) → is_Some (m_end m)) corefs)
  then ∃ clusters',
         for_each _read_coref corefs clusters = Ok clusters' ∧
         NoDup (Dict.keys clusters') ∧
         Dict.keys clusters'
         = fold_left (λ seen x, if decide (x ∈ seen) then seen else seen ++ [x])
             (omap m_label corefs) (Dict.keys clusters) ∧
         ∀ k, default [] (Dict.get clusters' k)
              = default [] (Dict.get clusters k) ++ spans_labelled k corefs
  else for_each _read_coref corefs clusters = Raise KeyError.
Proof.
  revert clusters. induction corefs as [|m corefs IH]; intros clusters Hnd.
  - rewrite bool_decide_eq_true_2 by constructor. exists clusters.
    split_and!; [done..|]. intros k. unfold spans_labelled. simpl.
    by rewrite app_nil_r.
  - cbn [for_each].
    destruct (m_label m) as [cluster_id|] eqn:Hlabel.
    + destruct (m_end m) as [e|] eqn:Hend.
      * assert (_read_coref m clusters
                = Ok (append_span clusters cluster_id (m_start m, e))) as ->
          by (unfold _read_coref; by rewrite Hlabel, Hend).
        rewrite bind_ret.
        specialize (IH (append_span clusters cluster_id (m_start m, e))).
        rewrite keys_append_span in IH.
        assert (NoDup (if decide (cluster_id ∈ Dict.keys clusters)
                       then Dict.keys clusters
                       else Dict.keys clusters ++ [cluster_id])) as Hnd'.
        { destruct (decide _); [done|]. apply NoDup_app. split_and!; [done| |].
          - intros x Hx ->%list_elem_of_singleton. done.
          - apply NoDup_singleton. }
        specialize (IH Hnd').
        destruct (decide (Forall (λ m, is_Some (m_label m) → is_Some (m_end m))
                            corefs)) as [Hall|Hall].
        -- rewrite (bool_decide_eq_true_2 _ Hall) in IH.
           destruct IH as (clusters' & Hrun & Hnd'' & Hkeys & Hget).
           rewrite bool_decide_eq_true_2.
           2: { constructor; [|done]. rewrite Hend. eauto. }
           exists clusters'. split_and!; [done|done| |].
           ++ rewrite Hkeys. cbn [omap list_omap]. rewrite Hlabel.
              by cbn [fold_left].
           ++ intros k. rewrite Hget, get_append_span, <- app_assoc. f_equal.
              unfold spans_labelled. cbn [omap list_omap].
              rewrite Hlabel, Hend. cbn [fmap option_fmap option_map].
              destruct (decide (cluster_id = k)) as [->|Hne].
              ** by rewrite decide_True.
              ** by rewrite decide_False by congruence.
        -- rewrite (bool_decide_eq_false_2 _ Hall) in IH.
           rewrite bool_decide_eq_false_2; [done|].
           intros Hall'. apply Hall. by inversion Hall'.
      * assert (_read_coref m clusters = Raise KeyError) as ->
          by (unfold _read_coref; by rewrite Hlabel, Hend).
        rewrite bool_decide_eq_false_2; [done|].
        intros Hall. inversion Hall as [|? ? Hm _]; subst.
        rewrite Hlabel, Hend in Hm. destruct Hm as [? ?]; [eauto|done].
    + assert (_read_coref m clusters = Ok clusters) as ->
        by (unfold _read_coref; by rewrite Hlabel).
      rewrite bind_ret. specialize (IH clusters Hnd).
      destruct (decide (Forall (λ m, is_Some (m_label m) → is_Some (m_end m))
                          corefs)) as [Hall|Hall].
      * rewrite (bool_decide_eq_true_2 _ Hall) in IH.
        destruct IH as (clusters' & Hrun & Hnd'' & Hkeys & Hget).
        rewrite bool_decide_eq_true_2.
        2: { constructor; [|done]. rewrite Hlabel. by intros [? ?]. }
        exists clusters'. split_and!; [done|done| |].
        -- rewrite Hkeys. cbn [omap list_omap]. by rewrite Hlabel.
        -- intros k. rewrite Hget. f_equal. unfold spans_labelled.
           cbn [omap list_omap]. rewrite Hlabel.
           by rewrite decide_False by congruence.
      * rewrite (bool_decide_eq_false_2 _ Hall) in IH.
        rewrite bool_decide_eq_false_2; [done|].
        intros Hall'. apply Hall. by inversion Hall'.
Qed.

(** X10.  What the reader hands on.  For a document, the reader returns
    when every mention that has a label has an end, and raises [KeyError]
    otherwise; a mention without a label is passed over.  When it returns,
    the tokens are the tokens of the document in lower case and there is one
    cluster for each label, in the order in which the labels first occur,
    made of the spans (start, end) of the mentions with that label, in
    order. *)
Theorem reader_groups_spans_by_label (sentences : ParagraphDict) :
  _read_document sentences
  = if bool_decide (Forall (λ m, is_Some (m_label m) → is_Some (m_end m))
                      (corefs sentences))
    then Ok ([str_lower <$> tokens sentences],
             (λ cluster_id, spans_labelled cluster_id (corefs sentences))
               <$> first_occurrences (omap m_label (corefs sentences)))
    else Raise KeyError.
Proof.
  unfold _read_document. cbv zeta.
  pose proof (read_loop_closed_form (corefs sentences) [] (NoDup_nil_2))
    as Hloop.
  destruct (bool_decide _); [|by rewrite Hloop].
  destruct Hloop as (clusters' & -> & Hnd & Hkeys & Hget).
  rewrite bind_ret. do 2 f_equal.
  rewrite (values_by_keys _ [] Hnd), Hkeys. apply list_fmap_ext.
  intros i k _. by rewrite Hget.
Qed.

Lemma str_lower_length (l : list string) :
  Py.len (str_lower <$> l) = Py.len l.
Proof. unfold Py.len. by rewrite length_fmap. Qed.

Lemma elem_of_spans_labelled span cluster_id corefs :
  span ∈ spans_labelled cluster_id corefs →
  ∃ m e, m ∈ corefs ∧ m_end m = Some e ∧ span = (m_start m, e).
Proof.
  unfold spans_labelled. intros (m & Hm & Hspan)%list_elem_of_omap.
  destruct (decide _) as [Hlabel|Hlabel]; [|done].
  destruct (m_end m) as [e|] eqn:Hend; [|done].
  inversion Hspan. eauto.
Qed.

(** The reader on a document whose mentions all have a span. *)
Lemma read_document_spans n ordered (sentences : ParagraphDict) :
  Forall (span_ok n ordered) (corefs sentences) →
  ∃ clusters,
    _read_document sentences = Ok ([str_lower <$> tokens sentences], clusters)
    ∧ ∀ cluster span,
        cluster ∈ clusters → span ∈ cluster →
        0 ≤ span.1 < n ∧ 0 ≤ span.2 < n ∧ (ordered = true → span.1 ≤ span.2).
Proof.
  intros Hspans. unfold _read_document. cbv zeta.
  pose proof (read_loop_closed_form (corefs sentences) [] (NoDup_nil_2))
    as Hloop.
  rewrite bool_decide_eq_true_2 in Hloop.
  2: { eapply Forall_impl; [exact Hspans|].
       intros m (e & -> & _) _. eauto. }
  destruct Hloop as (clusters' & -> & Hnd & Hkeys & Hget).
  rewrite bind_ret. eexists. split; [done|].
  intros cluster span Hcluster Hspan.
  rewrite (values_by_keys _ [] Hnd) in Hcluster.
  apply list_elem_of_fmap in Hcluster as (k & -> & _).
  rewrite Hget in Hspan. simpl in Hspan.
  apply elem_of_spans_labelled in Hspan as (m & e & Hm & Hend & ->).
  rewrite Forall_forall in Hspans.
  destruct (Hspans m Hm) as (e' & He' & Hs & He & Ho).
  rewrite Hend in He'. inversion He'; subst e'. done.
Qed.

(** X11.  The reader on the output of the conversion.  On the records of
    a conversion that starts from an object with an empty dictionary the
    reader raises nothing and yields one instance per record, in order.  The
    instance holds as many tokens as the record, and both members of every
    span of every cluster are indices into them; with [use_appos] off the
    first is not after the second. *)
Theorem reader_accepts_the_output data st st' output :
  _mention_dict st = [] →
  convert_tsv_to_jsonl data st = Ok (st', output) →
  ∃ instances,
    _read output = (instances, None) ∧
    Forall2
      (λ record instance,
         ∃ lowered clusters,
           instance = ([lowered], clusters) ∧
           Py.len lowered = Py.len (tokens record) ∧
           ∀ cluster span,
             cluster ∈ clusters → span ∈ cluster →
             0 ≤ span.1 < Py.len lowered ∧ 0 ≤ span.2 < Py.len lowered ∧
             (_use_appos st = false → span.1 ≤ span.2))
      output instances.
Proof.
  intros Hempty Hrun. unfold convert_tsv_to_jsonl in Hrun.
  pose proof (convert_loop_spans _ _ _ _ _ Hempty
                (λ r m (H : r ∈ []), False_ind _ (not_elem_of_nil _ H)) Hrun)
    as Hspans.
  clear Hrun. induction output as [|record output IH].
  - exists []. split; [done|constructor].
  - destruct IH as (instances & Hread & Hall).
    { intros r m Hr. apply Hspans. by right. }
    destruct (read_document_spans (Py.len (tokens record))
                (negb (_use_appos st)) record)
      as (clusters & Hdoc & Hin).
    { rewrite Forall_forall. intros m Hm. apply Hspans; [by left|done]. }
    exists (([str_lower <$> tokens record], clusters) :: instances). split.
    + cbn [_read]. by rewrite Hdoc, Hread.
    + constructor; [|done]. exists (str_lower <$> tokens record), clusters.
      rewrite str_lower_length. do 2 (split; [done|]).
      intros cluster span Hc Hs. destruct (Hin cluster span Hc Hs) as (?&?&Ho).
      do 2 (split; [done|]). intros Hoff. apply Ho. by rewrite Hoff.
Qed.

Lemma reader_accepts_the_output_witness :
  ∃ st' output instances,
    _mention_dict (__init__ false false false false) = []
    ∧ convert_tsv_to_jsonl docstring_paragraph
        (__init__ false false false false) = Ok (st', output)
    ∧ instances
      = [([["mas"; "ahmad"; "umur"; "45"; "tahun"; "dia"]],
          [[(0, 1); (5, 5)]])]
    ∧ _read output = (instances, None)
    ∧ Forall2
        (λ record instance,
           ∃ lowered clusters,
             instance = ([lowered], clusters) ∧
             Py.len lowered = Py.len (tokens record) ∧
             ∀ cluster span,
               cluster ∈ clusters → span ∈ cluster →
               0 ≤ span.1 < Py.len lowered ∧ 0 ≤ span.2 < Py.len lowered ∧
               (_use_appos (__init__ false false false false) = false →
                span.1 ≤ span.2))
        output instances.
Proof.
  destruct (convert_tsv_to_jsonl docstring_paragraph
              (__init__ false false false false))
    as [[st' output]|e] eqn:Hrun; [|vm_compute in Hrun; discriminate].
  destruct (reader_accepts_the_output docstring_paragraph
              (__init__ false false false false) st' output eq_refl Hrun)
    as (instances & Hread & Hall).
  exists st', output, instances. split; [reflexivity|]. split; [reflexivity|].
  split; [|split; [exact Hread|exact Hall]].
  pose proof Hrun as Hvalue. vm_compute in Hvalue. injection Hvalue as _ <-.
  vm_compute in Hread. by injection Hread as <-.
Defined.

(** ** When span extraction returns *)

Lemma elem_of_enumerate {A : Type} (l : list A) (i : Z) (x : A) :
  (i, x) ∈ Py.enumerate l → 0 ≤ i < Py.len l ∧ x ∈ l.
Proof.
  unfold Py.enumerate, Py.len. intros Hin. split.
  - apply elem_of_zip_l in Hin.
    apply list_elem_of_fmap in Hin as (j & -> & Hj%elem_of_seq). lia.
  - by apply elem_of_zip_r in Hin.
Qed.

Lemma enumerate_snd {A : Type} (l : list A) : (Py.enumerate l).*2 = l.
Proof.
  unfold Py.enumerate. apply snd_zip. by rewrite length_fmap, length_seq.
Qed.

Lemma index_raises {A : Type} (l : list A) (i : Z) e :
  Py.index l i = Raise e → e = IndexError.
Proof.
  unfold Py.index. destruct (_ <? 0); [by intros [= <-]|].
  destruct (l !! _); [done|by intros [= <-]].
Qed.

Lemma int_raises s e : Py.int s = Raise e → e = ValueError.
Proof. unfold Py.int. intros H. repeat case_match; by simplify_eq. Qed.

Lemma mention_id_of_raises label e :
  mention_id_of label = Raise e → e = IndexError ∨ e = ValueError.
Proof.
  unfold mention_id_of.
  destruct (Py.index (Py.split "[" label) 1) as [suffix|e'] eqn:Hsuffix.
  - rewrite bind_ret. intros ->%int_raises. by right.
  - simpl. intros [= <-]. left. by eapply index_raises.
Qed.

(** One label: the step returns exactly when the identifier of a label that
    is processed can be read. *)
Lemma extract_label_returns i label st :
  0 ≤ i < Py.len (_labels st) →
  match _extract_mentions_label i label st with
  | Ok _ => is_mention_label label = true → ∃ id, mention_id_of label = Ok id
  | Raise e =>
      is_mention_label label = true ∧ mention_id_of label = Raise e
  end.
Proof.
  intros Hi. unfold _extract_mentions_label, is_mention_label.
  destruct (is_link_label label); [done|].
  destruct (Py.strlen label =? 0); [done|]. cbn [negb andb].
  set (st1 := if String.eqb (label_prefix label) ""
              then print (PrintLabel label) st else st).
  assert (_mention_dict st1 = _mention_dict st ∧ _labels st1 = _labels st)
    as [Hd1 Hl1] by (unfold st1; by destruct (String.eqb _ _)).
  destruct (mention_id_of label) as [mention_id|e] eqn:Hid; [|done].
  rewrite bind_ret.
  set (st2 := if Dict.contains (_mention_dict st1) mention_id then st1
              else with_mention_dict
                     (Dict.setitem (_mention_dict st1) mention_id
                        (new_mention i)) st1).
  assert (_labels st2 = _labels st
          ∧ is_Some (Dict.get (_mention_dict st2) mention_id)) as [Hl2 Hg2].
  { unfold st2, Dict.contains.
    destruct (Dict.get (_mention_dict st1) mention_id) eqn:Hget.
    - split; [done|]. rewrite Hget. eauto.
    - split; [done|]. simpl. rewrite get_setitem_eq. eauto. }
  destruct (span_ends_returns (_labels st) i label Hi) as [ends_here Hends].
  rewrite Hl2, Hends, bind_ret. destruct ends_here; [|eauto].
  unfold Dict.getitem. destruct Hg2 as [m ->]. rewrite bind_ret. eauto.
Qed.

Lemma extract_labels_returns i label_list st :
  0 ≤ i < Py.len (_labels st) →
  match for_each (_extract_mentions_label i) label_list st with
  | Ok _ =>
      Forall (λ label,
                is_mention_label label = true →
                ∃ id, mention_id_of label = Ok id) label_list
  | Raise e =>
      (e = IndexError ∨ e = ValueError)
      ∧ ¬ Forall (λ label,
                    is_mention_label label = true →
                    ∃ id, mention_id_of label = Ok id) label_list
  end.
Proof.
  revert st. induction label_list as [|label label_list IH]; intros st Hi.
  - simpl. constructor.
  - cbn [for_each]. pose proof (extract_label_returns i label st Hi) as Hlabel.
    destruct (_extract_mentions_label i label st) as [s1|e] eqn:Hstep.
    + rewrite bind_ret.
      apply extract_label_frame in Hstep as (_ & _ & Hlabels).
      specialize (IH s1). rewrite Hlabels in IH. specialize (IH Hi).
      destruct (for_each _ label_list s1) as [s2|e].
      * by constructor.
      * destruct IH as [He Hno]. split; [done|].
        intros Hall. apply Hno. by inversion Hall.
    + simpl. destruct Hlabel as [Hml Hid]. split.
      * by eapply mention_id_of_raises.
      * intros Hall. inversion Hall as [|? ? Hparse _]; subst.
        destruct (Hparse Hml) as [id Hid']. congruence.
Qed.

Lemma extract_positions_returns (positions : list (Z * list Label)) st :
  Forall (λ p, 0 ≤ p.1 < Py.len (_labels st)) positions →
  match for_each _extract_mentions_position positions st with
  | Ok _ =>
      Forall (λ label_list,
                Py.mem "_" label_list = false →
                Forall (λ label,
                          is_mention_label label = true →
                          ∃ id, mention_id_of label = Ok id) label_list)
        positions.*2
  | Raise e =>
      (e = IndexError ∨ e = ValueError)
      ∧ ¬ Forall (λ label_list,
                    Py.mem "_" label_list = false →
                    Forall (λ label,
                              is_mention_label label = true →
                              ∃ id, mention_id_of label = Ok id) label_list)
            positions.*2
  end.
Proof.
  revert st. induction positions as [|[i label_list] positions IH];
    intros st Hrange.
  - simpl. constructor.
  - apply Forall_cons in Hrange as [Hi Hrange]. cbn [fst] in Hi.
    cbn [for_each fmap list_fmap snd].
    assert (match _extract_mentions_position (i, label_list) st with
            | Ok _ =>
                Py.mem "_" label_list = false →
                Forall (λ label,
                          is_mention_label label = true →
                          ∃ id, mention_id_of label = Ok id) label_list
            | Raise e =>
                (e = IndexError ∨ e = ValueError)
                ∧ ¬ (Py.mem "_" label_list = false →
                     Forall (λ label,
                               is_mention_label label = true →
                               ∃ id, mention_id_of label = Ok id) label_list)
            end) as Hposition.
    { unfold _extract_mentions_position. cbn [fst snd].
      destruct (Py.mem "_" label_list); [done|].
      pose proof (extract_labels_returns i label_list st Hi) as Hlabels.
      destruct (for_each _ label_list st); [done|].
      destruct Hlabels as [He Hno]. split; [done|]. intros Hall. by apply Hno, Hall. }
    destruct (_extract_mentions_position (i, label_list) st) as [s1|e] eqn:Hstep.
    + rewrite bind_ret.
      apply extract_position_frame in Hstep as (_ & _ & Hlabels).
      specialize (IH s1). rewrite Hlabels in IH. specialize (IH Hrange).
      destruct (for_each _ positions s1) as [s2|e].
      * by constructor.
      * destruct IH as [He Hno]. split; [done|].
        intros Hall. apply Hno. by inversion Hall.
    + simpl. destruct Hposition as [He Hno]. split; [done|].
      intros Hall. apply Hno. by inversion Hall.
Qed.

(** X12.  When span extraction returns.  Span extraction returns exactly
    when the identifier of every label it processes can be read: at every
    position that is not passed over, every label that holds no relation
    marker and is not empty has a second field after the opening bracket
    that, without its last character, reads as an integer.  Nothing else in
    it can fail: when it raises, the exception is [IndexError] (no opening
    bracket) or [ValueError] (no integer), never [KeyError]. *)
Theorem span_extraction_returns_iff_identifiers_parse st :
  ((∃ st', _extract_mentions st = Ok st') ↔
   Forall (λ label_list,
             Py.mem "_" label_list = false →
             Forall (λ label,
                       is_mention_label label = true →
                       ∃ id, mention_id_of label = Ok id) label_list)
     (_labels st))
  ∧ ∀ e, _extract_mentions st = Raise e → e = IndexError ∨ e = ValueError.
Proof.
  unfold _extract_mentions.
  pose proof (extract_positions_returns (Py.enumerate (_labels st)) st)
    as Hloop.
  rewrite enumerate_snd in Hloop.
  assert (Forall (λ p : Z * list Label, 0 ≤ p.1 < Py.len (_labels st))
            (Py.enumerate (_labels st))) as Hrange.
  { rewrite Forall_forall. intros [i label_list] Hin.
    by apply elem_of_enumerate in Hin as [? _]. }
  specialize (Hloop Hrange).
  destruct (for_each _ (Py.enumerate (_labels st)) st) as [st'|e].
  - split; [|done]. split; [done|eauto].
  - destruct Hloop as [He Hno]. split.
    + split; [by intros [? ?]|done].
    + by intros e' [= <-].
Qed.

(** ** Where a mention starts *)

Lemma processed_mention_start tokens i label previous ends_here :
  m_start (processed_mention tokens i label previous ends_here)
  = default i (m_start <$> previous).
Proof. unfold processed_mention. by destruct ends_here, previous. Qed.

Lemma extract_label_NoDup i label st st' :
  NoDup (Dict.keys (_mention_dict st)) →
  _extract_mentions_label i label st = Ok st' →
  NoDup (Dict.keys (_mention_dict st')).
Proof.
  intros Hnd. unfold _extract_mentions_label.
  destruct (is_link_label label); [by intros [= <-]|].
  destruct (Py.strlen label =? 0); [by intros [= <-]|].
  set (st1 := if String.eqb (label_prefix label) ""
              then print (PrintLabel label) st else st).
  assert (_mention_dict st1 = _mention_dict st) as Hd1
    by (unfold st1; by destruct (String.eqb _ _)).
  intros (mention_id & _ & H)%bind_Ok.
  set (st2 := if Dict.contains (_mention_dict st1) mention_id then st1
              else with_mention_dict
                     (Dict.setitem (_mention_dict st1) mention_id
                        (new_mention i)) st1) in H.
  assert (NoDup (Dict.keys (_mention_dict st2))) as Hnd2.
  { unfold st2. destruct (Dict.contains _ _); [by rewrite Hd1|].
    simpl. apply setitem_NoDup. by rewrite Hd1. }
  apply bind_Ok in H as (ends_here & _ & H).
  destruct ends_here; [|by inversion H; subst].
  apply bind_Ok in H as (m & Hm & H). inversion H; subst st'. clear H.
  simpl. by apply setitem_NoDup.
Qed.

Lemma start_label_step labels i label_list seen label st st' :
  _labels st = labels → 0 ≤ i →
  labels !! Z.to_nat i = Some label_list →
  Py.mem "_" label_list = false → label ∈ label_list →
  start_invariant labels i seen (_mention_dict st) →
  _extract_mentions_label i label st = Ok st' →
  start_invariant labels i (seen ++ [label]) (_mention_dict st').
Proof.
  intros Hlabels Hi Hlist Hmem Hin [Hnd Hinv] Hstep.
  split; [by eapply extract_label_NoDup|].
  apply extract_label_Ok in Hstep
    as [[Hno ->]|(Hml & id & ends_here & Hid & _ & Hget & Hother)].
  - intros k. specialize (Hinv k).
    destruct (Dict.get (_mention_dict st) k); [done|].
    destruct Hinv as [Hbefore Hseen]. split; [done|].
    intros label' [?|Heq%list_elem_of_singleton]%elem_of_app; [auto|].
    subst label'. congruence.
  - intros k. destruct (decide (k = id)) as [->|Hne].
    + rewrite Hget. rewrite processed_mention_start. specialize (Hinv id).
      destruct (Dict.get (_mention_dict st) id) as [m|]; [done|].
      destruct Hinv as [Hbefore _]. simpl. split.
      * exists label_list, label. by split_and!.
      * intros i' Hi'. destruct (decide (i ≤ i')); [done|].
        destruct (Hbefore i'); [lia|done].
    + rewrite (Hother k Hne). specialize (Hinv k).
      destruct (Dict.get (_mention_dict st) k); [done|].
      destruct Hinv as [Hbefore Hseen]. split; [done|].
      intros label' [?|Heq%list_elem_of_singleton]%elem_of_app; [auto|].
      subst label'. congruence.
Qed.

Lemma start_labels_loop labels i label_list rest :
  0 ≤ i → labels !! Z.to_nat i = Some label_list →
  Py.mem "_" label_list = false →
  ∀ seen st st',
    _labels st = labels → seen ++ rest = label_list →
    start_invariant labels i seen (_mention_dict st) →
    for_each (_extract_mentions_label i) rest st = Ok st' →
    start_invariant labels i label_list (_mention_dict st').
Proof.
  intros Hi Hlist Hmem.
  induction rest as [|label rest IH]; intros seen st st' Hl Hsplit Hinv Hrun.
  - rewrite app_nil_r in Hsplit. subst seen. simpl in Hrun.
    by injection Hrun as <-.
  - cbn [for_each] in Hrun. apply bind_Ok in Hrun as (s1 & Hstep & Hrun).
    apply (IH (seen ++ [label]) s1); [| | |done].
    + apply extract_label_frame in Hstep as (_ & _ & ->). done.
    + by rewrite <- app_assoc.
    + eapply start_label_step; [done..| |done|done].
      rewrite <- Hsplit. apply elem_of_app. right. by left.
Qed.

Lemma start_position_step labels (i : nat) label_list st st' :
  _labels st = labels →
  labels !! i = Some label_list →
  start_invariant labels (Z.of_nat i) [] (_mention_dict st) →
  _extract_mentions_position (Z.of_nat i, label_list) st = Ok st' →
  start_invariant labels (Z.of_nat i + 1) [] (_mention_dict st').
Proof.
  intros Hlabels Hlist Hinv. unfold _extract_mentions_position. cbn [fst snd].
  assert (∀ d,
            start_invariant labels (Z.of_nat i)
              (if Py.mem "_" label_list then [] else label_list) d →
            start_invariant labels (Z.of_nat i + 1) [] d) as Hnext.
  { intros d [Hnd Hd]. split; [done|]. intros k. specialize (Hd k).
    destruct (Dict.get d k); [done|]. destruct Hd as [Hbefore Hseen].
    split; [|by intros ? ?%elem_of_nil].
    intros i' Hi' (ll & label & Hpos & Hll & Hmem & Hin & Hml & Hid).
    destruct (decide (i' < Z.of_nat i)) as [Hlt|Hge].
    - apply (Hbefore i' Hlt). exists ll, label. by split_and!.
    - assert (i' = Z.of_nat i) as -> by lia. rewrite Nat2Z.id, Hlist in Hll.
      inversion Hll; subst ll. rewrite Hmem in Hseen. by eapply Hseen. }
  destruct (Py.mem "_" label_list) eqn:Hmem.
  - intros [= <-]. by apply Hnext.
  - intros Hrun. apply Hnext.
    eapply (start_labels_loop labels (Z.of_nat i) label_list label_list
              ltac:(lia) ltac:(by rewrite Nat2Z.id) Hmem [] st);
      [done|done|done|done].
Qed.

(** X13.  Where a mention starts.  After span extraction on an object with
    an empty dictionary, the keys of the dictionary are unique, the start of
    every mention is the first position at which one of its labels is
    processed, and an identifier with no entry has no label that is
    processed. *)
Theorem start_is_first_processed_position st st' k :
  _mention_dict st = [] →
  _extract_mentions st = Ok st' →
  NoDup (Dict.keys (_mention_dict st'))
  ∧ match Dict.get (_mention_dict st') k with
    | Some m =>
        processed_at (_labels st) k (m_start m) ∧
        ∀ i, processed_at (_labels st) k i → m_start m ≤ i
    | None => ∀ i, ¬ processed_at (_labels st) k i
    end.
Proof.
  intros Hempty Hrun.
  assert (start_invariant (_labels st) (Py.len (_labels st)) []
            (_mention_dict st') ∧ _labels st' = _labels st) as [[Hnd Hinv] _].
  { revert Hrun. unfold _extract_mentions.
    apply (for_each_enumerate_invariant
             (λ j s, start_invariant (_labels st) j [] (_mention_dict s)
                     ∧ _labels s = _labels st)).
    - intros i label_list s1 s2 Hlist [Hs1 Hl1] Hstep. split.
      + by eapply start_position_step.
      + apply extract_position_frame in Hstep as (_ & _ & ->). done.
    - split; [|done]. rewrite Hempty. split; [constructor|].
      intros k'. simpl. split; [|by intros ? ?%elem_of_nil].
      intros i' Hi' (ll & label & Hpos & _). lia. }
  split; [done|]. specialize (Hinv k).
  destruct (Dict.get (_mention_dict st') k); [done|].
  destruct Hinv as [Hbefore _]. intros i Hi. apply (Hbefore i); [|done].
  destruct Hi as (ll & label & Hpos & Hll & _).
  apply lookup_lt_Some in Hll. unfold Py.len. lia.
Qed.

Lemma start_is_first_processed_position_witness :
  ∃ st',
    _mention_dict two_token_run_state = []
    ∧ _extract_mentions two_token_run_state = Ok st'
    ∧ Dict.get (_mention_dict st') 1
      = Some {| m_start := 0; m_end := Some 1; m_text := Some ["a"; "b"];
                m_type := Some "NOUN"; m_label := None |}
    ∧ NoDup (Dict.keys (_mention_dict st'))
    ∧ match Dict.get (_mention_dict st') 1 with
      | Some m =>
          processed_at (_labels two_token_run_state) 1 (m_start m) ∧
          ∀ i, processed_at (_labels two_token_run_state) 1 i → m_start m ≤ i
      | None => ∀ i, ¬ processed_at (_labels two_token_run_state) 1 i
      end.
Proof.
  destruct (_extract_mentions two_token_run_state) as [st'|e] eqn:Hrun;
    [|vm_compute in Hrun; discriminate].
  exists st'. split; [reflexivity|]. split; [reflexivity|]. split.
  - pose proof Hrun as Hvalue. vm_compute in Hvalue. injection Hvalue as <-.
    reflexivity.
  - exact (start_is_first_processed_position two_token_run_state st' 1
             eq_refl Hrun).
Defined.

(** ** What fusion changes *)

Lemma fused_entry_refl use_appos tokens k before :
  fused_entry use_appos tokens [] k before before.
Proof.
  unfold fused_entry. destruct before as [m|]; [|done].
  exists m. split_and!; [done..|].
  unfold first_members. simpl. rewrite bool_decide_eq_false_2 by set_solver.
  by rewrite andb_false_r.
Qed.

Lemma first_members_cons t (tuples : list (list Z)) k :
  k ∈ first_members (t :: tuples) ↔ t !! 0%nat = Some k ∨ k ∈ first_members tuples.
Proof.
  unfold first_members. cbn [omap list_omap].
  destruct (t !! 0%nat) as [head|]; [|naive_solver].
  rewrite list_to_set_cons, elem_of_union, elem_of_singleton. naive_solver.
Qed.

(** One tuple. *)
Lemma handle_tuple_entry t st st' k :
  _handle_appositives_tuple t st = Ok st' →
  fused_entry (_use_appos st) (_tokens st) [t] k
    (Dict.get (_mention_dict st) k) (Dict.get (_mention_dict st') k).
Proof.
  intros Hstep. destruct (_use_appos st) eqn:Happos.
  - apply handle_tuple_exact in Hstep
      as (second & head & last & hi & li & e & new_end & _ & Hhead & _ & Hget
          & _ & _ & _ & ->); [|done].
    apply index_Ok_lookup in Hhead; [|done].
    change (Z.to_nat 0) with 0%nat in Hhead.
    cbn [_mention_dict with_mention_dict].
    unfold fused_entry. cbn [andb].
    destruct (decide (k = head)) as [->|Hne].
    + rewrite Hget, get_setitem_eq. eexists. split; [done|].
      rewrite bool_decide_eq_true_2 by (apply first_members_cons; by left).
      unfold fused_mention. simpl. split_and!; [done..|]. eauto.
    + rewrite get_setitem_ne by done.
      destruct (Dict.get (_mention_dict st) k) as [m|]; [|done].
      exists m. split_and!; [done..|].
      rewrite bool_decide_eq_false_2; [done|].
      intros [?|Hin]%first_members_cons; [congruence|].
      unfold first_members in Hin. set_solver.
  - apply handle_tuple_Ok in Hstep as (second & _ & [[_ ->]|[? _]]);
      [|congruence].
    simpl. unfold fused_entry.
    destruct (Dict.get (_mention_dict st) k) as [m|]; [|done]. by exists m.
Qed.

Lemma fused_entry_trans use_appos tokens t tuples k before between after :
  fused_entry use_appos tokens [t] k before between →
  fused_entry use_appos tokens tuples k between after →
  fused_entry use_appos tokens (t :: tuples) k before after.
Proof.
  unfold fused_entry. destruct before as [m|]; [|by intros ->].
  intros (m1 & -> & Hs1 & Ht1 & Hl1 & H1) (m2 & -> & Hs2 & Ht2 & Hl2 & H2).
  exists m2. split_and!; [done|congruence..|].
  destruct use_appos; [|simpl in *; congruence]. cbn [andb] in *.
  destruct (decide (k ∈ first_members tuples)) as [Hin|Hin].
  - rewrite bool_decide_eq_true_2 in H2 by done.
    rewrite bool_decide_eq_true_2 by (apply first_members_cons; by right).
    by rewrite <- Hs1.
  - rewrite bool_decide_eq_false_2 in H2 by done. subst m2.
    destruct (decide (k ∈ first_members [t])) as [Hin1|Hin1].
    + rewrite bool_decide_eq_true_2 in H1 by done.
      rewrite bool_decide_eq_true_2; [done|].
      apply first_members_cons. apply first_members_cons in Hin1.
      destruct Hin1 as [?|Hnil]; [by left|]. unfold first_members in Hnil.
      set_solver.
    + rewrite bool_decide_eq_false_2 in H1 by done.
      rewrite bool_decide_eq_false_2; [done|].
      intros [?|?]%first_members_cons; [|done].
      apply Hin1, first_members_cons. by left.
Qed.

Lemma handle_tuples_entry tuples st st' k :
  for_each _handle_appositives_tuple tuples st = Ok st' →
  fused_entry (_use_appos st) (_tokens st) tuples k
    (Dict.get (_mention_dict st) k) (Dict.get (_mention_dict st') k).
Proof.
  revert st. induction tuples as [|t tuples IH]; intros st Hrun.
  - simpl in Hrun. injection Hrun as <-. apply fused_entry_refl.
  - cbn [for_each] in Hrun. apply bind_Ok in Hrun as (s1 & Hstep & Hrun).
    pose proof (handle_tuple_frame _ _ _ Hstep) as (_ & ((Ha & _) & Htok & _) & _).
    eapply fused_entry_trans; [by apply handle_tuple_entry|].
    rewrite <- Ha, <- Htok. by apply IH.
Qed.

(** X14.  What fusion changes.  The handling of appositives keeps the keys
    of the dictionary and their order, and keeps the start, the type and the
    label of every entry.  With [use_appos] off it changes no entry.  With
    [use_appos] on it changes only the entries of the heads, the smallest
    identifiers of the appositive clusters; a head is left with an end and
    with the tokens from its start to that end as text. *)
Theorem fusion_changes_heads_only appositive_pairs st st' k :
  _handle_appositives appositive_pairs st = Ok st' →
  Dict.keys (_mention_dict st') = Dict.keys (_mention_dict st)
  ∧ fused_entry (_use_appos st) (_tokens st)
      (sorted_tuple <$> _group_mentions_into_clusters appositive_pairs) k
      (Dict.get (_mention_dict st) k) (Dict.get (_mention_dict st') k).
Proof.
  intros Hrun. split.
  - by apply handle_appositives_frame in Hrun as (? & _).
  - by apply handle_tuples_entry.
Qed.

Lemma fusion_changes_heads_only_witness :
  ∃ st st',
    _extract_mentions
      (paragraph_state true false false false ["a"; "b"; "c"]
         (linked_appositive_labels "IDENT[1_3]")) = Ok st
    ∧ _handle_appositives [(1, 2)] st = Ok st'
    ∧ Dict.get (_mention_dict st') 1
      = Some {| m_start := 0; m_end := Some 1; m_text := Some ["a"; "b"];
                m_type := Some "NOUN"; m_label := None |}
    ∧ Dict.keys (_mention_dict st') = Dict.keys (_mention_dict st)
    ∧ fused_entry (_use_appos st) (_tokens st)
        (sorted_tuple <$> _group_mentions_into_clusters [(1, 2)]) 1
        (Dict.get (_mention_dict st) 1) (Dict.get (_mention_dict st') 1).
Proof.
  destruct (_extract_mentions
              (paragraph_state true false false false ["a"; "b"; "c"]
                 (linked_appositive_labels "IDENT[1_3]")))
    as [st|e] eqn:Hextract; [|vm_compute in Hextract; discriminate].
  destruct (_handle_appositives [(1, 2)] st) as [st'|e] eqn:Hrun.
  - exists st, st'. split; [reflexivity|]. split; [exact Hrun|]. split.
    + vm_compute in Hextract. injection Hextract as <-.
      vm_compute in Hrun. injection Hrun as <-. reflexivity.
    + exact (fusion_changes_heads_only [(1, 2)] st st' 1 Hrun).
  - vm_compute in Hextract. injection Hextract as <-.
    vm_compute in Hrun. discriminate.
Defined.

(** ** The statistics at the end of a conversion *)

Lemma link_label_no_link label acc :
  is_link_label label = false →
  _extract_coreference_links_label label acc = Ok acc.
Proof. intros Hno. unfold _extract_coreference_links_label. by rewrite Hno. Qed.

Lemma read_links_no_link st :
  Forall (Forall (λ label, is_link_label label = false)) (_labels st) →
  read_links st = Ok (no_links st).
Proof.
  unfold read_links. generalize (no_links st).
  induction (_labels st) as [|label_list labels IH]; intros acc Hall; [done|].
  apply Forall_cons in Hall as [Hlist Hall]. cbn [for_each].
  assert (for_each _extract_coreference_links_label label_list acc = Ok acc)
    as ->.
  { clear IH Hall. induction label_list as [|label label_list IH]; [done|].
    apply Forall_cons in Hlist as [Hlabel Hlist]. cbn [for_each].
    rewrite link_label_no_link by done. rewrite bind_ret. by apply IH. }
  rewrite bind_ret. by apply IH.
Qed.

(** A paragraph with no relation label ends with no cluster. *)
Lemma get_coref_info_no_link st st' :
  Forall (Forall (λ label, is_link_label label = false)) (_labels st) →
  get_coref_info st = Ok st' → _clusters st' = [].
Proof.
  intros Hno. unfold get_coref_info.
  intros (s1 & Hs1 & H)%bind_Ok.
  apply bind_Ok in H as (s2 & Hs2 & H).
  apply bind_Ok in H as (s3 & Hs3 & H).
  apply bind_Ok in H as (s4 & Hs4 & H).
  apply extract_mentions_frame in Hs1 as (_ & _ & Hlabels).
  assert (_clusters s2 = []) as H2.
  { unfold _extract_coreference_links in Hs2.
    rewrite read_links_no_link in Hs2 by (by rewrite Hlabels).
    rewrite bind_ret in Hs2. cbn [mention_pairs appositive_pairs no_links self] in Hs2.
    apply bind_Ok in Hs2 as (sb & _ & Hs2).
    apply bind_Ok in Hs2 as (sc & _ & Hs2). by inversion Hs2. }
  apply assign_exact in Hs3.
  assert (_clusters s3 = []) as H3 by (by subst s3).
  assert (_clusters s4 = []) as H4.
  { destruct (negb (_use_aliases s3)); [|by inversion Hs4; subst].
    rewrite remove_aliases_loop in Hs4. apply remove_loop_exact in Hs4.
    subst s4. simpl. by rewrite H3. }
  destruct (negb (_use_exappos s4)); [|by inversion H; subst].
  rewrite remove_exappos_loop in H. apply remove_loop_exact in H.
  subst st'. simpl. by rewrite H4.
Qed.

Lemma convert_paragraph_no_link paragraph st out st' out' :
  Forall (Forall (λ label, is_link_label label = false))
    (paragraph_labels paragraph) →
  convert_paragraph paragraph (st, out) = Ok (st', out') →
  cluster_count (_statistics st') = cluster_count (_statistics st).
Proof.
  intros Hno. unfold convert_paragraph.
  intros (s1 & Hs1 & H)%bind_Ok.
  apply bind_Ok in H as (s2 & Hs2 & H).
  apply bind_Ok in H as (s3 & Hs3 & H). inversion H; subst st' out'; clear H.
  apply get_paragraph_data_exact in Hs1. subst s1.
  assert (_clusters s2 = []) as Hclusters
    by (eapply get_coref_info_no_link; [|exact Hs2]; exact Hno).
  apply get_coref_info_frame in Hs2 as [_ (_ & _ & _ & _ & _ & Hc)].
  unfold _accumulate_mention_type_counts in Hs3.
  apply accumulate_loop_counts in Hs3 as (counts & -> & _).
  simpl in *. rewrite Hclusters, Hc. unfold Py.len. simpl. lia.
Qed.

Lemma convert_loop_no_link paragraphs st out st' out' :
  Forall (λ paragraph,
            Forall (Forall (λ label, is_link_label label = false))
              (paragraph_labels paragraph)) paragraphs →
  for_each convert_paragraph paragraphs (st, out) = Ok (st', out') →
  cluster_count (_statistics st') = cluster_count (_statistics st).
Proof.
  revert st out. induction paragraphs as [|p ps IH]; intros st out Hno H.
  - simpl in H. by inversion H.
  - apply Forall_cons in Hno as [Hp Hps]. cbn [for_each] in H.
    apply bind_Ok in H as ([s1 out1] & Hstep & H).
    apply (convert_paragraph_no_link _ _ _ _ _ Hp) in Hstep.
    rewrite <- Hstep. by eapply IH.
Qed.

Lemma log_zero_division st :
  paragraph_count (_statistics st) ≠ 0 →
  (∃ lines, log_dataset_statistics st = ZeroDivisionError lines)
  ↔ cluster_count (_statistics st) = 0.
Proof.
  intros Hp. unfold log_dataset_statistics. cbv zeta.
  destruct (Z.eqb_spec (paragraph_count (_statistics st)) 0); [done|].
  destruct (Z.eqb_spec (cluster_count (_statistics st)) 0) as [Hc|Hc].
  - split; [done|eauto].
  - split; [by intros [? ?]|done].
Qed.

(** X16.  Data with no relation label.  When no label of the input holds a
    relation marker, no paragraph leaves a cluster, and the call that prints
    the statistics at the end of a conversion by a new object ends with
    [ZeroDivisionError], after the records have been emitted. *)
Theorem unlinked_data_breaks_the_statistics
  use_appos use_exappos use_aliases remove_singletons data st' output :
  Forall (λ paragraph,
            Forall (Forall (λ label, is_link_label label = false))
              (paragraph_labels paragraph))
    (Py.split (newline +:+ newline) data) →
  convert_tsv_to_jsonl data
    (__init__ use_appos use_exappos use_aliases remove_singletons)
  = Ok (st', output) →
  ∃ lines, log_dataset_statistics st' = ZeroDivisionError lines.
Proof.
  intros Hno Hrun.
  assert (paragraph_count (_statistics st') ≠ 0) as Hp.
  { unfold convert_tsv_to_jsonl in Hrun.
    pose proof (split_nonempty (newline +:+ newline) data) as Hne.
    apply convert_loop_step in Hrun as (new & -> & Hall & _ & _ & Hp & _).
    rewrite Hp. simpl. destruct new; [|unfold Py.len; simpl; lia].
    by apply Forall2_nil_inv_r in Hall. }
  apply log_zero_division; [done|].
  unfold convert_tsv_to_jsonl in Hrun.
  by rewrite (convert_loop_no_link _ _ _ _ _ Hno Hrun).
Qed.

Lemma unlinked_data_breaks_the_statistics_witness :
  ∃ st' output,
    Forall (λ paragraph,
              Forall (Forall (λ label, is_link_label label = false))
                (paragraph_labels paragraph))
      (Py.split (newline +:+ newline) plain_paragraph)
    ∧ convert_tsv_to_jsonl plain_paragraph (__init__ false false false false)
      = Ok (st', output)
    ∧ ∃ lines, log_dataset_statistics st' = ZeroDivisionError lines.
Proof.
  assert (Forall (λ paragraph,
                    Forall (Forall (λ label, is_link_label label = false))
                      (paragraph_labels paragraph))
            (Py.split (newline +:+ newline) plain_paragraph)) as Hno.
  { vm_compute. repeat constructor. }
  destruct (convert_tsv_to_jsonl plain_paragraph
              (__init__ false false false false))
    as [[st' output]|e] eqn:Hrun; [|vm_compute in Hrun; discriminate].
  exists st', output. split; [exact Hno|]. split; [reflexivity|].
  exact (unlinked_data_breaks_the_statistics false false false false
           plain_paragraph st' output Hno Hrun).
Defined.

(** ** Paragraphs are processed on their own *)

Lemma core_eq st1 st2 :
  core st1 = core st2 ↔
  same_context st1 st2 ∧ _text st2 = _text st1 ∧
  _mention_dict st2 = _mention_dict st1 ∧ _clusters st2 = _clusters st1.
Proof.
  unfold core, same_context, same_input, same_flags.
  destruct st1, st2. simpl. split.
  - intros [=]. subst. by repeat split.
  - intros ((((?&?&?&?)&?&?)&?&?&?)&?&?&?). by subst.
Qed.

Lemma reads_core_bind {St A B : Type} (pr : St → St) (prA : A → A)
  (prB : B → B) (f : St → result A) (g : A → result B) :
  reads_core pr prA f →
  (∀ a1 a2, prA a1 = prA a2 → prB <$> g a1 = prB <$> g a2) →
  reads_core pr prB (λ s, f s ≫= g).
Proof.
  intros Hf Hg s1 s2 Hs. specialize (Hf s1 s2 Hs).
  destruct (f s1) as [a1|e1], (f s2) as [a2|e2]; simpl in *; try done.
  - apply Hg. by inversion Hf.
  - by inversion Hf.
Qed.

Lemma for_each_reads_core {St A : Type} (pr : St → St)
  (body : A → St → result St) (l : list A) :
  (∀ x, reads_core pr pr (body x)) → reads_core pr pr (for_each body l).
Proof.
  intros Hbody. induction l as [|x l IH]; intros s1 s2 Hs.
  - simpl. by rewrite Hs.
  - cbn [for_each]. by apply (reads_core_bind pr pr pr (body x) (for_each body l)).
Qed.

Lemma extract_label_reads_core i label :
  reads_core core core (_extract_mentions_label i label).
Proof.
  intros s1 s2 Hs. destruct s1, s2. unfold core in Hs. simpl in Hs.
  injection Hs as ?. subst. unfold _extract_mentions_label.
  repeat (cbv [mbind result_bind Dict.getitem Dict.contains]; simpl;
          case_match; simplify_eq/=); try done.
Qed.

Lemma extract_position_reads_core p :
  reads_core core core (_extract_mentions_position p).
Proof.
  intros s1 s2 Hs. unfold _extract_mentions_position.
  destruct (Py.mem "_" p.2); [simpl; by rewrite Hs|].
  apply for_each_reads_core; [|done]. intros label.
  apply extract_label_reads_core.
Qed.

Lemma extract_mentions_reads_core : reads_core core core _extract_mentions.
Proof.
  intros s1 s2 Hs. unfold _extract_mentions.
  assert (_labels s1 = _labels s2) as ->
    by (apply core_eq in Hs as (((_ & _ & ?) & _) & _); done).
  apply for_each_reads_core; [|done]. apply extract_position_reads_core.
Qed.

Lemma link_label_reads_core label :
  reads_core core_links core_links (_extract_coreference_links_label label).
Proof.
  intros [s1 mps1 aps1] [s2 mps2 aps2] Hs. destruct s1, s2.
  unfold core_links, core in Hs. simpl in Hs.
  injection Hs as ?. subst. unfold _extract_coreference_links_label.
  repeat (cbv [mbind result_bind Dict.getitem Dict.contains]; simpl;
          case_match; simplify_eq/=); try done.
Qed.

Lemma read_links_reads_core : reads_core core core_links read_links.
Proof.
  intros s1 s2 Hs. unfold read_links.
  assert (_labels s1 = _labels s2) as ->
    by (apply core_eq in Hs as (((_ & _ & ?) & _) & _); done).
  apply (for_each_reads_core core_links).
  - intros label_list. apply for_each_reads_core. apply link_label_reads_core.
  - unfold core_links, no_links. simpl. by rewrite Hs.
Qed.

Lemma report_absent_core pairs st : core (report_absent pairs st) = core st.
Proof.
  unfold report_absent. revert st.
  induction pairs as [|p pairs IH]; intros st; [done|]. simpl.
  rewrite IH. by destruct (_ || _).
Qed.

Lemma handle_tuple_reads_core t :
  reads_core core core (_handle_appositives_tuple t).
Proof.
  intros s1 s2 Hs. destruct s1, s2. unfold core in Hs. simpl in Hs.
  injection Hs as ?. subst. unfold _handle_appositives_tuple, update_mention.
  repeat (cbv [mbind result_bind Dict.getitem Dict.contains field]; simpl;
          case_match; simplify_eq/=); try done.
Qed.

Lemma handle_appositives_reads_core appositive_pairs :
  reads_core core core (_handle_appositives appositive_pairs).
Proof.
  unfold _handle_appositives. apply for_each_reads_core.
  apply handle_tuple_reads_core.
Qed.

Lemma drop_appositives_reads_core pairs :
  reads_core core core (drop_appositives pairs).
Proof.
  intros s1 s2 Hs. unfold drop_appositives.
  assert (_appos_mentions s1 = _appos_mentions s2) as ->
    by (apply core_eq in Hs as ((_ & _ & _ & ?) & _); done).
  apply for_each_reads_core; [|done]. clear s1 s2 Hs.
  intros mention s1 s2 Hs. destruct s1, s2. unfold core in Hs. simpl in Hs.
  injection Hs as ?. subst.
  repeat (cbv [mbind result_bind Dict.pop]; simpl;
          case_match; simplify_eq/=); try done.
Qed.

Lemma with_clusters_core clusters s1 s2 :
  core s1 = core s2 →
  core (with_clusters clusters s1) = core (with_clusters clusters s2).
Proof.
  destruct s1, s2. unfold core. simpl. intros [=]. by subst.
Qed.

Lemma extract_coreference_links_reads_core :
  reads_core core core _extract_coreference_links.
Proof.
  intros s1 s2 Hs. unfold _extract_coreference_links.
  pose proof (read_links_reads_core s1 s2 Hs) as Hlinks.
  destruct (read_links s1) as [l1|e1], (read_links s2) as [l2|e2];
    simpl in Hlinks; try done; try (by inversion Hlinks).
  rewrite !bind_ret.
  assert (core_links l1 = core_links l2) as Hl by congruence.
  pose proof (f_equal self Hl) as Hself.
  pose proof (f_equal mention_pairs Hl) as Hmps.
  pose proof (f_equal appositive_pairs Hl) as Haps.
  cbn [core_links self mention_pairs appositive_pairs] in Hself, Hmps, Haps.
  rewrite Hmps, Haps.
  assert (core (report_absent (mention_pairs l2) (self l1))
          = core (report_absent (mention_pairs l2) (self l2))) as Hreport
    by (by rewrite !report_absent_core).
  pose proof (handle_appositives_reads_core (appositive_pairs l2) _ _ Hreport)
    as Hhandle.
  destruct (_handle_appositives _ (report_absent _ (self l1))) as [b1|e1],
    (_handle_appositives _ (report_absent _ (self l2))) as [b2|e2];
    simpl in Hhandle; try done; try (by inversion Hhandle).
  rewrite !bind_ret. assert (core b1 = core b2) as Hb by congruence.
  pose proof (drop_appositives_reads_core (mention_pairs l2) _ _ Hb) as Hdrop.
  destruct (drop_appositives _ b1) as [c1|e1],
    (drop_appositives _ b2) as [c2|e2]; simpl in Hdrop; try done;
    try (by inversion Hdrop).
  rewrite !bind_ret. simpl. f_equal. assert (core c1 = core c2) by congruence.
  by apply with_clusters_core.
Qed.

Lemma pop_mention_reads_core mention_id :
  reads_core core core (pop_mention mention_id).
Proof.
  intros s1 s2 Hs. destruct s1, s2. unfold core in Hs. simpl in Hs.
  injection Hs as ?. subst. unfold pop_mention.
  repeat (cbv [mbind result_bind Dict.pop]; simpl;
          case_match; simplify_eq/=); try done.
Qed.

Lemma remove_mention_reads_core mention_id :
  reads_core core core (remove_mention mention_id).
Proof.
  intros s1 s2 Hs. destruct s1, s2. unfold core in Hs. simpl in Hs.
  injection Hs as ?. subst. unfold remove_mention, pop_mention.
  repeat (cbv [mbind result_bind Dict.pop]; simpl;
          case_match; simplify_eq/=); try done.
Qed.

Lemma core_with_statistics statistics st :
  core (with_statistics statistics st) = core st.
Proof. by destruct st. Qed.

Lemma with_mention_dict_core d s1 s2 :
  core s1 = core s2 →
  core (with_mention_dict d s1) = core (with_mention_dict d s2).
Proof.
  destruct s1, s2. unfold core. simpl. intros [=]. by subst.
Qed.

Lemma assign_reads_core : reads_core core core _assign_mentions_to_clusters.
Proof.
  intros s1 s2 Hs. unfold _assign_mentions_to_clusters.
  rewrite !label_mentions_exact. cbn [app].
  pose proof Hs as (((Hflags & _) & _) & _ & Hd & Hc)%core_eq.
  pose proof Hflags as (_ & _ & _ & Hrs).
  change (_remove_singletons (with_statistics ?s (with_mention_dict ?d ?st)))
    with (_remove_singletons st).
  rewrite Hd, Hc, Hrs.
  set (d1 := omap (assigned_entry (_clusters s1) false) (_mention_dict s1)).
  assert (∀ x y,
            core (with_statistics x (with_mention_dict d1 s1))
            = core (with_statistics y (with_mention_dict d1 s2))) as Hcore
    by (intros x y; rewrite !core_with_statistics;
        by apply with_mention_dict_core).
  destruct (_remove_singletons s1).
  - apply for_each_reads_core; [|apply Hcore]. apply pop_mention_reads_core.
  - simpl. f_equal. apply Hcore.
Qed.

Lemma remove_aliases_reads_core : reads_core core core _remove_aliases.
Proof.
  intros s1 s2 Hs. rewrite !remove_aliases_loop.
  assert (_aliases s1 = _aliases s2) as ->
    by (apply core_eq in Hs as ((_ & ? & _) & _); done).
  apply for_each_reads_core; [|done]. apply remove_mention_reads_core.
Qed.

Lemma remove_exappos_reads_core : reads_core core core _remove_exappos.
Proof.
  intros s1 s2 Hs. rewrite !remove_exappos_loop.
  assert (_exappos_mentions s1 = _exappos_mentions s2) as ->
    by (apply core_eq in Hs as ((_ & _ & ? & _) & _); done).
  apply for_each_reads_core; [|done]. apply remove_mention_reads_core.
Qed.

Lemma core_flags s1 s2 : core s1 = core s2 → same_flags s1 s2.
Proof. by intros (((? & _) & _) & _)%core_eq. Qed.

Lemma get_coref_info_reads_core : reads_core core core get_coref_info.
Proof.
  unfold get_coref_info.
  apply reads_core_bind with (prA := core);
    [apply extract_mentions_reads_core|]. intros a1 a2 Ha.
  apply (reads_core_bind core core core _extract_coreference_links);
    [apply extract_coreference_links_reads_core| |done]. clear a1 a2 Ha.
  intros a1 a2 Ha.
  apply (reads_core_bind core core core _assign_mentions_to_clusters);
    [apply assign_reads_core| |done]. clear a1 a2 Ha.
  intros a1 a2 Ha.
  apply (reads_core_bind core core core
           (λ st, if negb (_use_aliases st) then _remove_aliases st else Ok st));
    [| |done].
  - intros s1 s2 Hs. pose proof (core_flags _ _ Hs) as (_ & _ & -> & _).
    destruct (negb (_use_aliases s1)); [by apply remove_aliases_reads_core|].
    simpl. by rewrite Hs.
  - clear a1 a2 Ha. intros s1 s2 Hs.
    pose proof (core_flags _ _ Hs) as (_ & -> & _).
    destruct (negb (_use_exappos s1)); [by apply remove_exappos_reads_core|].
    simpl. by rewrite Hs.
Qed.

Lemma get_paragraph_data_reads_core paragraph :
  reads_core core core (get_paragraph_data paragraph).
Proof.
  intros s1 s2 Hs. destruct s1, s2. unfold core in Hs. simpl in Hs.
  injection Hs as ?. subst. unfold get_paragraph_data.
  repeat (cbv [mbind result_bind]; simpl; case_match; simplify_eq/=);
    try done.
Qed.

Lemma accumulate_reads_core :
  reads_core core core _accumulate_mention_type_counts.
Proof.
  intros s1 s2 Hs. unfold _accumulate_mention_type_counts.
  assert (_mention_dict s1 = _mention_dict s2) as ->
    by (apply core_eq in Hs as (_ & _ & ? & _); done).
  apply for_each_reads_core; [|done]. clear s1 s2 Hs.
  intros mention s1 s2 Hs. destruct s1, s2. unfold core in Hs. simpl in Hs.
  injection Hs as ?. subst.
  repeat (cbv [mbind result_bind field]; simpl; case_match; simplify_eq/=);
    try done.
Qed.

Lemma reset_core s1 s2 : core s1 = core s2 → core (reset s1) = core (reset s2).
Proof. destruct s1, s2. unfold core, reset. simpl. intros [=]. by subst. Qed.

(** The record of a paragraph and the core the object is left with depend
    on the core of the object only. *)
Lemma convert_paragraph_reads_core paragraph s1 s2 out :
  core s1 = core s2 →
  prod_map core id <$> convert_paragraph paragraph (s1, out)
  = prod_map core id <$> convert_paragraph paragraph (s2, out).
Proof.
  intros Hs. unfold convert_paragraph.
  pose proof (get_paragraph_data_reads_core paragraph s1 s2 Hs) as H1.
  destruct (get_paragraph_data paragraph s1) as [a1|e1],
    (get_paragraph_data paragraph s2) as [a2|e2]; simpl in H1; try done; try (by inversion H1).
  rewrite !bind_ret. assert (core a1 = core a2) as Ha by congruence.
  pose proof (get_coref_info_reads_core a1 a2 Ha) as H2.
  destruct (get_coref_info a1) as [b1|e1], (get_coref_info a2) as [b2|e2];
    simpl in H2; try done; try (by inversion H2).
  rewrite !bind_ret. assert (core b1 = core b2) as Hb by congruence.
  pose proof Hb as (((_ & Htok & _) & _) & Htext & Hd & _)%core_eq.
  rewrite Htok, Htext, Hd.
  assert (core (with_statistics (count_paragraph b1) b1)
          = core (with_statistics (count_paragraph b2) b2)) as Hc
    by (by rewrite !core_with_statistics).
  pose proof (accumulate_reads_core _ _ Hc) as H3.
  destruct (_accumulate_mention_type_counts (with_statistics _ b1)) as [c1|e1],
    (_accumulate_mention_type_counts (with_statistics _ b2)) as [c2|e2];
    simpl in H3; try done; try (by inversion H3).
  rewrite !bind_ret. simpl. unfold prod_map. simpl. do 2 f_equal.
  apply reset_core. congruence.
Qed.

Lemma convert_paragraph_output paragraph st out :
  convert_paragraph paragraph (st, out)
  = prod_map id (out ++.) <$> convert_paragraph paragraph (st, []).
Proof.
  unfold convert_paragraph.
  destruct (get_paragraph_data paragraph st) as [s1|e]; [|done].
  rewrite !bind_ret. destruct (get_coref_info s1) as [s2|e]; [|done].
  rewrite !bind_ret.
  destruct (_accumulate_mention_type_counts _) as [s3|e]; [|done].
  by rewrite !bind_ret.
Qed.

Lemma exappos_grows_refl st : exappos_grows st st.
Proof. split; [done|]. exists []. by rewrite app_nil_r. Qed.

Lemma exappos_grows_trans st1 st2 st3 :
  exappos_grows st1 st2 → exappos_grows st2 st3 → exappos_grows st1 st3.
Proof.
  intros [Hf1 (m1 & H1 & Hn1)] [Hf2 (m2 & H2 & Hn2)]. split; [congruence|].
  exists (m1 ++ m2). split; [by rewrite H2, H1, app_assoc|].
  intros Hon. rewrite Hn1, Hn2 by congruence. done.
Qed.

Lemma same_context_grows st st' : same_context st st' → exappos_grows st st'.
Proof.
  intros (((_ & Hf & _) & _) & _ & He & _). split; [done|].
  exists []. by rewrite app_nil_r.
Qed.

Lemma extract_label_context i label st st' :
  _extract_mentions_label i label st = Ok st' → same_context st st'.
Proof.
  destruct st. unfold _extract_mentions_label.
  repeat (cbv [mbind result_bind Dict.getitem Dict.contains]; simpl;
          case_match; simplify_eq/=); try done;
    intros; simplify_eq/=; by repeat split.
Qed.

Lemma extract_mentions_context st st' :
  _extract_mentions st = Ok st' → same_context st st'.
Proof.
  unfold _extract_mentions.
  apply (for_each_invariant (same_context st)); [|apply same_context_refl].
  intros [i label_list] s1 s2 _ Hs1. unfold _extract_mentions_position.
  simpl. destruct (Py.mem "_" label_list); [by intros [= <-]|].
  apply (for_each_invariant (same_context st)); [|done].
  intros label t1 t2 _ Ht1 Hstep%extract_label_context.
  by eapply same_context_trans.
Qed.

Lemma link_label_grows label acc acc' :
  _extract_coreference_links_label label acc = Ok acc' →
  exappos_grows (self acc) (self acc').
Proof.
  destruct acc as [st mps aps]. destruct st.
  unfold _extract_coreference_links_label, exappos_grows.
  repeat (cbv [mbind result_bind]; simpl; case_match; simplify_eq/=);
    try done; intros; simplify_eq/=;
    (split; [done|]);
    first [ by (exists []; rewrite app_nil_r)
          | eexists; split; [done|]; intros Hon; by rewrite Hon in * ].
Qed.

Lemma read_links_grows st links :
  read_links st = Ok links → exappos_grows st (self links).
Proof.
  unfold read_links.
  apply (for_each_invariant (λ acc, exappos_grows st (self acc)));
    [|apply exappos_grows_refl].
  intros label_list acc1 acc2 _ Hacc1.
  apply (for_each_invariant (λ acc, exappos_grows st (self acc))); [|done].
  intros label a1 a2 _ H1 Hstep%link_label_grows.
  by eapply exappos_grows_trans.
Qed.

Lemma get_coref_info_grows st st' :
  get_coref_info st = Ok st' → exappos_grows st st'.
Proof.
  unfold get_coref_info.
  intros (s1 & Hs1%extract_mentions_context%same_context_grows & H)%bind_Ok.
  apply bind_Ok in H as (s2 & Hs2 & H).
  apply bind_Ok in H as (s3 & Hs3 & H).
  apply bind_Ok in H as (s4 & Hs4 & H).
  assert (exappos_grows s1 s2) as H2.
  { unfold _extract_coreference_links in Hs2.
    apply bind_Ok in Hs2 as (links & Hlinks%read_links_grows & Hs2).
    apply bind_Ok in Hs2 as (sb & Hsb & Hs2).
    apply bind_Ok in Hs2 as (sc & Hsc & Hs2). inversion Hs2; subst s2.
    destruct (report_absent_frame (mention_pairs links) (self links))
      as (_ & Hra%same_context_grows).
    apply handle_appositives_frame in Hsb as (_ & ((_ & Hf & _) & _) & _ & He).
    apply drop_appositives_Ok in Hsc as (Hc%same_context_grows & _).
    eapply exappos_grows_trans; [exact Hlinks|].
    eapply exappos_grows_trans; [exact Hra|].
    eapply exappos_grows_trans; [|eapply exappos_grows_trans; [exact Hc|]].
    - split; [done|]. exists []. by rewrite app_nil_r.
    - split; [done|]. exists []. by rewrite app_nil_r. }
  apply assign_Ok in Hs3 as (H3%same_context_grows & _).
  assert (exappos_grows s3 s4) as H4.
  { destruct (negb (_use_aliases s3));
      [|inversion Hs4; subst; apply exappos_grows_refl].
    by apply remove_aliases_Ok in Hs4 as (?%same_context_grows & _). }
  assert (exappos_grows s4 st') as H5.
  { destruct (negb (_use_exappos s4));
      [|inversion H; subst; apply exappos_grows_refl].
    by apply remove_exappos_Ok in H as (?%same_context_grows & _). }
  eapply exappos_grows_trans; [exact Hs1|].
  eapply exappos_grows_trans; [exact H2|].
  eapply exappos_grows_trans; [exact H3|].
  eapply exappos_grows_trans; [exact H4|exact H5].
Qed.

Lemma convert_paragraph_grows paragraph st out st' out' :
  convert_paragraph paragraph (st, out) = Ok (st', out') →
  exappos_grows st st'.
Proof.
  unfold convert_paragraph.
  intros (s1 & Hs1 & H)%bind_Ok.
  apply bind_Ok in H as (s2 & Hs2%get_coref_info_grows & H).
  apply bind_Ok in H as (s3 & Hs3 & H). inversion H; subst st' out'; clear H.
  apply get_paragraph_data_exact in Hs1. subst s1.
  unfold _accumulate_mention_type_counts in Hs3.
  apply accumulate_loop_counts in Hs3 as (counts & -> & _).
  destruct Hs2 as [Hf Hmore]. split; [done|]. exact Hmore.
Qed.

Lemma convert_loop_grows paragraphs st out st' out' :
  for_each convert_paragraph paragraphs (st, out) = Ok (st', out') →
  exappos_grows st st'.
Proof.
  revert st out. induction paragraphs as [|p ps IH]; intros st out H.
  - simpl in H. inversion H; subst. apply exappos_grows_refl.
  - cbn [for_each] in H. apply bind_Ok in H as ([s1 out1] & Hstep & H).
    eapply exappos_grows_trans; [by eapply convert_paragraph_grows|].
    by eapply IH.
Qed.

Lemma core_of_reset st st0 :
  st = reset st → same_flags st0 st →
  _exappos_mentions st = _exappos_mentions st0 →
  core st = core (reset st0).
Proof.
  intros Hreset (?&?&?&?) He. rewrite Hreset. destruct st, st0.
  unfold core, reset. simpl in *. by subst.
Qed.

(** The loop of the conversion when the list of extended appositives is
    empty at its end. *)
Lemma convert_loop_alone paragraphs st0 st out st' out' :
  core st = core (reset st0) → _exappos_mentions st0 = [] →
  for_each convert_paragraph paragraphs (st, out) = Ok (st', out') →
  _exappos_mentions st' = [] →
  ∃ new,
    out' = out ++ new ∧
    Forall2 (λ paragraph record,
               records (convert_paragraph paragraph (reset st0, []))
               = Ok [record]) paragraphs new.
Proof.
  intros Hcore Hempty0. revert st out Hcore.
  induction paragraphs as [|p ps IH]; intros st out Hcore H Hempty.
  - simpl in H. inversion H; subst. exists []. by rewrite app_nil_r.
  - cbn [for_each] in H. apply bind_Ok in H as ([s1 out1] & Hstep & H).
    pose proof (convert_loop_grows _ _ _ _ _ H) as [_ (more & Hmore & _)].
    rewrite Hempty in Hmore. symmetry in Hmore.
    apply app_eq_nil in Hmore as [He1 _].
    pose proof (convert_paragraph_step _ _ _ _ _ Hstep)
      as (record & -> & _ & _ & Hflags & Hreset & _).
    pose proof (convert_paragraph_reads_core p st (reset st0) out Hcore)
      as Hsame.
    rewrite Hstep in Hsame.
    rewrite (convert_paragraph_output p (reset st0) out) in Hsame.
    destruct (convert_paragraph p (reset st0, [])) as [[s0 out0]|e] eqn:Hrun0;
      [|done].
    simpl in Hsame.
    assert ((core s1, out ++ [record]) = (core s0, out ++ out0)) as Heq
      by congruence.
    pose proof (f_equal snd Heq) as Hout. cbn [snd] in Hout. clear Heq Hsame.
    pose proof (convert_paragraph_step _ _ _ _ _ Hrun0)
      as (record0 & Hrecord0 & _).
    simpl in Hrecord0. subst out0. apply app_inv_head in Hout.
    injection Hout as <-.
    destruct (IH s1 (out ++ [record])) as (new & -> & Hall); [|done|done|].
    + apply core_of_reset; [done| |].
      * apply core_flags in Hcore. unfold same_flags in *.
        destruct Hcore as (?&?&?&?), Hflags as (?&?&?&?).
        split_and!; simpl in *; congruence.
      * by rewrite He1, Hempty0.
    + exists (record :: new). split; [by rewrite <- app_assoc|].
      constructor; [|done]. unfold records. by rewrite Hrun0.
Qed.

(** X17.  Paragraphs are converted on their own.  Over a conversion by a
    new object the list of extended appositives stays empty when
    [use_exappos] is on.  Whenever that list is empty at the end of the
    conversion, every record is the record its paragraph gives when a new
    object with the same flags converts it alone: no record depends on the
    paragraphs before it, on the statistics or on what was printed. *)
Theorem paragraphs_are_converted_alone
  use_appos use_exappos use_aliases remove_singletons data st' output :
  convert_tsv_to_jsonl data
    (__init__ use_appos use_exappos use_aliases remove_singletons)
  = Ok (st', output) →
  (use_exappos = true → _exappos_mentions st' = [])
  ∧ (_exappos_mentions st' = [] →
     Forall2 (λ paragraph record,
                records (convert_paragraph paragraph
                           (__init__ use_appos use_exappos use_aliases
                              remove_singletons, []))
                = Ok [record])
       (Py.split (newline +:+ newline) data) output).
Proof.
  unfold convert_tsv_to_jsonl. intros Hrun. split.
  - intros ->. apply convert_loop_grows in Hrun as [_ (more & -> & Hmore)].
    by rewrite Hmore.
  - intros Hempty.
    destruct (convert_loop_alone _
                (__init__ use_appos use_exappos use_aliases remove_singletons)
                _ _ _ _ eq_refl eq_refl Hrun Hempty) as (new & -> & Hall).
    exact Hall.
Qed.

Lemma paragraphs_are_converted_alone_witness :
  ∃ st' output,
    convert_tsv_to_jsonl
      (docstring_paragraph +:+ newline +:+ newline +:+ plain_paragraph)
      (__init__ true false false true) = Ok (st', output)
    ∧ _exappos_mentions st' = []
    ∧ Forall2 (λ paragraph record,
                 records (convert_paragraph paragraph
                            (__init__ true false false true, []))
                 = Ok [record])
        (Py.split (newline +:+ newline)
           (docstring_paragraph +:+ newline +:+ newline +:+ plain_paragraph))
        output.
Proof.
  destruct (convert_tsv_to_jsonl
              (docstring_paragraph +:+ newline +:+ newline +:+ plain_paragraph)
              (__init__ true false false true))
    as [[st' output]|e] eqn:Hrun; [|vm_compute in Hrun; discriminate].
  exists st', output. split; [reflexivity|].
  assert (_exappos_mentions st' = []) as Hempty.
  { pose proof Hrun as Hvalue. vm_compute in Hvalue.
    injection Hvalue as <- _. reflexivity. }
  split; [exact Hempty|].
  exact (proj2 (paragraphs_are_converted_alone true false false true _ st'
                  output Hrun) Hempty).
Defined.

(** ** What a label names *)

Lemma rev_app_rev_app (s a b : string) :
  String.rev_app (String.rev_app s a) b = String.rev_app a (s +:+ b).
Proof.
  revert a b. induction s as [|c s IH]; intros a b; [done|].
  change (String c s +:+ b) with (String c (s +:+ b)).
  cbn [String.rev_app]. by rewrite IH.
Qed.

Lemma append_empty_r (s : string) : s +:+ "" = s.
Proof.
  induction s as [|c s IH]; [done|].
  change (String c s +:+ "") with (String c (s +:+ "")). by rewrite IH.
Qed.

Lemma rev_rev_app (s : string) : String.rev (String.rev_app s "") = s.
Proof.
  unfold String.rev. rewrite rev_app_rev_app. cbn [String.rev_app].
  change ("" +:+ (s +:+ "")) with (s +:+ ""). apply append_empty_r.
Qed.

Lemma contains_bracket_cons c s :
  Py.contains "[" (String c s) = false →
  c ≠ "["%char ∧ Py.contains "[" s = false.
Proof.
  cbn [Py.contains String.prefix]. destruct (ascii_dec "[" c) as [<-|Hne].
  - by destruct s.
  - simpl. intros ->. split; [congruence|done].
Qed.

Lemma split_bracket_field (field rest cur : string) :
  Py.contains "[" field = false →
  Py.split_aux "[" 0 cur (field +:+ rest)
  = Py.split_aux "[" 0 (String.rev_app field cur) rest.
Proof.
  revert cur. induction field as [|c field IH]; intros cur Hno; [done|].
  apply contains_bracket_cons in Hno as [Hc Hno].
  change ((String c field) +:+ rest) with (String c (field +:+ rest)).
  cbn [Py.split_aux String.prefix String.rev_app].
  destruct (ascii_dec "[" c) as [<-|_]; [done|]. by apply IH.
Qed.

Lemma split_bracket_last (field cur : string) :
  Py.contains "[" field = false →
  Py.split_aux "[" 0 cur field = [String.rev (String.rev_app field cur)].
Proof.
  intros Hno. rewrite <- (append_empty_r field) at 1.
  by rewrite split_bracket_field.
Qed.

Lemma split_bracket (before after : string) :
  Py.contains "[" before = false → Py.contains "[" after = false →
  Py.split "[" (before +:+ "[" +:+ after) = [before; after].
Proof.
  intros Hb Ha. unfold Py.split. rewrite split_bracket_field by done.
  change ("[" +:+ after) with (String "[" after).
  cbn [Py.split_aux String.prefix String.length]. 
  destruct (ascii_dec "[" "[") as [_|?]; [|done].
  destruct after as [|c after]; cbn [String.prefix].
  - simpl. by rewrite rev_rev_app.
  - change (1 - 1)%nat with 0%nat. rewrite rev_rev_app. f_equal.
    rewrite split_bracket_last by done. by rewrite rev_rev_app.
Qed.

Lemma contains_bracket_close (s : string) :
  Py.contains "[" s = false → Py.contains "[" (s +:+ "]") = false.
Proof.
  induction s as [|c s IH]; [done|]. intros [Hc Hs]%contains_bracket_cons.
  change (String c s +:+ "]") with (String c (s +:+ "]")).
  cbn [Py.contains String.prefix].
  destruct (ascii_dec "[" c) as [<-|_]; [done|]. simpl. by apply IH.
Qed.

Lemma drop_last_close (s : string) : Py.drop_last (s +:+ "]") = s.
Proof.
  induction s as [|c s IH]; [done|].
  change (String c s +:+ "]") with (String c (s +:+ "]")).
  cbn [Py.drop_last]. rewrite IH. by destruct s.
Qed.

(** X18.  What a label names.  For a label made of a type, an opening
    bracket, an identifier and a closing bracket, where neither the type nor
    the identifier holds an opening bracket, the type the code reads is the
    type and the identifier it reads is the integer value of the
    identifier. *)
Theorem bracketed_label_fields (type id : string) :
  Py.contains "[" type = false → Py.contains "[" id = false →
  label_prefix (type +:+ "[" +:+ id +:+ "]") = type
  ∧ mention_id_of (type +:+ "[" +:+ id +:+ "]") = Py.int id.
Proof.
  intros Htype Hid. unfold label_prefix, mention_id_of.
  rewrite split_bracket by (done || by apply contains_bracket_close).
  split; [done|].
  change (Py.index [type; id +:+ "]"] 1) with (Ok (id +:+ "]")).
  rewrite bind_ret. by rewrite drop_last_close.
Qed.

Lemma bracketed_label_fields_witness :
  Py.contains "[" "NOUN" = false ∧ Py.contains "[" "12" = false
  ∧ label_prefix ("NOUN" +:+ "[" +:+ "12" +:+ "]") = "NOUN"
  ∧ mention_id_of ("NOUN" +:+ "[" +:+ "12" +:+ "]") = Py.int "12".
Proof.
  split; [reflexivity|]. split; [reflexivity|].
  apply (bracketed_label_fields "NOUN" "12"); reflexivity.
Defined.

(** ** The pairs of a paragraph *)

Lemma link_label_pairs label :
  reads_core pairs_only pairs_only (_extract_coreference_links_label label).
Proof.
  intros [s1 mps1 aps1] [s2 mps2 aps2] Hs. destruct s1, s2.
  unfold pairs_only in Hs. simpl in Hs. injection Hs as ? ?. subst.
  unfold _extract_coreference_links_label.
  repeat (cbv [mbind result_bind]; simpl; case_match; simplify_eq/=);
    try done.
Qed.

(** The pairs the first loop collects depend on the label lists only. *)
Lemma read_links_pairs st links :
  read_links st = Ok links →
  relation_pairs (_labels st) = mention_pairs links
  ∧ apposition_pairs (_labels st) = appositive_pairs links.
Proof.
  intros Hlinks. unfold relation_pairs, apposition_pairs, paragraph_links.
  assert (pairs_only <$> read_links st
          = pairs_only
              <$> read_links
                    (paragraph_state false false false false [] (_labels st)))
    as Hsame.
  { unfold read_links.
    change (_labels (paragraph_state false false false false [] (_labels st)))
      with (_labels st).
    apply (for_each_reads_core pairs_only); [|done].
    intros label_list. apply for_each_reads_core. apply link_label_pairs. }
  rewrite Hlinks in Hsame.
  destruct (read_links (paragraph_state _ _ _ _ _ _)) as [links0|e];
    [|done].
  simpl in Hsame. assert (pairs_only links = pairs_only links0) as Heq
    by congruence.
  split.
  - exact (eq_sym (f_equal mention_pairs Heq)).
  - exact (eq_sym (f_equal appositive_pairs Heq)).
Qed.

Lemma group_nil (pairs : list MentionPair) :
  _group_mentions_into_clusters pairs = [] ↔ pairs = [].
Proof.
  split; [|by intros ->]. destruct pairs as [|p ps]; [done|]. simpl.
  assert (∀ clusters, clusters ≠ [] → fold_left add_pair ps clusters ≠ [])
    as Hfold.
  { induction ps as [|q ps IH]; intros clusters Hne; [done|]. simpl.
    apply IH. pose proof (add_pair_length clusters q) as [Hlen _].
    intros Heq. rewrite Heq in Hlen. destruct clusters; [done|].
    simpl in Hlen. lia. }
  intros Hnil. by destruct (Hfold [set_of_pair p]).
Qed.

(** The clusters a paragraph is left with are as many as the clusters of
    its coreference pairs. *)
Lemma get_coref_info_clusters st st' :
  get_coref_info st = Ok st' →
  length (_clusters st')
  = length (_group_mentions_into_clusters (relation_pairs (_labels st))).
Proof.
  unfold get_coref_info.
  intros (s1 & Hs1 & H)%bind_Ok.
  apply bind_Ok in H as (s2 & Hs2 & H).
  apply bind_Ok in H as (s3 & Hs3 & H).
  apply bind_Ok in H as (s4 & Hs4 & H).
  apply extract_mentions_frame in Hs1 as (_ & _ & Hlabels).
  assert (_clusters s2
          = _group_mentions_into_clusters (relation_pairs (_labels st)))
    as H2.
  { unfold _extract_coreference_links in Hs2.
    apply bind_Ok in Hs2 as (links & Hlinks & Hs2).
    apply read_links_pairs in Hlinks as [Hpairs _]. rewrite Hlabels in Hpairs.
    apply bind_Ok in Hs2 as (sb & _ & Hs2).
    apply bind_Ok in Hs2 as (sc & _ & Hs2). inversion Hs2. simpl.
    by rewrite Hpairs. }
  apply assign_exact in Hs3.
  assert (_clusters s3 = _clusters s2) as H3 by (by subst s3).
  assert (length (_clusters s4) = length (_clusters s3)) as H4.
  { destruct (negb (_use_aliases s3)); [|by inversion Hs4; subst].
    rewrite remove_aliases_loop in Hs4. apply remove_loop_exact in Hs4.
    subst s4. simpl. by rewrite length_fmap. }
  rewrite <- H2, <- H3, <- H4.
  destruct (negb (_use_exappos s4)); [|by inversion H; subst].
  rewrite remove_exappos_loop in H. apply remove_loop_exact in H.
  subst st'. simpl. by rewrite length_fmap.
Qed.

Lemma convert_paragraph_clusters paragraph st out st' out' :
  convert_paragraph paragraph (st, out) = Ok (st', out') →
  cluster_count (_statistics st')
  = cluster_count (_statistics st)
    + Py.len (_group_mentions_into_clusters
                (relation_pairs (paragraph_labels paragraph))).
Proof.
  unfold convert_paragraph.
  intros (s1 & Hs1 & H)%bind_Ok.
  apply bind_Ok in H as (s2 & Hs2 & H).
  apply bind_Ok in H as (s3 & Hs3 & H). inversion H; subst st' out'; clear H.
  apply get_paragraph_data_exact in Hs1. subst s1.
  pose proof (get_coref_info_clusters _ _ Hs2) as Hclusters.
  apply get_coref_info_frame in Hs2 as [_ (_ & _ & _ & _ & _ & Hc)].
  unfold _accumulate_mention_type_counts in Hs3.
  apply accumulate_loop_counts in Hs3 as (counts & -> & _).
  simpl in *. unfold Py.len. rewrite Hclusters, Hc. done.
Qed.

Lemma convert_loop_clusters paragraphs st out st' out' :
  for_each convert_paragraph paragraphs (st, out) = Ok (st', out') →
  cluster_count (_statistics st')
  = cluster_count (_statistics st)
    + Py.len (paragraphs ≫= λ paragraph,
                _group_mentions_into_clusters
                  (relation_pairs (paragraph_labels paragraph))).
Proof.
  revert st out. induction paragraphs as [|p ps IH]; intros st out H.
  - simpl in H. inversion H; subst. unfold Py.len. simpl. lia.
  - cbn [for_each] in H. apply bind_Ok in H as ([s1 out1] & Hstep & H).
    apply convert_paragraph_clusters in Hstep. apply IH in H.
    rewrite H, Hstep. unfold Py.len. rewrite bind_cons, length_app. lia.
Qed.

(** X15.  The statistics need a cluster.  After a conversion by a new
    object the paragraph count is not zero, so the averages per paragraph
    are printed, and the cluster count is the number of clusters that the
    coreference pairs of the paragraphs make, paragraph by paragraph.  The
    average cluster size divides by the cluster count: the call that prints
    the statistics at the end of the conversion ends with
    [ZeroDivisionError] exactly when no paragraph left a cluster, that is
    when no paragraph holds a coreference pair. *)
Theorem statistics_need_a_cluster
  use_appos use_exappos use_aliases remove_singletons data st' output :
  convert_tsv_to_jsonl data
    (__init__ use_appos use_exappos use_aliases remove_singletons)
  = Ok (st', output) →
  paragraph_count (_statistics st') ≠ 0
  ∧ cluster_count (_statistics st')
    = Py.len (Py.split (newline +:+ newline) data ≫= λ paragraph,
                _group_mentions_into_clusters
                  (relation_pairs (paragraph_labels paragraph)))
  ∧ ((∃ lines, log_dataset_statistics st' = ZeroDivisionError lines)
     ↔ Forall (λ paragraph,
                 _group_mentions_into_clusters
                   (relation_pairs (paragraph_labels paragraph)) = [])
         (Py.split (newline +:+ newline) data))
  ∧ ((∃ lines, log_dataset_statistics st' = ZeroDivisionError lines)
     ↔ Forall (λ paragraph, relation_pairs (paragraph_labels paragraph) = [])
         (Py.split (newline +:+ newline) data)).
Proof.
  intros Hrun.
  assert (paragraph_count (_statistics st') ≠ 0) as Hp.
  { unfold convert_tsv_to_jsonl in Hrun.
    pose proof (split_nonempty (newline +:+ newline) data) as Hne.
    apply convert_loop_step in Hrun as (new & -> & Hall & _ & _ & Hp & _).
    rewrite Hp. simpl. destruct new; [|unfold Py.len; simpl; lia].
    by apply Forall2_nil_inv_r in Hall. }
  unfold convert_tsv_to_jsonl in Hrun.
  pose proof (convert_loop_clusters _ _ _ _ _ Hrun) as Hcount.
  simpl in Hcount.
  assert ((∃ lines, log_dataset_statistics st' = ZeroDivisionError lines)
          ↔ Forall (λ paragraph,
                      _group_mentions_into_clusters
                        (relation_pairs (paragraph_labels paragraph)) = [])
              (Py.split (newline +:+ newline) data)) as Hzero.
  { rewrite (log_zero_division st' Hp), Hcount.
    generalize (Py.split (newline +:+ newline) data). intros paragraphs.
    unfold Py.len. induction paragraphs as [|p ps IH].
    - split; [by constructor|done].
    - rewrite bind_cons, length_app, Forall_cons. split.
      + intros H0. split; [apply length_zero_iff_nil; lia|apply IH; lia].
      + intros [-> Hps%IH]. simpl. lia. }
  split_and!; [done|done|done|].
  rewrite Hzero. apply Forall_iff. intros paragraph. apply group_nil.
Qed.

Lemma statistics_need_a_cluster_witness :
  ∃ st' output,
    convert_tsv_to_jsonl
      (docstring_paragraph +:+ newline +:+ newline +:+ plain_paragraph)
      (__init__ true false false false)
    = Ok (st', output)
    ∧ (relation_pairs ∘ paragraph_labels
         <$> Py.split (newline +:+ newline)
               (docstring_paragraph +:+ newline +:+ newline +:+ plain_paragraph))
      = [[(1, 3)]; []]
    ∧ paragraph_count (_statistics st') ≠ 0
    ∧ cluster_count (_statistics st')
      = Py.len (Py.split (newline +:+ newline)
                  (docstring_paragraph +:+ newline +:+ newline
                   +:+ plain_paragraph) ≫= λ paragraph,
                  _group_mentions_into_clusters
                    (relation_pairs (paragraph_labels paragraph)))
    ∧ ((∃ lines, log_dataset_statistics st' = ZeroDivisionError lines)
       ↔ Forall (λ paragraph,
                   _group_mentions_into_clusters
                     (relation_pairs (paragraph_labels paragraph)) = [])
           (Py.split (newline +:+ newline)
              (docstring_paragraph +:+ newline +:+ newline
               +:+ plain_paragraph)))
    ∧ ((∃ lines, log_dataset_statistics st' = ZeroDivisionError lines)
       ↔ Forall (λ paragraph,
                   relation_pairs (paragraph_labels paragraph) = [])
           (Py.split (newline +:+ newline)
              (docstring_paragraph +:+ newline +:+ newline
               +:+ plain_paragraph))).
Proof.
  destruct (convert_tsv_to_jsonl
              (docstring_paragraph +:+ newline +:+ newline +:+ plain_paragraph)
              (__init__ true false false false))
    as [[st' output]|e] eqn:Hrun; [|vm_compute in Hrun; discriminate].
  exists st', output. split; [reflexivity|]. split; [vm_compute; reflexivity|].
  exact (statistics_need_a_cluster true false false false _ st' output Hrun).
Defined.

(** ** What a conversion leaves *)

(** X7.  One record per paragraph.  A conversion that returns emits one
    record for each piece of the input between blank lines, in order, and at
    least one.  The text of a record is the first line of its paragraph
    without the first six characters and its tokens are the third fields of
    the token lines of the paragraph: coreference processing changes
    neither.  The object is left with its flags unchanged and with the text,
    the token and label lists, the mention dictionary, the cluster list, the
    alias list and the bare-appositive set empty.  The list of extended
    appositives is not emptied: it holds what it held before the conversion
    and, after that, what the paragraphs added, which is nothing when
    [use_exappos] is on. *)
Theorem records_follow_the_paragraphs data st st' output :
  convert_tsv_to_jsonl data st = Ok (st', output) →
  Forall2 (λ paragraph record,
             text record = paragraph_text paragraph ∧
             tokens record = paragraph_tokens paragraph)
    (Py.split (newline +:+ newline) data) output
  ∧ output ≠ []
  ∧ (_text st' = EmptyString ∧ _tokens st' = [] ∧ _labels st' = []
     ∧ _mention_dict st' = [] ∧ _clusters st' = [] ∧ _aliases st' = []
     ∧ _appos_mentions st' = ∅)
  ∧ (∃ more, _exappos_mentions st' = _exappos_mentions st ++ more
             ∧ (_use_exappos st = true → more = []))
  ∧ same_flags st st'.
Proof.
  unfold convert_tsv_to_jsonl. intros H.
  pose proof (split_nonempty (newline +:+ newline) data) as Hne.
  pose proof (convert_loop_grows _ _ _ _ _ H) as [_ Hgrows].
  apply convert_loop_step in H as (new & -> & Hall & Hf & Hreset & _).
  specialize (Hreset Hne).
  simpl. split_and!; try done; try (by rewrite Hreset).
  intros ->. apply Forall2_nil_inv_r in Hall. done.
Qed.

Lemma records_follow_the_paragraphs_witness :
  ∃ st' output,
    convert_tsv_to_jsonl (plain_paragraph +:+ newline +:+ newline
                          +:+ exappos_paragraph)
      (__init__ false false false false) = Ok (st', output)
    ∧ (text <$> output) = ["c d"; "a b"]
    ∧ _exappos_mentions st' = [2]
    ∧ Forall2 (λ paragraph record,
                 text record = paragraph_text paragraph ∧
                 tokens record = paragraph_tokens paragraph)
        (Py.split (newline +:+ newline)
           (plain_paragraph +:+ newline +:+ newline +:+ exappos_paragraph))
        output
    ∧ output ≠ []
    ∧ (_text st' = EmptyString ∧ _tokens st' = [] ∧ _labels st' = []
       ∧ _mention_dict st' = [] ∧ _clusters st' = [] ∧ _aliases st' = []
       ∧ _appos_mentions st' = ∅)
    ∧ (∃ more,
         _exappos_mentions st'
         = _exappos_mentions (__init__ false false false false) ++ more
         ∧ (_use_exappos (__init__ false false false false) = true
            → more = []))
    ∧ same_flags (__init__ false false false false) st'.
Proof.
  destruct (convert_tsv_to_jsonl
              (plain_paragraph +:+ newline +:+ newline +:+ exappos_paragraph)
              (__init__ false false false false))
    as [[st' output]|e] eqn:Hrun; [|vm_compute in Hrun; discriminate].
  exists st', output. split; [reflexivity|].
  pose proof Hrun as Hvalue. vm_compute in Hvalue.
  split; [injection Hvalue as _ <-; reflexivity|].
  split; [injection Hvalue as <- _; reflexivity|].
  exact (records_follow_the_paragraphs _ _ st' output Hrun).
Defined.

(** ** The spans of the emitted mentions, mention by mention *)










